(** * VaultFace: the aggregation and reporting pipeline, embedded and verified

    The dashboard widgets, the two entry forms, the statement upload page and
    the summary endpoint of the application are TypeScript functions over
    Firestore documents.  This development embeds them as Rocq functions,
    one module per source file, and then states and proves the properties
    of the aggregation pipeline.

    Modelling conventions.
    - A JavaScript number is an exact rational or [NaN].  Binary rounding,
      signed zero and the infinities of IEEE-754 are outside the model, so
      sums are exact.  The program's sums are exact too on whole amounts
      whose magnitudes stay within [2^53] ([Spec.exactSums]): the
      properties that compare sums taken in different orders, or test a
      sum against 0, are stated for such amounts, and the lemmas on sums
      that carry no such hypothesis hold in exact arithmetic.
    - A string is a sequence of 8-bit characters; the white space of
      [trim], of [\s] and of [parseFloat] is the ASCII white space.
    - A [Date] holds a time value in milliseconds since the epoch, or is the
      Invalid Date.  Local time is UTC shifted by a constant offset [tza]
      (no daylight-saving transitions).  [new Date(string)] reads the
      ECMAScript date-time string format, the one format the standard
      fixes; a text in another format, which an engine may or may not
      accept, reads as the Invalid Date.  Month and day names are the
      English ones.
    - An object used as a map from text to totals is a finite map of its
      own keys where the keys are month names or where only the totals are
      at stake.  The map of the category chart, whose order of keys and
      whose inherited properties show in the result, is an [Obj.t]: own
      properties in the order of their creation, and reads that find what
      every object inherits.
    - A Firestore document exposes the fields the code reads: the amount
      and the date hold any value, the text fields a string or nothing.
      The store is a pair of record lists; a query by owner is a filter,
      and [addDoc] appends.  The statement upload, which writes a batch,
      is also modelled on a store that rejects a write.
    - A handler is a function from its inputs (props, form state, store,
      clock) to what it leaves behind (component state, notice, store).
      [None] stands for a thrown exception where the code can throw. *)

From Stdlib Require Import ZArith QArith Qabs Qcanon Qround Ascii String Lia.
From stdpp Require Import gmap strings list fin_maps pretty sorting.

Local Open Scope Z_scope.

(* ===================================================================== *)
(** * Part I: the embedding *)
(* ===================================================================== *)

(** ** Numbers *)

Inductive number :=
| Fin (q : Qc)
| NaN.

Global Instance number_eq_dec : EqDecision number.
Proof. solve_decision. Defined.

Module Num.

Definition of_Z (z : Z) : number := Fin (Q2Qc (inject_Z z)).

(** the exact quotient [a / b] of an integer by a positive integer *)
Definition ratio (a : Z) (b : positive) : number := Fin (Q2Qc (a # b)).

Definition zero : number := of_Z 0.

Definition add (a b : number) : number :=
  match a, b with
  | Fin x, Fin y => Fin (x + y)%Qc
  | _, _ => NaN
  end.

Definition sub (a b : number) : number :=
  match a, b with
  | Fin x, Fin y => Fin (x - y)%Qc
  | _, _ => NaN
  end.

Definition mul (a b : number) : number :=
  match a, b with
  | Fin x, Fin y => Fin (x * y)%Qc
  | _, _ => NaN
  end.

(** [a / b]; a division by zero has no finite value and reads as [NaN]
    in the model. *)
Definition div (a b : number) : number :=
  match a, b with
  | Fin x, Fin y => if Qeq_bool y 0 then NaN else Fin (x / y)%Qc
  | _, _ => NaN
  end.

(** unary minus *)
Definition neg (a : number) : number :=
  match a with
  | Fin x => Fin (- x)%Qc
  | NaN => NaN
  end.

Definition isNaN (a : number) : bool :=
  match a with
  | Fin _ => false
  | NaN => true
  end.

Definition cmp (a b : number) : option comparison :=
  match a, b with
  | Fin x, Fin y => Some (x ?= y)%Qc
  | _, _ => None
  end.

(** [a < b], [a <= b], [a > b], [a >= b]: false as soon as one side is NaN *)
Definition lt (a b : number) : bool :=
  match cmp a b with Some Lt => true | _ => false end.
Definition le (a b : number) : bool :=
  match cmp a b with Some Lt | Some Eq => true | _ => false end.
Definition gt (a b : number) : bool := lt b a.
Definition ge (a b : number) : bool := le b a.

(** [a === b] on numbers *)
Definition strict_eq (a b : number) : bool :=
  match cmp a b with Some Eq => true | _ => false end.

(** ToBoolean on a number: [0] and [NaN] are falsy *)
Definition truthy (a : number) : bool :=
  match a with
  | Fin x => negb (strict_eq a zero)
  | NaN => false
  end.

(** [a || b] where both sides are numbers *)
Definition or (a b : number) : number := if truthy a then a else b.

(** [Math.abs] *)
Definition abs (a : number) : number := if lt a zero then neg a else a.

(** truncation towards zero (ToIntegerOrInfinity on a finite number) *)
Definition trunc (q : Qc) : Z :=
  if Qle_bool 0 q then Qfloor q else Qceiling q.

(** [m * 10^k] *)
Definition scale10 (m k : Z) : number :=
  if 0 <=? k then of_Z (m * 10 ^ k) else ratio m (Z.to_pos (10 ^ (- k))).

(** a number used as an array index: the index it names, if any *)
Definition toIndex (a : number) : option nat :=
  match a with
  | Fin q =>
      if (Zpos (Qden q) =? 1) && (0 <=? Qnum q) then Some (Z.to_nat (Qnum q))
      else None
  | NaN => None
  end.

(** the sum of a list of numbers *)
Definition sum (l : list number) : number := foldr add zero l.

End Num.

(** ** Characters and strings *)

Module Str.

Definition isWhiteSpace (c : ascii) : bool :=
  let n := nat_of_ascii c in
  ((9 <=? n) && (n <=? 13))%nat || (n =? 32)%nat.

Definition isDigit (c : ascii) : bool :=
  let n := nat_of_ascii c in ((48 <=? n) && (n <=? 57))%nat.

Definition digitVal (c : ascii) : Z := Z.of_nat (nat_of_ascii c) - 48.

Fixpoint trimStart (s : string) : string :=
  match s with
  | String c r => if isWhiteSpace c then trimStart r else s
  | EmptyString => EmptyString
  end.

Fixpoint rev_acc (s acc : string) : string :=
  match s with
  | String c r => rev_acc r (String c acc)
  | EmptyString => acc
  end.

Definition rev (s : string) : string := rev_acc s EmptyString.

Definition trimEnd (s : string) : string := rev (trimStart (rev s)).

(** [s.trim()] *)
Definition trim (s : string) : string := trimEnd (trimStart s).

(** [s.startsWith(p)] *)
Fixpoint startsWith (p s : string) : bool :=
  match p, s with
  | EmptyString, _ => true
  | String a p', String b s' => if Ascii.eqb a b then startsWith p' s' else false
  | String _ _, EmptyString => false
  end.

(** [s.includes(p)] *)
Fixpoint includes (p s : string) : bool :=
  startsWith p s ||
  match s with
  | String _ s' => includes p s'
  | EmptyString => false
  end.

(** [s.split(sep)] for a one-character separator: the pieces between the
    separators, empty pieces included. *)
Fixpoint split_go (sep : ascii) (s cur : string) : list string :=
  match s with
  | EmptyString => [rev cur]
  | String c r =>
      if Ascii.eqb c sep then rev cur :: split_go sep r EmptyString
      else split_go sep r (String c cur)
  end.

Definition split (sep : ascii) (s : string) : list string :=
  split_go sep s EmptyString.

(** [xs.join(sep)] *)
Fixpoint join (sep : string) (xs : list string) : string :=
  match xs with
  | [] => EmptyString
  | [x] => x
  | x :: rest => x ++ sep ++ join sep rest
  end.

(** [s.replace(/c/g, by)] for a single character [c] *)
Fixpoint replaceAllChar (c : ascii) (by_ : string) (s : string) : string :=
  match s with
  | EmptyString => EmptyString
  | String a r =>
      if Ascii.eqb a c then by_ ++ replaceAllChar c by_ r
      else String a (replaceAllChar c by_ r)
  end.

(** ToBoolean on a string: only the empty string is falsy *)
Definition truthy (s : string) : bool :=
  match s with EmptyString => false | _ => true end.

Definition dquote : ascii := "034"%char.
Definition newline : ascii := "010"%char.

(** [s.toLowerCase()] on ASCII letters *)
Definition lowerChar (c : ascii) : ascii :=
  let n := nat_of_ascii c in
  if ((65 <=? n) && (n <=? 90))%nat then ascii_of_nat (n + 32) else c.

Fixpoint toLowerCase (s : string) : string :=
  match s with
  | EmptyString => EmptyString
  | String c r => String (lowerChar c) (toLowerCase r)
  end.

(** [s.padStart(w, "0")] *)
Definition padStart0 (w : nat) (s : string) : string :=
  string_of_list_ascii (replicate (w - String.length s) "0"%char) ++ s.

End Str.

(** ** Numbers and strings *)

Module NumStr.

(** [x.toFixed(f)]: the integer [n] with [n / 10^f] nearest to [|x|]
    (the larger one on a tie), printed with [f] decimals.  From [10^21]
    on an engine prints the exponent form of the double instead, which is
    outside the model. *)
Definition toFixed (f : nat) (x : number) : string :=
  match x with
  | NaN => "NaN"
  | Fin q =>
      let sign : string := if Qle_bool 0 q then EmptyString else "-" in
      let a : Q := Qabs q in
      let n := Qfloor (a * inject_Z (10 ^ Z.of_nat f) + (1 # 2)) in
      let ds := Str.padStart0 (S f) (pretty n) in
      let k := (String.length ds - f)%nat in
      let ip := String.substring 0 k ds in
      let fp := String.substring k f ds in
      match f with
      | O => sign ++ ip
      | S _ => sign ++ ip ++ "." ++ fp
      end
  end.

(** the longest run of decimal digits at the head of [s]: the integer
    they spell after [acc], how many there are, and the rest *)
Fixpoint read_digits (acc : Z) (cnt : Z) (s : string) : Z * Z * string :=
  match s with
  | String c r =>
      if Str.isDigit c then read_digits (acc * 10 + Str.digitVal c) (cnt + 1) r
      else (acc, cnt, s)
  | EmptyString => (acc, cnt, s)
  end.

(** the value of an exponent part at the head of [s], 0 when there is none *)
Definition read_exponent (s : string) : Z :=
  match s with
  | String c r =>
      if Ascii.eqb c "e" || Ascii.eqb c "E" then
        let '(sg, r1) :=
          match r with
          | String "-" r' => (-1, r')
          | String "+" r' => (1, r')
          | _ => (1, r)
          end in
        let '(e, cnt, _) := read_digits 0 0 r1 in
        if cnt =? 0 then 0 else sg * e
      else 0
  | EmptyString => 0
  end.

(** [parseFloat(s)]: the longest decimal literal after the leading white
    space, or [NaN] when there is none.  (The literal [Infinity] has no
    value in the model and reads as [NaN].) *)
Definition parseFloat (s : string) : number :=
  let s0 := Str.trimStart s in
  let '(sg, s1) :=
    match s0 with
    | String "-" r => (-1, r)
    | String "+" r => (1, r)
    | _ => (1, s0)
    end in
  let '(ip, nint, s2) := read_digits 0 0 s1 in
  let '(m, nfrac, s3) :=
    match s2 with
    | String "." r => read_digits ip 0 r
    | _ => (ip, 0, s2)
    end in
  if nint + nfrac =? 0 then NaN
  else Num.scale10 (sg * m) (read_exponent s3 - nfrac).

End NumStr.

(** ** Dates

    The time arithmetic follows the ECMAScript specification (Day,
    TimeWithinDay, MakeDay, MakeTime, MakeDate, TimeClip, LocalTime); the
    year, month and day of a day number are computed with the usual
    era-based calendar algorithm. *)

Inductive Date :=
| ValidDate (t : Z)
| InvalidDate.

Global Instance Date_eq_dec : EqDecision Date.
Proof. solve_decision. Defined.

Module JSDate.

Definition msPerDay : Z := 86400000.

Definition Day (t : Z) : Z := t / msPerDay.
Definition TimeWithinDay (t : Z) : Z := t mod msPerDay.

Record civil := { c_year : Z; c_month : Z (* 1..12 *); c_day : Z (* 1..31 *) }.

(** day of the 400-year era -> year of the era *)
Definition yoe_of_doe (doe : Z) : Z :=
  (doe - doe / 1460 + doe / 36524 - doe / 146096) / 365.

(** day of the era -> day of the (March-based) year *)
Definition doy_of_doe (doe : Z) : Z :=
  let yoe := yoe_of_doe doe in
  doe - (365 * yoe + yoe / 4 - yoe / 100).

Definition civil_from_days (z : Z) : civil :=
  let z := z + 719468 in
  let era := z / 146097 in
  let doe := z mod 146097 in
  let yoe := yoe_of_doe doe in
  let y := yoe + era * 400 in
  let doy := doy_of_doe doe in
  let mp := (5 * doy + 2) / 153 in
  let d := doy - (153 * mp + 2) / 5 + 1 in
  let m := if mp <? 10 then mp + 3 else mp - 9 in
  {| c_year := if m <=? 2 then y + 1 else y; c_month := m; c_day := d |}.

Definition days_from_civil (y m d : Z) : Z :=
  let y := if m <=? 2 then y - 1 else y in
  let era := y / 400 in
  let yoe := y - era * 400 in
  let doy := (153 * (if 2 <? m then m - 3 else m + 9) + 2) / 5 + d - 1 in
  let doe := yoe * 365 + yoe / 4 - yoe / 100 + doy in
  era * 146097 + doe - 719468.

Definition YearFromTime (t : Z) : Z := c_year (civil_from_days (Day t)).
(** 0 = January *)
Definition MonthFromTime (t : Z) : Z := c_month (civil_from_days (Day t)) - 1.
Definition DateFromTime (t : Z) : Z := c_day (civil_from_days (Day t)).
Definition HourFromTime (t : Z) : Z := TimeWithinDay t / 3600000.
Definition MinFromTime (t : Z) : Z := (TimeWithinDay t / 60000) mod 60.
Definition SecFromTime (t : Z) : Z := (TimeWithinDay t / 1000) mod 60.
Definition msFromTime (t : Z) : Z := t mod 1000.

Definition isLeapYear (y : Z) : bool :=
  ((y mod 4 =? 0) && negb (y mod 100 =? 0)) || (y mod 400 =? 0).

Definition DaysInMonth (y m : Z) : Z :=
  if m =? 2 then (if isLeapYear y then 29 else 28)
  else if (m =? 4) || (m =? 6) || (m =? 9) || (m =? 11) then 30
  else 31.

Definition MakeDay (year month date : Z) : Z :=
  let ym := year + month / 12 in
  let mn := month mod 12 in
  days_from_civil ym (mn + 1) 1 + date - 1.

Definition MakeTime (hour min sec ms : Z) : Z :=
  hour * 3600000 + min * 60000 + sec * 1000 + ms.

Definition MakeDate (day time : Z) : Z := day * msPerDay + time.

Definition TimeClip (t : Z) : Date :=
  if 8640000000000000 <? Z.abs t then InvalidDate else ValidDate t.

Definition LocalTime (tza t : Z) : Z := t + tza.
Definition UTC (tza t : Z) : Z := t - tza.

(** [new Date(value)] for a number *)
Definition ofNumber (n : number) : Date :=
  match n with
  | Fin q => TimeClip (Num.trunc q)
  | NaN => InvalidDate
  end.

(** [new Date(year, monthIndex, day)] in local time, for integral
    arguments; a year in 0..99 is taken in the twentieth century. *)
Definition ofFields (tza : Z) (year month day : number) : Date :=
  match year, month, day with
  | Fin y, Fin m, Fin d =>
      let y := Num.trunc y in
      let yr := if (0 <=? y) && (y <=? 99) then 1900 + y else y in
      TimeClip (UTC tza (MakeDate (MakeDay yr (Num.trunc m) (Num.trunc d)) 0))
  | _, _, _ => InvalidDate
  end.

(** [d.getTime()], also the number a Date converts to under [<=], [>=], [-] *)
Definition getTime (d : Date) : number :=
  match d with
  | ValidDate t => Num.of_Z t
  | InvalidDate => NaN
  end.

Definition getFullYear (tza : Z) (d : Date) : number :=
  match d with
  | ValidDate t => Num.of_Z (YearFromTime (LocalTime tza t))
  | InvalidDate => NaN
  end.

Definition getMonth (tza : Z) (d : Date) : number :=
  match d with
  | ValidDate t => Num.of_Z (MonthFromTime (LocalTime tza t))
  | InvalidDate => NaN
  end.

(** *** Parsing: the ECMAScript date-time string format

    [YYYY], [YYYY-MM] or [YYYY-MM-DD] (or a signed six-digit year),
    optionally followed by [THH:mm], [THH:mm:ss] or [THH:mm:ss.sss] and an
    offset [Z], [+HH:mm] or [-HH:mm].  Strings outside the format are
    unparseable in the model (an engine is free to accept more). *)

Fixpoint take_digits (n : nat) (acc : Z) (s : string) : option (Z * string) :=
  match n with
  | O => Some (acc, s)
  | S n' =>
      match s with
      | String c r =>
          if Str.isDigit c then take_digits n' (acc * 10 + Str.digitVal c) r
          else None
      | EmptyString => None
      end
  end.

Definition parse_year (s : string) : option (Z * string) :=
  match s with
  | String "+" r => take_digits 6 0 r
  | String "-" r =>
      '(y, r') ← take_digits 6 0 r;
      if y =? 0 then None else Some (- y, r')
  | _ => take_digits 4 0 s
  end.

(** an optional two-digit field introduced by [sep] *)
Definition parse_opt2 (sep : ascii) (s : string)
  : option (option Z * string) :=
  match s with
  | String c r =>
      if Ascii.eqb c sep then '(v, r') ← take_digits 2 0 r; Some (Some v, r')
      else Some (None, s)
  | EmptyString => Some (None, s)
  end.

Inductive offset :=
| OffLocal
| OffMinutes (m : Z).

Definition parse_offset (s : string) : option offset :=
  match s with
  | EmptyString => Some OffLocal
  | String "Z" EmptyString => Some (OffMinutes 0)
  | String c r =>
      let sign := if Ascii.eqb c "+" then Some 1
                  else if Ascii.eqb c "-" then Some (-1) else None in
      sg ← sign;
      '(h, r1) ← take_digits 2 0 r;
      match r1 with
      | String ":" r2 =>
          '(m, r3) ← take_digits 2 0 r2;
          match r3 with
          | EmptyString =>
              if (h <=? 23) && (m <=? 59) then Some (OffMinutes (sg * (h * 60 + m)))
              else None
          | _ => None
          end
      | _ => None
      end
  end.

(** the time of day in milliseconds and the offset *)
Definition parse_time (s : string) : option (Z * offset) :=
  '(h, r1) ← take_digits 2 0 s;
  match r1 with
  | String ":" r2 =>
      '(mi, r3) ← take_digits 2 0 r2;
      '(osec, r4) ← parse_opt2 ":" r3;
      '(sec, ms, r5) ←
        match osec with
        | None => Some (0, 0, r4)
        | Some sec =>
            match r4 with
            | String "." r' => '(ms, r'') ← take_digits 3 0 r'; Some (sec, ms, r'')
            | _ => Some (sec, 0, r4)
            end
        end;
      off ← parse_offset r5;
      let ok := ((h <=? 23) && (mi <=? 59) && (sec <=? 59))
                || ((h =? 24) && (mi =? 0) && (sec =? 0) && (ms =? 0)) in
      if ok then Some (MakeTime h mi sec ms, off) else None
  | _ => None
  end.

(** [dateOnlyUTC] tells how a string without a time part is read:
    [Date.parse] takes it as UTC, date-fns' [parseISO] as local time. *)
Definition parse_format (dateOnlyUTC : bool) (tza : Z) (s : string) : option Z :=
  '(y, r1) ← parse_year s;
  '(om, r2) ← parse_opt2 "-" r1;
  '(od, r3) ← match om with
              | Some _ => parse_opt2 "-" r2
              | None => Some (None, r2)
              end;
  let m := default 1 om in
  let d := default 1 od in
  if negb ((1 <=? m) && (m <=? 12) && (1 <=? d) && (d <=? DaysInMonth y m)) then None
  else
    let day := MakeDay y (m - 1) d in
    match r3 with
    | EmptyString =>
        let t := MakeDate day 0 in
        Some (if dateOnlyUTC then t else UTC tza t)
    | String "T" r4 =>
        '(time, off) ← parse_time r4;
        let t := MakeDate day time in
        Some (match off with
              | OffLocal => UTC tza t
              | OffMinutes mins => t - mins * 60000
              end)
    | _ => None
    end.

(** [new Date(s)] for a string *)
Definition ofString (tza : Z) (s : string) : Date :=
  match parse_format true tza s with
  | Some t => TimeClip t
  | None => InvalidDate
  end.

(** date-fns [parseISO(s)], on the extended format (with dashes and
    colons); the basic, week and ordinal forms it also reads are outside
    the model *)
Definition parseISO (tza : Z) (s : string) : Date :=
  match parse_format false tza s with
  | Some t => TimeClip t
  | None => InvalidDate
  end.

(** date-fns [isValid(d)] *)
Definition isValid (d : Date) : bool :=
  match d with ValidDate _ => true | InvalidDate => false end.

(** *** Formatting *)

Definition monthShortNames : list string :=
  ["Jan"; "Feb"; "Mar"; "Apr"; "May"; "Jun";
   "Jul"; "Aug"; "Sep"; "Oct"; "Nov"; "Dec"]%string.

Definition monthLongNames : list string :=
  ["January"; "February"; "March"; "April"; "May"; "June";
   "July"; "August"; "September"; "October"; "November"; "December"]%string.

Definition monthShort (t : Z) : string :=
  default EmptyString (monthShortNames !! Z.to_nat (MonthFromTime t)).

Definition monthLong (t : Z) : string :=
  default EmptyString (monthLongNames !! Z.to_nat (MonthFromTime t)).

(** the year as the en-US locale prints it: the year of the era *)
Definition eraYear (y : Z) : Z := if 0 <? y then y else 1 - y.

(** [d.toLocaleDateString("en-US", {year: "numeric", month: "long",
    day: "numeric"})] *)
Definition toLocaleDateString_long (tza : Z) (d : Date) : string :=
  match d with
  | ValidDate t =>
      let lt := LocalTime tza t in
      (monthLong lt ++ " " ++ pretty (DateFromTime lt) ++ ", "
         ++ pretty (eraYear (YearFromTime lt)))%string
  | InvalidDate => "Invalid Date"%string
  end.

(** [d.toISOString()]; it throws a RangeError on the Invalid Date *)
Definition toISOString (d : Date) : option string :=
  match d with
  | ValidDate t =>
      let y := YearFromTime t in
      let p2 (z : Z) := Str.padStart0 2 (pretty z) in
      let sign : string := if y <? 0 then "-" else "+" in
      let ys := if (0 <=? y) && (y <=? 9999) then Str.padStart0 4 (pretty y)
                else (sign ++ Str.padStart0 6 (pretty (Z.abs y)))%string in
      Some (ys ++ "-" ++ p2 (MonthFromTime t + 1) ++ "-" ++ p2 (DateFromTime t)
              ++ "T" ++ p2 (HourFromTime t) ++ ":" ++ p2 (MinFromTime t)
              ++ ":" ++ p2 (SecFromTime t)
              ++ "." ++ Str.padStart0 3 (pretty (msFromTime t)) ++ "Z")%string
  | InvalidDate => None
  end.

End JSDate.

(** ** Values and Firestore documents *)

(** The values a document field can hold, as the code inspects them: the
    primitive values, a Firestore [Timestamp], a native [Date], or a plain
    object, of which the code only ever reads the [seconds] property. *)
Inductive jsval :=
| VUndefined
| VNull
| VBool (b : bool)
| VNumber (n : number)
| VString (s : string)
| VTimestamp (seconds nanoseconds : Z)
| VDate (d : Date)
| VObject (seconds : jsval).

Global Instance jsval_eq_dec : EqDecision jsval.
Proof. solve_decision. Defined.

Module JS.

(** ToBoolean *)
Definition truthy (v : jsval) : bool :=
  match v with
  | VUndefined | VNull => false
  | VBool b => b
  | VNumber n => Num.truthy n
  | VString s => Str.truthy s
  | VTimestamp _ _ | VDate _ | VObject _ => true
  end.

(** [typeof v === "number"] *)
Definition isNumber (v : jsval) : bool :=
  match v with VNumber _ => true | _ => false end.

(** [Timestamp.toDate()]: [new Date(seconds * 1000 + nanoseconds / 1e6)] *)
Definition Timestamp_toDate (seconds nanoseconds : Z) : Date :=
  JSDate.ofNumber
    (Num.add (Num.mul (Num.of_Z seconds) (Num.of_Z 1000))
             (Num.ratio nanoseconds 1000000)).

(** [a || b] on optional text: an absent or empty text is falsy *)
Definition textOr (a : option string) (b : string) : string :=
  match a with
  | Some s => if Str.truthy s then s else b
  | None => b
  end.

(** [a || b] *)
Definition or (a b : jsval) : jsval := if truthy a then a else b.

(** [v?.seconds]: the property of a timestamp or of a plain object, and
    [undefined] on every other value *)
Definition seconds (v : jsval) : jsval :=
  match v with
  | VTimestamp s _ => VNumber (Num.of_Z s)
  | VObject s => s
  | _ => VUndefined
  end.

(** the value of the digit [c] in base [b], if it is one *)
Definition digitOf (b : Z) (c : ascii) : option Z :=
  let n := Z.of_nat (nat_of_ascii c) in
  let v := if (48 <=? n) && (n <=? 57) then Some (n - 48)
           else if (97 <=? n) && (n <=? 122) then Some (n - 87)
           else if (65 <=? n) && (n <=? 90) then Some (n - 55)
           else None in
  d ← v; if d <? b then Some d else None.

Fixpoint readBase (b acc : Z) (s : string) : option Z :=
  match s with
  | EmptyString => Some acc
  | String c r => d ← digitOf b c; readBase b (acc * b + d) r
  end.

(** a literal [0x...], [0o...] or [0b...]; [None] when [s] does not start
    as one *)
Definition nonDecimalLiteral (s : string) : option number :=
  match s with
  | String "0" (String p r) =>
      let base := if Ascii.eqb p "x" || Ascii.eqb p "X" then Some 16
                  else if Ascii.eqb p "o" || Ascii.eqb p "O" then Some 8
                  else if Ascii.eqb p "b" || Ascii.eqb p "B" then Some 2
                  else None in
      b ← base;
      Some (match r with
            | EmptyString => NaN
            | _ => match readBase b 0 r with
                   | Some v => Num.of_Z v
                   | None => NaN
                   end
            end)
  | _ => None
  end.

(** the exponent part that ends a decimal literal: nothing, or [e] and a
    signed integer up to the end of the text *)
Definition exponentPart (s : string) : option Z :=
  match s with
  | EmptyString => Some 0
  | String c r =>
      if Ascii.eqb c "e" || Ascii.eqb c "E" then
        let '(sg, r1) :=
          match r with
          | String "-" r' => (-1, r')
          | String "+" r' => (1, r')
          | _ => (1, r)
          end in
        let '(e, cnt, rest) := NumStr.read_digits 0 0 r1 in
        if (0 <? cnt) && negb (Str.truthy rest) then Some (sg * e) else None
      else None
  end.

(** a signed decimal literal that spans the whole text.  (The literal
    [Infinity] has no value in the model and reads as [NaN].) *)
Definition strDecimalLiteral (s : string) : number :=
  let '(sg, s1) :=
    match s with
    | String "-" r => (-1, r)
    | String "+" r => (1, r)
    | _ => (1, s)
    end in
  let '(ip, nint, s2) := NumStr.read_digits 0 0 s1 in
  let '(m, nfrac, s3) :=
    match s2 with
    | String "." r => NumStr.read_digits ip 0 r
    | _ => (ip, 0, s2)
    end in
  if nint + nfrac =? 0 then NaN
  else match exponentPart s3 with
       | Some e => Num.scale10 (sg * m) (e - nfrac)
       | None => NaN
       end.

(** [Number(s)] for a string: the numeric literal the trimmed text spells,
    0 for a blank text, [NaN] otherwise *)
Definition stringToNumber (s : string) : number :=
  let t := Str.trim s in
  match t with
  | EmptyString => Num.zero
  | _ => match nonDecimalLiteral t with
         | Some n => n
         | None => strDecimalLiteral t
         end
  end.

(** [Timestamp.valueOf()]: the seconds since the year 1 on twelve digits
    and the nanoseconds on nine *)
Definition MIN_SECONDS : Z := -62135596800.

Definition Timestamp_valueOf (seconds nanoseconds : Z) : string :=
  Str.padStart0 12 (pretty (seconds - MIN_SECONDS)) +:+ "."
    +:+ Str.padStart0 9 (pretty nanoseconds).

(** ToNumber, as [Number(v)] and the arithmetic operators apply it *)
Definition toNumber (v : jsval) : number :=
  match v with
  | VUndefined => NaN
  | VNull => Num.zero
  | VBool b => if b then Num.of_Z 1 else Num.zero
  | VNumber n => n
  | VString s => stringToNumber s
  | VTimestamp s n => stringToNumber (Timestamp_valueOf s n)
  | VDate d => JSDate.getTime d
  | VObject _ => NaN
  end.

(** [new Date(v)] with one argument of any type: a date is copied, a text
    or an object that converts to a text is parsed, any other value is
    taken as a time value *)
Definition newDate (tza : Z) (v : jsval) : Date :=
  match v with
  | VDate d => d
  | VString s => JSDate.ofString tza s
  | VTimestamp s n => JSDate.ofString tza (Timestamp_valueOf s n)
  | VObject _ => JSDate.ofString tza "[object Object]"
  | VUndefined | VNull | VBool _ | VNumber _ => JSDate.ofNumber (toNumber v)
  end.

(** ToLength, as [Array.from] reads the [length] of an array-like *)
Definition toLength (n : number) : Z :=
  match n with
  | Fin q => Z.min (Z.max 0 (Num.trunc q)) (2 ^ 53 - 1)
  | NaN => 0
  end.

End JS.

Module Firestore.

(** The fields of a stored record.  [amount] and [date] are read
    dynamically by the code and can hold any value; the text fields hold a
    string or are absent, as every write path stores them. *)
Record DocumentData := {
  userId : string;
  amount : jsval;
  date : jsval;
  category : option string;
  title : option string;
  source : option string;
  createdAt : jsval;
}.

Record QueryDocumentSnapshot := {
  id : string;
  data : DocumentData;
}.

Record Store := {
  incomes : list QueryDocumentSnapshot;
  expenses : list QueryDocumentSnapshot;
  serverTime : Z;  (* what [serverTimestamp()] resolves to, in ms *)
}.

(** [getDocs(query(collection, where("userId", "==", uid)))] *)
Definition whereUserId (uid : string) (coll : list QueryDocumentSnapshot)
  : list QueryDocumentSnapshot :=
  filter (λ d, userId (data d) = uid) coll.

(** a native date is persisted as a timestamp *)
Definition toStored (v : jsval) : jsval :=
  match v with
  | VDate (ValidDate t) => VTimestamp (t / 1000) ((t mod 1000) * 1000000)
  | _ => v
  end.

Definition newDoc (st : Store) (coll : list QueryDocumentSnapshot)
    (d : DocumentData) : QueryDocumentSnapshot :=
  {| id := pretty (length coll);
     data := {| userId := userId d; amount := amount d;
                date := toStored (date d); category := category d;
                title := title d; source := source d;
                createdAt := VTimestamp (serverTime st / 1000)
                               ((serverTime st mod 1000) * 1000000) |} |}.

Inductive collectionName := Incomes | Expenses.

(** [addDoc(collection(db, name), d)]: the store assigns the identifier
    and the creation time and appends the record. *)
Definition addDoc (name : collectionName) (d : DocumentData) (st : Store) : Store :=
  match name with
  | Incomes =>
      {| incomes := incomes st ++ [newDoc st (incomes st) d];
         expenses := expenses st; serverTime := serverTime st |}
  | Expenses =>
      {| incomes := incomes st;
         expenses := expenses st ++ [newDoc st (expenses st) d];
         serverTime := serverTime st |}
  end.

End Firestore.

Import Firestore.

Global Instance DocumentData_eq_dec : EqDecision DocumentData.
Proof. solve_decision. Defined.
Global Instance QueryDocumentSnapshot_eq_dec : EqDecision QueryDocumentSnapshot.
Proof. solve_decision. Defined.

Abbreviation Doc := QueryDocumentSnapshot.

(** ** Arrays *)

Module Array.

Section Sort.
Context {A : Type} (comparefn : A → A → number).

(** [x] stays in front of [y] unless [comparefn x y > 0] (a [NaN]
    counts as 0) *)
Definition inOrder (x y : A) : bool := negb (Num.gt (comparefn x y) Num.zero).

Fixpoint insert (x : A) (l : list A) : list A :=
  match l with
  | [] => [x]
  | y :: l' => if inOrder x y then x :: y :: l' else y :: insert x l'
  end.

(** [l.sort(comparefn)]: the stable sort; for a comparator that orders
    the elements consistently every stable sort returns this list. *)
Definition sort (l : list A) : list A := foldr insert [] l.
End Sort.

(** [l[i].f += ...]: update in place the element at index [i]; reading a
    property of the missing element would throw. *)
Definition update {A : Type} (i : number) (f : A → A) (l : list A) : option (list A) :=
  n ← Num.toIndex i;
  if decide (n < length l)%nat then Some (alter f n l) else None.

(** a loop whose body can throw *)
Fixpoint foldM {A B : Type} (f : B → A → option B) (b : B) (l : list A) : option B :=
  match l with
  | [] => Some b
  | x :: l' => b' ← f b x; foldM f b' l'
  end.

End Array.

(** ** Objects used as maps

    An object created as [{}] whose properties are numbers set and read by
    name.  It holds its own properties in the order of their creation, and
    a read by name also finds the properties every object inherits. *)

Module Obj.

(** the own properties, in the order of their creation *)
Definition t : Type := list (string * number).

(** the names of the properties every object inherits from
    [Object.prototype] *)
Definition inheritedNames : list string :=
  ["constructor"; "__proto__"; "hasOwnProperty"; "isPrototypeOf";
   "propertyIsEnumerable"; "toLocaleString"; "toString"; "valueOf";
   "__defineGetter__"; "__defineSetter__"; "__lookupGetter__";
   "__lookupSetter__"]%string.

Definition inherited (k : string) : bool :=
  existsb (String.eqb k) inheritedNames.

(** the value of the own property [k] *)
Fixpoint get (o : t) (k : string) : option number :=
  match o with
  | [] => None
  | (k', v) :: o' => if String.eqb k' k then Some v else get o' k
  end.

(** [o[k] = v] for a number: an own property keeps its place, a new
    one comes last *)
Fixpoint set (o : t) (k : string) (v : number) : t :=
  match o with
  | [] => [(k, v)]
  | (k', v') :: o' =>
      if String.eqb k' k then (k', v) :: o' else (k', v') :: set o' k v
  end.

Fixpoint digits (s : string) (acc : Z) : option Z :=
  match s with
  | EmptyString => Some acc
  | String c r => if Str.isDigit c then digits r (acc * 10 + Str.digitVal c) else None
  end.

(** the array index a property name spells, if any: a whole number up to
    [2^32 - 2] written in decimal without a leading zero *)
Definition arrayIndex (k : string) : option Z :=
  match k with
  | EmptyString => None
  | String "0" EmptyString => Some 0
  | String "0" _ => None
  | _ => n ← digits k 0; if n <=? 2 ^ 32 - 2 then Some n else None
  end.

(** [Object.entries(o)]: the properties named by an array index come
    first, in ascending order of the index, then the others in the order
    of their creation *)
Definition entries (o : t) : list (string * number) :=
  Array.sort (λ a b, Num.of_Z (default 0 (arrayIndex a.1) - default 0 (arrayIndex b.1)))
             (filter (λ e, is_Some (arrayIndex e.1)) o)
  ++ filter (λ e, ¬ is_Some (arrayIndex e.1)) o.

End Obj.

(** ** components/dashboard/TotalBalanceCard.tsx *)

Module TotalBalanceCard.

Record BalanceDataPoint := { month : string; balance : number }.

Definition parseDate (tza : Z) (raw : jsval) : option Date :=
  if negb (JS.truthy raw) then None
  else match raw with
       | VTimestamp s n => Some (JS.Timestamp_toDate s n)
       | VString s => Some (JSDate.ofString tza s)
       | VDate d => Some d
       | _ => None
       end.

(** the body of [incomeSnap.forEach] and of [expenseSnap.forEach] *)
Definition monthTotal (tza : Z) (targetMonth targetYear : number)
    (snap : list Doc) : number :=
  foldl (λ total doc,
           let entry := Firestore.data doc in
           match parseDate tza (Firestore.date entry), Firestore.amount entry with
           | Some dt, VNumber a =>
               if Num.strict_eq (JSDate.getMonth tza dt) targetMonth
                  && Num.strict_eq (JSDate.getFullYear tza dt) targetYear
               then Num.add total a else total
           | _, _ => total
           end)
        Num.zero snap.

(** [targetDate.toLocaleString("default", { month: "short" })], in an
    English locale *)
Definition monthLabel (tza : Z) (d : Date) : string :=
  match d with
  | ValidDate t => JSDate.monthShort (JSDate.LocalTime tza t)
  | InvalidDate => "Invalid Date"
  end.

(** one turn of the loop [for (let i = 5; i >= 0; i--)] *)
Definition step (tza month year : Z) (incomeSnap expenseSnap : list Doc)
    (acc : list BalanceDataPoint * number * number) (i : Z)
  : list BalanceDataPoint * number * number :=
  let '(balances, thisMonthIncome, thisMonthExpense) := acc in
  let targetDate :=
    JSDate.ofFields tza (Num.of_Z year) (Num.of_Z (month - i)) (Num.of_Z 1) in
  let targetMonth := JSDate.getMonth tza targetDate in
  let targetYear := JSDate.getFullYear tza targetDate in
  let monthIncome := monthTotal tza targetMonth targetYear incomeSnap in
  let monthExpense := monthTotal tza targetMonth targetYear expenseSnap in
  let balances' :=
    balances ++ [{| month := monthLabel tza targetDate;
                    balance := Num.sub monthIncome monthExpense |}] in
  if Num.strict_eq targetMonth (Num.of_Z month)
     && Num.strict_eq targetYear (Num.of_Z year)
  then (balances', monthIncome, monthExpense)
  else (balances', thisMonthIncome, thisMonthExpense).

Record State := {
  data : list BalanceDataPoint;
  currentBalance : number;
  currentIncome : number;
  currentExpense : number;
  change : number;
}.

Definition fetchData (tza month year : Z) (incomeSnap expenseSnap : list Doc) : State :=
  let '(balances, thisMonthIncome, thisMonthExpense) :=
    foldl (step tza month year incomeSnap expenseSnap)
          ([], Num.zero, Num.zero) [5; 4; 3; 2; 1; 0] in
  let latestBalance := Num.sub thisMonthIncome thisMonthExpense in
  let prevBalance :=
    match balances !! (length balances - 2)%nat with
    | Some p => Num.or (balance p) Num.zero
    | None => Num.zero
    end in
  {| data := balances;
     currentIncome := thisMonthIncome;
     currentExpense := thisMonthExpense;
     currentBalance := latestBalance;
     change :=
       if negb (Num.strict_eq prevBalance Num.zero) then
         let percentChange :=
           Num.mul (Num.div (Num.sub latestBalance prevBalance) (Num.abs prevBalance))
                   (Num.of_Z 100) in
         NumStr.parseFloat (NumStr.toFixed 1 percentChange)
       else if negb (Num.strict_eq latestBalance Num.zero) then Num.of_Z 100
       else Num.zero |}.

End TotalBalanceCard.

(** ** components/expense/ExpenseChart.tsx *)

Module ExpenseChart.

Record MonthlyExpense := { name : string; expense : number }.

Record ExpenseData := { date : jsval; amount : number }.

Definition MONTHS : list string :=
  ["Jan"; "Feb"; "Mar"; "Apr"; "May"; "Jun";
   "Jul"; "Aug"; "Sep"; "Oct"; "Nov"; "Dec"]%string.

Definition parseDate (tza : Z) (raw : jsval) : option Date :=
  if negb (JS.truthy raw) then None
  else match raw with
       | VTimestamp s n => Some (JS.Timestamp_toDate s n)
       | VString s => Some (JSDate.ofString tza s)
       | VDate d => Some d
       | _ => None
       end.

(** [dayjs(date).format("MMM")] *)
Definition dayjs_format_MMM (tza : Z) (d : Date) : string :=
  match d with
  | ValidDate t => JSDate.monthShort (JSDate.LocalTime tza t)
  | InvalidDate => "Invalid Date"
  end.

(** [totals[month] || 0] *)
Definition getOr0 (totals : gmap string number) (month : string) : number :=
  match totals !! month with
  | Some v => Num.or v Num.zero
  | None => Num.zero
  end.

Definition accumulate (tza : Z) (totals : gmap string number) (expense : ExpenseData)
  : gmap string number :=
  match parseDate tza (date expense) with
  | None => totals
  | Some d =>
      let month := dayjs_format_MMM tza d in
      <[month := Num.add (getOr0 totals month) (Num.or (amount expense) Num.zero)]> totals
  end.

Definition buildMonthlyExpenseData (tza : Z) (expenses : list ExpenseData)
  : list MonthlyExpense :=
  let totals := foldl (accumulate tza) ∅ expenses in
  map (λ month, {| name := month; expense := getOr0 totals month |}) MONTHS.

End ExpenseChart.

(** ** components/income/IncomeChart.tsx *)

Module IncomeChart.

Record IncomeRecord := { amount : number; date : jsval }.

Record MonthlyIncome := { name : string; income : number }.

Definition MONTHS_ORDER : list string :=
  ["Jan"; "Feb"; "Mar"; "Apr"; "May"; "Jun";
   "Jul"; "Aug"; "Sep"; "Oct"; "Nov"; "Dec"]%string.

Definition parseIncomeDate (tza : Z) (raw : jsval) : option Date :=
  if negb (JS.truthy raw) then None
  else match raw with
       | VTimestamp s n => Some (JS.Timestamp_toDate s n)
       | VString s => Some (JSDate.parseISO tza s)
       | VDate d => Some d
       | _ => None
       end.

(** date-fns [format(date, "MMM")] on a valid date *)
Definition format_MMM (tza : Z) (t : Z) : string :=
  JSDate.monthShort (JSDate.LocalTime tza t).

(** [monthly[month] || 0] *)
Definition getOr0 (monthly : gmap string number) (month : string) : number :=
  match monthly !! month with
  | Some v => Num.or v Num.zero
  | None => Num.zero
  end.

Definition accumulate (tza : Z) (monthly : gmap string number) (income : IncomeRecord)
  : gmap string number :=
  match parseIncomeDate tza (date income) with
  | Some (ValidDate t) =>
      let month := format_MMM tza t in
      let amount := Num.or (amount income) Num.zero in
      <[month := Num.add (getOr0 monthly month) amount]> monthly
  | _ => monthly   (* !date || !isValid(date): continue *)
  end.

Definition buildMonthlyIncomeData (tza : Z) (incomes : list IncomeRecord)
  : list MonthlyIncome :=
  let monthly := foldl (accumulate tza) ∅ incomes in
  map (λ month, {| name := month; income := getOr0 monthly month |}) MONTHS_ORDER.

(** a stored record as [fetchIncome] hands it to the aggregation *)
Definition toRecord (doc : Doc) : IncomeRecord :=
  {| amount := JS.toNumber (JS.or (Firestore.amount (Firestore.data doc))
                                  (VNumber Num.zero));
     date := Firestore.date (Firestore.data doc) |}.

(** the new value of [data] *)
Definition fetchIncome (tza : Z) (snapshot : list Doc) : list MonthlyIncome :=
  buildMonthlyIncomeData tza (map toRecord snapshot).

End IncomeChart.

(** ** components/dashboard/SavingsTrendChart.tsx *)

Module SavingsTrendChart.

Record SavingsDataPoint := {
  month : string;
  income : number;
  expense : number;
  savings : number;
}.

Definition monthNames : list string :=
  ["Jan"; "Feb"; "Mar"; "Apr"; "May"; "Jun";
   "Jul"; "Aug"; "Sep"; "Oct"; "Nov"; "Dec"]%string.

Definition parseDate (tza : Z) (raw : jsval) : option Date :=
  if negb (JS.truthy raw) then None
  else match raw with
       | VTimestamp s n => Some (JS.Timestamp_toDate s n)
       | VString s => Some (JSDate.ofString tza s)
       | VDate d => Some d
       | _ => None
       end.

Definition addIncome (amount : number) (e : SavingsDataPoint) : SavingsDataPoint :=
  {| month := month e; income := Num.add (income e) amount;
     expense := expense e; savings := savings e |}.

Definition addExpense (amount : number) (e : SavingsDataPoint) : SavingsDataPoint :=
  {| month := month e; income := income e;
     expense := Num.add (expense e) amount; savings := savings e |}.

Definition setSavings (e : SavingsDataPoint) : SavingsDataPoint :=
  {| month := month e; income := income e; expense := expense e;
     savings := Num.sub (income e) (expense e) |}.

(** the body of the two [forEach] loops; [add] is [addIncome] or
    [addExpense] *)
Definition visit (tza year : Z) (add : number → SavingsDataPoint → SavingsDataPoint)
    (monthly : list SavingsDataPoint) (doc : Doc) : option (list SavingsDataPoint) :=
  match parseDate tza (Firestore.date (Firestore.data doc)),
        Firestore.amount (Firestore.data doc) with
  | Some parsed, VNumber amount =>
      if Num.strict_eq (JSDate.getFullYear tza parsed) (Num.of_Z year)
      then Array.update (JSDate.getMonth tza parsed) (add amount) monthly
      else Some monthly
  | _, _ => Some monthly
  end.

(** the new value of [data]; [None] when the body threw and the [catch]
    left [data] as it was *)
Definition fetchSavingsData (tza year : Z) (incomeSnap expenseSnap : list Doc)
  : option (list SavingsDataPoint) :=
  let monthly :=
    map (λ month, {| month := month; income := Num.zero;
                     expense := Num.zero; savings := Num.zero |}) monthNames in
  monthly ← Array.foldM (visit tza year addIncome) monthly incomeSnap;
  monthly ← Array.foldM (visit tza year addExpense) monthly expenseSnap;
  Some (map setSavings monthly).

(** the text of the file written by [handleDownloadCSV] *)
Definition csvHeader : string :=
  "Month,Income,Expenses,Savings" +:+ String Str.newline EmptyString.

Definition csvRow (e : SavingsDataPoint) : string :=
  month e +:+ "," +:+ NumStr.toFixed 2 (income e) +:+ "," +:+ NumStr.toFixed 2 (expense e)
    +:+ "," +:+ NumStr.toFixed 2 (savings e).

Definition handleDownloadCSV (data : list SavingsDataPoint) : string :=
  csvHeader +:+ Str.join (String Str.newline EmptyString) (map csvRow data).

End SavingsTrendChart.

(** ** components/dashboard/SpendingCategoryChart.tsx *)

Module SpendingCategoryChart.

Record CategoryDataPoint := { name : string; value : number }.

Definition parseDate (tza : Z) (raw : jsval) : option Date :=
  if negb (JS.truthy raw) then None
  else match raw with
       | VTimestamp s n => Some (JS.Timestamp_toDate s n)
       | VString s => Some (JSDate.ofString tza s)
       | VDate d => Some d
       | _ => None
       end.

(** The body of [snapshot.forEach].  For an admitted record the code
    runs [categoryMap[cat] = (categoryMap[cat] || 0) + amount].  When
    [cat] is an own property the read is its total.  When it is not, the
    read finds what the object inherits under that name: nothing for most
    names, so the total starts from 0; the prototype object for
    [__proto__], and the assignment of the text that results to
    [__proto__] is ignored, so the map stays as it is; a function for the
    other inherited names, and the property is then set to a text.  The
    result is [None] in that last case: the map no longer holds numbers
    only, as its declared type says it does. *)
Definition visit (tza month year : Z) (categoryMap : Obj.t) (doc : Doc)
  : option Obj.t :=
  let d := Firestore.data doc in
  match parseDate tza (Firestore.date d), Firestore.amount d with
  | Some parsedDate, VNumber amount =>
      if Num.strict_eq (JSDate.getFullYear tza parsedDate) (Num.of_Z year)
         && Num.strict_eq (JSDate.getMonth tza parsedDate) (Num.of_Z month)
      then
        let cat := JS.textOr (Firestore.category d) "Uncategorized" in
        match Obj.get categoryMap cat with
        | Some total =>
            Some (Obj.set categoryMap cat (Num.add (Num.or total Num.zero) amount))
        | None =>
            if String.eqb cat "__proto__" then Some categoryMap
            else if Obj.inherited cat then None
            else Some (Obj.set categoryMap cat (Num.add Num.zero amount))
        end
      else Some categoryMap
  | _, _ => Some categoryMap
  end.

Definition categoryMap (tza month year : Z) (snapshot : list Doc) : option Obj.t :=
  Array.foldM (visit tza month year) [] snapshot.

(** [Object.entries(categoryMap).map(...).sort((a, b) => b.value - a.value)] *)
Definition fetchCategoryData (tza month year : Z) (snapshot : list Doc)
  : option (list CategoryDataPoint) :=
  categoryMap ← categoryMap tza month year snapshot;
  Some (Array.sort (λ a b, Num.sub (value b) (value a))
          (map (λ '(name, value), {| name := name; value := value |})
               (Obj.entries categoryMap))).

End SpendingCategoryChart.

Global Instance CategoryDataPoint_eq_dec : EqDecision SpendingCategoryChart.CategoryDataPoint.
Proof. solve_decision. Defined.

(** ** components/dashboard/LatestTransactionsTable.tsx *)

Module LatestTransactionsTable.

Record Transaction := {
  id : string;
  title : string;
  amount : number;
  type : string;
  date : Date;
}.

Definition parseDate (tza : Z) (raw : jsval) : option Date :=
  if negb (JS.truthy raw) then None
  else match raw with
       | VTimestamp s n => Some (JS.Timestamp_toDate s n)
       | VString s => Some (JSDate.ofString tza s)
       | VDate d => Some d
       | _ => None
       end.

(** the filter shared by the two [forEach] loops: the parsed date and the
    amount of a record of the selected month *)
Definition admitted (tza month year : Z) (doc : Doc) : option (Date * number) :=
  let d := Firestore.data doc in
  match parseDate tza (Firestore.date d), Firestore.amount d with
  | Some dt, VNumber a =>
      if Num.strict_eq (JSDate.getFullYear tza dt) (Num.of_Z year)
         && Num.strict_eq (JSDate.getMonth tza dt) (Num.of_Z month)
      then Some (dt, a) else None
  | _, _ => None
  end.

Definition incomeTransaction (tza month year : Z) (doc : Doc) : option Transaction :=
  let d := Firestore.data doc in
  '(dt, a) ← admitted tza month year doc;
  Some {| id := Firestore.id doc;
          title := JS.textOr (Firestore.title d) (JS.textOr (Firestore.source d) "Income");
          amount := a;
          type := "Income";
          date := dt |}.

Definition expenseTransaction (tza month year : Z) (doc : Doc) : option Transaction :=
  let d := Firestore.data doc in
  '(dt, a) ← admitted tza month year doc;
  Some {| id := Firestore.id doc;
          title := JS.textOr (Firestore.title d) (JS.textOr (Firestore.category d) "Expense");
          amount := Num.neg a;
          type := JS.textOr (Firestore.category d) "Expense";
          date := dt |}.

Record State := {
  allMonthlyTransactions : list Transaction;
  transactionsToDisplay : list Transaction;
}.

Definition fetchTransactions (tza month year : Z) (incomeSnap expenseSnap : list Doc)
  : State :=
  let transactions :=
    omap (incomeTransaction tza month year) incomeSnap
      ++ omap (expenseTransaction tza month year) expenseSnap in
  let transactions :=
    Array.sort (λ a b, Num.sub (JSDate.getTime (date b)) (JSDate.getTime (date a)))
               transactions in
  {| allMonthlyTransactions := transactions;
     transactionsToDisplay := take 50 transactions |}.

Definition formatDate (tza : Z) (date : Date) : string :=
  JSDate.toLocaleDateString_long tza date.

Definition csvHeader : string := "Date,Title,Type,Amount" +:+ String Str.newline EmptyString.

(** a text between double quotes, its own double quotes doubled *)
Definition quoted (s : string) : string :=
  let q := String Str.dquote EmptyString in
  q +:+ Str.replaceAllChar Str.dquote (q +:+ q) s +:+ q.

Definition csvRow (tza : Z) (txn : Transaction) : string :=
  let date := formatDate tza (date txn) in
  let title := quoted (title txn) in
  let type := quoted (type txn) in
  let amount := NumStr.toFixed 2 (amount txn) in
  date +:+ "," +:+ title +:+ "," +:+ type +:+ "," +:+ amount.

Definition csvRows (tza : Z) (all : list Transaction) : list string :=
  map (csvRow tza) all.

(** the text of the downloaded file; [None] when nothing is downloaded *)
Definition handleDownloadStatement (tza : Z) (st : State) : option string :=
  match allMonthlyTransactions st with
  | [] => None
  | all => Some (csvHeader +:+ Str.join (String Str.newline EmptyString) (csvRows tza all))
  end.

End LatestTransactionsTable.

(** ** components/dashboard/InsightSummaryCard.tsx *)

Module InsightSummaryCard.

(** [line.replace(/^\*\s*/, EmptyString)] *)
Definition stripMarker (line : string) : string :=
  match line with
  | String "*" r => Str.trimStart r
  | _ => line
  end.

(** the bullets parsed from the response text *)
Definition bullets (content : string) : list string :=
  map (λ line, Str.trim (stripMarker line))
      (List.filter (λ line, Str.startsWith "*" (Str.trim line))
                   (Str.split Str.newline content)).

Inductive Outcome :=
| InsightError (message : string)
| InsightPoints (points : list string).

(** what [fetchInsight] does with the body of a successful response;
    [content] is [data?.content], absent when the field is missing *)
Definition parseInsight (content : option string) : Outcome :=
  match Str.trim <$> content with
  | None => InsightError "No insight returned from Gemini."
  | Some content =>
      if negb (Str.truthy content) then InsightError "No insight returned from Gemini."
      else InsightPoints (take 3 (bullets content))
  end.

(** the date [fetchInsight] reads from a record: [dt], or nothing when
    [dt] stays [null] *)
Definition readDate (tza : Z) (rawDate : jsval) : option Date :=
  if JS.truthy (JS.seconds rawDate)
  then Some (JSDate.ofNumber (Num.mul (JS.toNumber (JS.seconds rawDate)) (Num.of_Z 1000)))
  else match rawDate with
       | VString s => Some (JSDate.ofString tza s)
       | VDate d => Some d
       | _ => None
       end.

(** the body of [incomeSnap.forEach] and of [expenseSnap.forEach] *)
Definition monthTotal (tza month year : Z) (snap : list Doc) : number :=
  foldl (λ total doc,
           let d := Firestore.data doc in
           match readDate tza (Firestore.date d), Firestore.amount d with
           | Some dt, VNumber a =>
               if Num.strict_eq (JSDate.getFullYear tza dt) (Num.of_Z year)
                  && Num.strict_eq (JSDate.getMonth tza dt) (Num.of_Z month)
               then Num.add total a else total
           | _, _ => total
           end)
        Num.zero snap.

(** the three figures written into the prompt *)
Record Figures := {
  totalIncome : number;
  totalExpense : number;
  savings : number;
}.

Definition figures (tza month year : Z) (incomeSnap expenseSnap : list Doc) : Figures :=
  let totalIncome := monthTotal tza month year incomeSnap in
  let totalExpense := monthTotal tza month year expenseSnap in
  {| totalIncome := totalIncome; totalExpense := totalExpense;
     savings := Num.sub totalIncome totalExpense |}.

End InsightSummaryCard.

(** ** components/income/AddIncomeForm.tsx and components/expense/AddExpenseForm.tsx *)

Inductive Toast :=
| ToastError (message : string)
| ToastSuccess (message : string).

(** [raw.replace(/(?<=\d),(?=\d)/g, EmptyString)]: drop each comma that
    stands between two digits of the input *)
Fixpoint dropDigitCommas (afterDigit : bool) (s : string) : string :=
  match s with
  | EmptyString => EmptyString
  | String c r =>
      let beforeDigit := match r with String d _ => Str.isDigit d | _ => false end in
      if Ascii.eqb c "," && afterDigit && beforeDigit then dropDigitCommas false r
      else String c (dropDigitCommas (Str.isDigit c) r)
  end.

(** [/(k1|k2|...)/.test(s)]: one of the keywords occurs in [s] *)
Definition testAny (keywords : list string) (s : string) : bool :=
  existsb (λ k, Str.includes k s) keywords.

Module AddIncomeForm.

Definition SOURCE_OPTIONS : list string :=
  ["Salary"; "Freelancing"; "Investments Return"; "Business"; "Gift"; "Other"]%string.

Definition normalizeAmount (raw : string) : string :=
  Str.trim (dropDigitCommas false raw).

Definition detectIncomeSource (text : string) : string :=
  let lower := Str.toLowerCase text in
  if testAny ["salary"; "payslip"; "ctc"; "net pay"]%string lower then "Salary"
  else if testAny ["freelance"; "contract"; "gig"]%string lower then "Freelancing"
  else if testAny ["dividend"; "interest"; "roi"; "return"; "capital gain"]%string lower
  then "Investments Return"
  else if testAny ["business"; "invoice"; "sales"; "revenue"]%string lower then "Business"
  else if testAny ["gift"; "present"; "donation"]%string lower then "Gift"
  else "Other".

Record Form := {
  amount : string;
  source : string;
  customSource : string;
  date : option Date;
}.

(** [user] is the uid of the signed-in user, if any; the result is the
    notice shown and the store after the handler ran. *)
Definition handleSubmit (form : Form) (user : option string) (db : Store)
  : Toast * Store :=
  let isCustomSource := String.eqb (source form) "Other" in
  let finalSource := if isCustomSource then Str.trim (customSource form) else source form in
  match date form with
  | Some date =>
      if negb (Str.truthy (amount form)) || negb (Str.truthy finalSource)
      then (ToastError "All fields are required.", db)
      else
        let parsedAmount := NumStr.parseFloat (normalizeAmount (amount form)) in
        if Num.isNaN parsedAmount || Num.le parsedAmount Num.zero
        then (ToastError "Enter a valid amount > 0", db)
        else
          match user with
          | None => (ToastError "Login required", db)
          | Some uid =>
              match JSDate.toISOString date with
              | Some iso =>
                  (ToastSuccess "Income saved",
                   addDoc Incomes
                     {| Firestore.amount := VNumber parsedAmount;
                        Firestore.source := Some finalSource;
                        Firestore.date := VString iso;
                        Firestore.userId := uid;
                        Firestore.createdAt := VUndefined;
                        Firestore.category := None;
                        Firestore.title := None |} db)
              | None => (ToastError "Failed to add income", db)
              end
          end
  | None => (ToastError "All fields are required.", db)
  end.

End AddIncomeForm.

Module AddExpenseForm.

Definition CATEGORY_OPTIONS : list string :=
  ["Groceries"; "Food"; "Travel"; "Rent"; "Shopping"; "Bills"; "Medical";
   "Entertainment"; "Misc"; "Other"]%string.

Definition detectExpenseCategory (text : string) : string :=
  let lower := Str.toLowerCase text in
  if testAny ["grocery"; "supermarket"; "mart"]%string lower then "Groceries"
  else if testAny ["restaurant"; "food"; "cafe"; "dine"]%string lower then "Food"
  else if testAny ["uber"; "ola"; "travel"; "taxi"; "flight"; "train"; "bus"]%string lower
  then "Travel"
  else if testAny ["rent"]%string lower then "Rent"
  else if testAny ["shopping"; "store"; "mall"]%string lower then "Shopping"
  else if testAny ["medical"; "pharma"; "hospital"; "clinic"]%string lower then "Medical"
  else if testAny ["bill"; "electricity"; "water"; "utility"; "internet"]%string lower
  then "Bills"
  else if testAny ["movie"; "entertainment"; "netflix"; "spotify"; "show"]%string lower
  then "Entertainment"
  else "Misc".

Definition normalizeAmount (raw : string) : string :=
  Str.trim (dropDigitCommas false raw).

Record Form := {
  amount : string;
  category : string;
  customCategory : string;
  date : option Date;
}.

Definition handleSubmit (form : Form) (user : option string) (db : Store)
  : Toast * Store :=
  let showCustomInput :=
    String.eqb (category form) "Other" || String.eqb (category form) "Misc" in
  let finalCategory :=
    if showCustomInput then Str.trim (customCategory form) else category form in
  let numericAmount := NumStr.parseFloat (normalizeAmount (amount form)) in
  match date form with
  | Some date =>
      if negb (Str.truthy (amount form)) || negb (Str.truthy finalCategory)
      then (ToastError "All fields are required.", db)
      else if Num.isNaN numericAmount || Num.le numericAmount Num.zero
      then (ToastError "Enter a valid amount > 0", db)
      else if showCustomInput && negb (Str.truthy (Str.trim (customCategory form)))
      then (ToastError "Please enter custom category", db)
      else
        match user with
        | None => (ToastError "Login required", db)
        | Some uid =>
            match JSDate.toISOString date with
            | Some iso =>
                (ToastSuccess "Expense saved",
                 addDoc Expenses
                   {| Firestore.amount := VNumber numericAmount;
                      Firestore.category := Some finalCategory;
                      Firestore.date := VString iso;
                      Firestore.userId := uid;
                      Firestore.createdAt := VUndefined;
                      Firestore.source := None;
                      Firestore.title := None |} db)
            | None => (ToastError "Failed to save expense", db)
            end
        end
  | None => (ToastError "All fields are required.", db)
  end.

End AddExpenseForm.

(** ** app/upload-transactions/page.tsx *)

Module UploadTransactions.

(** A line as the extraction service returns it.  The interface declares
    [type] as ["CR" | "DR"] and [classifiedAs] as ["Income" | "Expense"];
    the response is cast to it and not checked, so both are texts here. *)
Record ExtractedTransaction := {
  date : string;
  description : string;
  amount : number;
  type : string;
  classifiedAs : string;
}.

Definition guessExpenseCategory (desc : string) : string :=
  let lower := Str.toLowerCase desc in
  if Str.includes "zomato" lower || Str.includes "swiggy" lower then "Food"
  else if Str.includes "amazon" lower || Str.includes "flipkart" lower then "Shopping"
  else if Str.includes "atm" lower || Str.includes "withdrawal" lower then "Cash"
  else if Str.includes "rent" lower then "Housing"
  else if Str.includes "electricity" lower || Str.includes "bill" lower then "Utilities"
  else "Misc".

Definition isValidDate (tza : Z) (input : string) : bool :=
  negb (Num.isNaN (JSDate.getTime (JSDate.ofString tza input))).

(** the record built for one extracted transaction; [now] is the clock
    read by [new Date()] *)
Definition toDoc (tza now : Z) (uid : string) (tx : ExtractedTransaction) : DocumentData :=
  {| Firestore.amount := VNumber (Num.abs (amount tx));
     Firestore.category :=
       Some (if String.eqb (classifiedAs tx) "Income" then "Salary"%string
             else guessExpenseCategory (description tx));
     Firestore.date :=
       VDate (if isValidDate tza (date tx) then JSDate.ofString tza (date tx)
              else ValidDate now);
     Firestore.createdAt := VUndefined;
     Firestore.userId := uid;
     Firestore.source := None;
     Firestore.title := None |}.

(** [tx.classifiedAs.toLowerCase() === "income"] *)
Definition toIncomes (tx : ExtractedTransaction) : bool :=
  String.eqb (Str.toLowerCase (classifiedAs tx)) "income".

Definition collectionOf (tx : ExtractedTransaction) : collectionName :=
  if toIncomes tx then Incomes else Expenses.

(** The handler on a store that rejects a write.  [accepted] is the number
    of writes the store accepts before it rejects one, [None] when it
    accepts every write.  The loop stops at the rejected write: the lines
    before it are saved, the others are not, and the handler reports the
    failure.  The result is the alert shown, if any, and the store after
    the handler ran. *)
Definition handleSave (accepted : option nat) (tza now : Z) (user : option string)
    (transactions : list ExtractedTransaction) (db : Store) : option string * Store :=
  match user, transactions with
  | None, _ | _, [] => (None, db)
  | Some uid, _ =>
      let write db tx := addDoc (collectionOf tx) (toDoc tza now uid tx) db in
      match accepted with
      | Some k =>
          if (k <? length transactions)%nat
          then (Some "Failed to save transactions."%string,
                foldl write db (take k transactions))
          else (Some "Transactions saved successfully."%string,
                foldl write db transactions)
      | None =>
          (Some "Transactions saved successfully."%string, foldl write db transactions)
      end
  end.

(** the handler on a store that accepts every write *)
Definition handleSaveToFirebase (tza now : Z) (user : option string)
    (transactions : list ExtractedTransaction) (db : Store) : option string * Store :=
  handleSave None tza now user transactions db.

(** the total shown above the table for one class of transactions *)
Definition totalAmount (type : string) (transactions : list ExtractedTransaction)
  : string :=
  NumStr.toFixed 2
    (foldl (λ sum tx, Num.add sum (Num.abs (amount tx))) Num.zero
           (List.filter (λ tx, String.eqb (classifiedAs tx) type) transactions)).

End UploadTransactions.

(** ** app/api/stats/summary/route.ts *)

Module SummaryRoute.

Record SummaryResponse := {
  totalIncome : number;
  totalExpense : number;
  savings : number;
  categoryTotals : gmap string number;
}.

Inductive Response :=
| Json (summary : SummaryResponse)
| JsonError (status : Z) (error : string).

Definition parseDateParam (tza : Z) (param : option string) : option Date :=
  match param with
  | None => None
  | Some p =>
      if negb (Str.truthy p) then None
      else
        let d := JSDate.ofString tza p in
        if Num.isNaN (JSDate.getTime d) then None else Some d
  end.

Definition parseFirestoreDate (tza : Z) (raw : jsval) : option Date :=
  if negb (JS.truthy raw) then None
  else match raw with
       | VString s => Some (JSDate.ofString tza s)
       | VTimestamp s n => Some (JS.Timestamp_toDate s n)
       | VObject (VNumber seconds) =>
           Some (JSDate.ofNumber (Num.mul seconds (Num.of_Z 1000)))
       | _ => None
       end.

Definition isWithinRange (tza : Z) (fromDate toDate : option Date) (rawDate : jsval)
  : bool :=
  match parseFirestoreDate tza rawDate with
  | None => false
  | Some date =>
      match fromDate with
      | None => true
      | Some f => Num.ge (JSDate.getTime date) (JSDate.getTime f)
      end
      &&
      match toDate with
      | None => true
      | Some t => Num.le (JSDate.getTime date) (JSDate.getTime t)
      end
  end.

Definition testIncomeAmount : number := Num.of_Z 5000.
Definition testExpenseAmount : number := Num.of_Z 2000.

(** the body of [for (const doc of incomeSnap.docs)] *)
Definition visitIncome (tza : Z) (fromDate toDate : option Date)
    (totalIncome : number) (doc : Doc) : number :=
  let data := Firestore.data doc in
  match Firestore.amount data with
  | VNumber amount =>
      if isWithinRange tza fromDate toDate (Firestore.date data)
      then Num.add totalIncome amount else totalIncome
  | _ => totalIncome
  end.

(** [categoryTotals[category] || 0] *)
Definition getOr0 (categoryTotals : gmap string number) (category : string) : number :=
  match categoryTotals !! category with
  | Some v => Num.or v Num.zero
  | None => Num.zero
  end.

(** the body of [for (const doc of expenseSnap.docs)] *)
Definition visitExpense (tza : Z) (fromDate toDate : option Date)
    (acc : number * gmap string number) (doc : Doc) : number * gmap string number :=
  let '(totalExpense, categoryTotals) := acc in
  let data := Firestore.data doc in
  match Firestore.amount data with
  | VNumber amount =>
      if isWithinRange tza fromDate toDate (Firestore.date data) then
        let category := default "Other"%string (Firestore.category data) in
        (Num.add totalExpense amount,
         <[category := Num.add (getOr0 categoryTotals category) amount]> categoryTotals)
      else acc
  | _ => acc
  end.

(** [uid], [from] and [to] are the query parameters of the request *)
Definition GET (tza : Z) (uid from to : option string) (db : Store) : Response :=
  let fromDate := parseDateParam tza from in
  let toDate := parseDateParam tza to in
  match uid with
  | None => JsonError 400 "Missing 'uid' parameter."
  | Some uid =>
      if negb (Str.truthy uid) then JsonError 400 "Missing 'uid' parameter."
      else
        let incomeSnap := whereUserId uid (incomes db) in
        let expenseSnap := whereUserId uid (expenses db) in
        let totalIncome := Num.add Num.zero testIncomeAmount in
        let totalIncome := foldl (visitIncome tza fromDate toDate) totalIncome incomeSnap in
        let totalExpense := Num.add Num.zero testExpenseAmount in
        let categoryTotals : gmap string number :=
          <["Test Category"%string := testExpenseAmount]> ∅ in
        let '(totalExpense, categoryTotals) :=
          foldl (visitExpense tza fromDate toDate) (totalExpense, categoryTotals)
                expenseSnap in
        let finalTotalIncome := totalIncome in
        let finalTotalExpense := totalExpense in
        let finalSavings := Num.sub finalTotalIncome finalTotalExpense in
        Json {| totalIncome := if Num.isNaN finalTotalIncome then Num.zero
                               else finalTotalIncome;
                totalExpense := if Num.isNaN finalTotalExpense then Num.zero
                                else finalTotalExpense;
                savings := if Num.isNaN finalSavings then Num.zero else finalSavings;
                categoryTotals := categoryTotals |}
  end.

End SummaryRoute.

(** ** The dashboard page (app/api/stats/summary/route.ts, second unit) *)

Module DashboardPage.

(** [Array.from({ length: end - start + 1 }, (_, i) => start + i)];
    [None] when the length is not one an array can have *)
Definition generateYears (start end_ : number) : option (list number) :=
  let len := JS.toLength (Num.add (Num.sub end_ start) (Num.of_Z 1)) in
  if 2 ^ 32 - 1 <? len then None
  else Some (map (λ i, Num.add start (Num.of_Z (Z.of_nat i))) (seq 0 (Z.to_nat len))).

(** [data.date?.seconds ? new Date(data.date.seconds * 1000)
                         : new Date(data.date)] *)
Definition readDate (tza : Z) (date : jsval) : Date :=
  if JS.truthy (JS.seconds date)
  then JSDate.ofNumber (Num.mul (JS.toNumber (JS.seconds date)) (Num.of_Z 1000))
  else JS.newDate tza date.

(** the new value of [currentExpenses] *)
Definition fetchExpenses (tza selectedMonth selectedYear : Z) (expenseSnap : list Doc)
  : number :=
  foldl (λ total doc,
           let data := Firestore.data doc in
           let dt := readDate tza (Firestore.date data) in
           if Num.strict_eq (JSDate.getFullYear tza dt) (Num.of_Z selectedYear)
              && Num.strict_eq (JSDate.getMonth tza dt) (Num.of_Z selectedMonth)
           then Num.add total
                  (JS.toNumber (JS.or (Firestore.amount data) (VNumber Num.zero)))
           else total)
        Num.zero expenseSnap.

End DashboardPage.

(** ** components/charts/IncomeExpenseChart.tsx (unnamed/part_002) *)

Module IncomeExpenseChart.

Record DataPoint := { month : string; income : number; expenses : number }.

(** a value of the object [monthly] *)
Record Bucket := { b_income : number; b_expenses : number }.

Definition MONTH_NAMES : list string :=
  ["Jan"; "Feb"; "Mar"; "Apr"; "May"; "Jun";
   "Jul"; "Aug"; "Sep"; "Oct"; "Nov"; "Dec"]%string.

Definition readDate (tza : Z) (date : jsval) : Date :=
  if JS.truthy (JS.seconds date)
  then JSDate.ofNumber (Num.mul (JS.toNumber (JS.seconds date)) (Num.of_Z 1000))
  else JS.newDate tza date.

Definition addIncome (amount : number) (b : Bucket) : Bucket :=
  {| b_income := Num.add (b_income b) amount; b_expenses := b_expenses b |}.

Definition addExpenses (amount : number) (b : Bucket) : Bucket :=
  {| b_income := b_income b; b_expenses := Num.add (b_expenses b) amount |}.

(** the body of the two [forEach] loops; the keys of [monthly] are the
    indices 0 to 11, so the object is the list of its values *)
Definition visit (tza year : Z) (add : number → Bucket → Bucket)
    (monthly : list Bucket) (doc : Doc) : option (list Bucket) :=
  let data := Firestore.data doc in
  let dt := readDate tza (Firestore.date data) in
  if Num.strict_eq (JSDate.getFullYear tza dt) (Num.of_Z year)
  then Array.update (JSDate.getMonth tza dt)
         (add (JS.toNumber (JS.or (Firestore.amount data) (VNumber Num.zero)))) monthly
  else Some monthly.

(** the new value of [data]; [None] when the body threw *)
Definition fetchIncomeExpenseData (tza year : Z) (incomeSnap expenseSnap : list Doc)
  : option (list DataPoint) :=
  let monthly := replicate 12 {| b_income := Num.zero; b_expenses := Num.zero |} in
  monthly ← Array.foldM (visit tza year addIncome) monthly incomeSnap;
  monthly ← Array.foldM (visit tza year addExpenses) monthly expenseSnap;
  Some (imap (λ idx val,
                {| month := default EmptyString (MONTH_NAMES !! idx);
                   income := b_income val; expenses := b_expenses val |})
             monthly).

End IncomeExpenseChart.

(** ** The statistics page (unnamed/part_005) *)

Module StatisticsPage.

Record DateRange := { from : option Date; to : option Date }.

(** the initial value of [dateRange]: the first and the last day of the
    month of [today] *)
Definition initialRange (tza : Z) (today : Date) : DateRange :=
  let firstDay :=
    JSDate.ofFields tza (JSDate.getFullYear tza today) (JSDate.getMonth tza today)
                    (Num.of_Z 1) in
  let lastDay :=
    JSDate.ofFields tza (JSDate.getFullYear tza today)
                    (Num.add (JSDate.getMonth tza today) (Num.of_Z 1)) (Num.of_Z 0) in
  {| from := Some firstDay; to := Some lastDay |}.

(** the text a bound of the range becomes in the request,
    [dateRange.from?.toISOString()] inside a template; nothing when
    [toISOString] throws *)
Definition boundText (d : option Date) : option string :=
  match d with
  | None => Some "undefined"%string
  | Some d => JSDate.toISOString d
  end.

End StatisticsPage.

(** ** Vocabulary of the statements *)

Module Spec.

(** The amount a stored record contributes to the year [year]: the record
    is admitted when its date is a point in time of that year and its
    amount is a number. *)
Definition admittedAmount (tza year : Z) (doc : Doc) : option number :=
  match SavingsTrendChart.parseDate tza (Firestore.date (Firestore.data doc)),
        Firestore.amount (Firestore.data doc) with
  | Some (ValidDate t), VNumber a =>
      if JSDate.YearFromTime (JSDate.LocalTime tza t) =? year then Some a else None
  | _, _ => None
  end.

(** The amount an income record contributes to the income chart, which
    has no year filter: the record is admitted when its date is a point
    in time; an amount that is not usable counts as 0. *)
Definition chartAmount (tza : Z) (r : IncomeChart.IncomeRecord) : option number :=
  match IncomeChart.parseIncomeDate tza (IncomeChart.date r) with
  | Some (ValidDate _) => Some (Num.or (IncomeChart.amount r) Num.zero)
  | _ => None
  end.

(** A stored record is admitted by the window [(month, year)] when its
    date is a point in time of that month of that year and its amount is
    a number. *)
Definition inMonth (tza month year : Z) (doc : Doc) : bool :=
  match LatestTransactionsTable.parseDate tza (Firestore.date (Firestore.data doc)),
        Firestore.amount (Firestore.data doc) with
  | Some (ValidDate t), VNumber _ =>
      (JSDate.YearFromTime (JSDate.LocalTime tza t) =? year)
      && (JSDate.MonthFromTime (JSDate.LocalTime tza t) =? month)
  | _, _ => false
  end.

(** [a] is at least as recent as [b] *)
Definition notOlder (a b : LatestTransactionsTable.Transaction) : Prop :=
  Num.ge (JSDate.getTime (LatestTransactionsTable.date a))
         (JSDate.getTime (LatestTransactionsTable.date b)) = true.

(** a transaction whose date is a point in time, and that time *)
Definition hasValidDate (txn : LatestTransactionsTable.Transaction) : Prop :=
  ∃ t, LatestTransactionsTable.date txn = ValidDate t.

Definition timeKey (txn : LatestTransactionsTable.Transaction) : Z :=
  match LatestTransactionsTable.date txn with ValidDate t => t | InvalidDate => 0 end.

(** the comparator of the transaction list *)
Definition byDate (a b : LatestTransactionsTable.Transaction) : number :=
  Num.sub (JSDate.getTime (LatestTransactionsTable.date b))
          (JSDate.getTime (LatestTransactionsTable.date a)).

(** The fields of one CSV record, read as RFC 4180 prescribes: fields are
    separated by commas; a field between double quotes can hold commas, and
    a doubled double quote in it stands for one. *)
Fixpoint csvFields_go (inQuotes : bool) (cur : string) (s : string) : list string :=
  match s with
  | EmptyString => [Str.rev cur]
  | String c r =>
      if inQuotes then
        if Ascii.eqb c Str.dquote then
          match r with
          | String c2 r2 =>
              if Ascii.eqb c2 Str.dquote then csvFields_go true (String c2 cur) r2
              else csvFields_go false cur r
          | EmptyString => csvFields_go false cur r
          end
        else csvFields_go true (String c cur) r
      else if Ascii.eqb c "," then Str.rev cur :: csvFields_go false EmptyString r
      else if Ascii.eqb c Str.dquote then csvFields_go true cur r
      else csvFields_go false (String c cur) r
  end.

Definition csvFields (row : string) : list string :=
  csvFields_go false EmptyString row.

(** a summary response whose savings is the difference of its totals *)
Definition savingsConsistent (s : SummaryRoute.SummaryResponse) : Prop :=
  SummaryRoute.savings s
  = Num.sub (SummaryRoute.totalIncome s) (SummaryRoute.totalExpense s).

(** The amount an income record contributes to the bucket of the month
    named [m] in the income chart. *)
Definition chartAmountIn (tza : Z) (m : string) (r : IncomeChart.IncomeRecord)
  : option number :=
  match IncomeChart.parseIncomeDate tza (IncomeChart.date r) with
  | Some (ValidDate t) =>
      if String.eqb (JSDate.monthShort (JSDate.LocalTime tza t)) m
      then Some (Num.or (IncomeChart.amount r) Num.zero) else None
  | _ => None
  end.

(** a stored date that does not parse to a valid point in time *)
Definition unparseable (tza : Z) (raw : jsval) : Prop :=
  TotalBalanceCard.parseDate tza raw = None
  ∨ TotalBalanceCard.parseDate tza raw = Some InvalidDate.

(** two maps of totals that agree on every key but [Invalid Date] *)
Definition agreeOnMonths (m m' : gmap string number) : Prop :=
  ∀ k : string, k ≠ "Invalid Date"%string → m !! k = m' !! k.

(** the number a run of decimal digits spells after [acc], and whether a
    text is such a run *)
Fixpoint digitsValue (s : string) (acc : Z) : Z :=
  match s with
  | EmptyString => acc
  | String c r => digitsValue r (acc * 10 + Str.digitVal c)
  end.

Fixpoint allDigits (s : string) : bool :=
  match s with
  | EmptyString => true
  | String c r => Str.isDigit c && allDigits r
  end.

(** The amount a stored record contributes to a total of the summary: the
    record is admitted when its amount is a number and the window test is
    passed. *)
Definition windowAmount (tza : Z) (fromDate toDate : option Date) (doc : Doc)
  : option number :=
  match Firestore.amount (Firestore.data doc) with
  | VNumber a =>
      if SummaryRoute.isWithinRange tza fromDate toDate (Firestore.date (Firestore.data doc))
      then Some a else None
  | _ => None
  end.

(** the NaN guard of the summary *)
Definition orZeroIfNaN (x : number) : number :=
  if Num.isNaN x then Num.zero else x.

(** The amount a stored record contributes to the month of index [i]
    (0 = January) of the year [year]. *)
Definition admittedAmountIn (tza year : Z) (i : nat) (doc : Doc) : option number :=
  match SavingsTrendChart.parseDate tza (Firestore.date (Firestore.data doc)),
        Firestore.amount (Firestore.data doc) with
  | Some (ValidDate t), VNumber a =>
      if (JSDate.YearFromTime (JSDate.LocalTime tza t) =? year)
         && (Z.to_nat (JSDate.MonthFromTime (JSDate.LocalTime tza t)) =? i)%nat
      then Some a else None
  | _, _ => None
  end.

(** The amount a stored record contributes to the month [month]
    (0 = January) of the year [year]: the amount of a record the window
    admits. *)
Definition monthAmount (tza month year : Z) (doc : Doc) : option number :=
  if inMonth tza month year doc
  then match Firestore.amount (Firestore.data doc) with
       | VNumber a => Some a
       | _ => None
       end
  else None.

(** The entry of the balance history for the month that lies [i] months
    before the month [(month, year)]: its short name, and the income less
    the expense of that month. *)
Definition historyPoint (tza month year : Z) (incomeSnap expenseSnap : list Doc) (i : Z)
  : TotalBalanceCard.BalanceDataPoint :=
  let m := (month - i) mod 12 in
  let y := year + (month - i) / 12 in
  {| TotalBalanceCard.month :=
       default EmptyString (JSDate.monthShortNames !! Z.to_nat m);
     TotalBalanceCard.balance :=
       Num.sub (Num.sum (omap (monthAmount tza m y) incomeSnap))
               (Num.sum (omap (monthAmount tza m y) expenseSnap)) |}.

(** The category under which the category chart counts a record, and a
    record whose category is not the name of a property that every object
    inherits. *)
Definition chartCategory (doc : Doc) : string :=
  JS.textOr (Firestore.category (Firestore.data doc)) "Uncategorized".

Definition plainCategory (doc : Doc) : Prop :=
  Obj.inherited (chartCategory doc) = false.

(** [a] is at least as large as [b] *)
Definition value_ge (a b : SpendingCategoryChart.CategoryDataPoint) : Prop :=
  Num.ge (SpendingCategoryChart.value a) (SpendingCategoryChart.value b) = true.

(** a text with no comma, no double quote and no line break *)
Fixpoint plainText (s : string) : bool :=
  match s with
  | EmptyString => true
  | String c r =>
      negb (Ascii.eqb c "," || Ascii.eqb c Str.dquote || Ascii.eqb c Str.newline)
      && plainText r
  end.

(** a text with no line break *)
Fixpoint oneLine (s : string) : bool :=
  match s with
  | EmptyString => true
  | String c r => negb (Ascii.eqb c Str.newline) && oneLine r
  end.

(** The record of the store that holds an extracted transaction: its
    owner, its amount without sign, and, when the date of the line is in
    the date-time format, a date the widgets read as that date. *)
Definition savedAs (tza : Z) (uid : string)
    (tx : UploadTransactions.ExtractedTransaction) (doc : Doc) : Prop :=
  Firestore.userId (Firestore.data doc) = uid
  ∧ Firestore.amount (Firestore.data doc)
    = VNumber (Num.abs (UploadTransactions.amount tx))
  ∧ ∀ t, JSDate.ofString tza (UploadTransactions.date tx) = ValidDate t →
         TotalBalanceCard.parseDate tza (Firestore.date (Firestore.data doc))
         = Some (ValidDate t).

(** the lines that go to the incomes and those that go to the expenses *)
Definition incomeLines (txs : list UploadTransactions.ExtractedTransaction)
  : list UploadTransactions.ExtractedTransaction :=
  List.filter UploadTransactions.toIncomes txs.

Definition expenseLines (txs : list UploadTransactions.ExtractedTransaction)
  : list UploadTransactions.ExtractedTransaction :=
  List.filter (λ tx, negb (UploadTransactions.toIncomes tx)) txs.

(** a line classified as the interface declares it *)
Definition declaredClass (tx : UploadTransactions.ExtractedTransaction) : Prop :=
  UploadTransactions.classifiedAs tx = "Income"%string
  ∨ UploadTransactions.classifiedAs tx = "Expense"%string.

(** the number of lines written when the store accepts [accepted] writes *)
Definition written (accepted : option nat)
    (txs : list UploadTransactions.ExtractedTransaction) : nat :=
  match accepted with
  | Some k => Nat.min k (length txs)
  | None => length txs
  end.

(** a sum as the program adds it: from 0, one amount after the other *)
Definition runningSum (amounts : list number) : number :=
  foldl Num.add Num.zero amounts.

(** the amount of a record, when it is a number *)
Definition numberAmount (doc : Doc) : option number :=
  match Firestore.amount (Firestore.data doc) with
  | VNumber a => Some a
  | _ => None
  end.

(** A date as the write paths of the application store it: a text, or a
    timestamp after the epoch and before the year 10000. *)
Definition usualDate (raw : jsval) : Prop :=
  match raw with
  | VString _ => True
  | VTimestamp s n => 0 < s < 253402300800 ∧ 0 <= n < 1000000000
  | _ => False
  end.

(** a record with such a date and an amount that is a number other than NaN *)
Definition usualRecord (doc : Doc) : Prop :=
  usualDate (Firestore.date (Firestore.data doc))
  ∧ ∃ q, Firestore.amount (Firestore.data doc) = VNumber (Fin q).

(** whether a raw date falls in the month [(month, year)], and the month
    of the year [year] it falls in, as the balance card reads the date *)
Definition inMonthDate (tza month year : Z) (raw : jsval) : bool :=
  match TotalBalanceCard.parseDate tza raw with
  | Some (ValidDate t) =>
      (JSDate.YearFromTime (JSDate.LocalTime tza t) =? year)
      && (JSDate.MonthFromTime (JSDate.LocalTime tza t) =? month)
  | _ => false
  end.

Definition inYearDate (tza year : Z) (raw : jsval) : option Z :=
  match TotalBalanceCard.parseDate tza raw with
  | Some (ValidDate t) =>
      if JSDate.YearFromTime (JSDate.LocalTime tza t) =? year
      then Some (JSDate.MonthFromTime (JSDate.LocalTime tza t)) else None
  | _ => None
  end.

(** the point of the income and expense chart that shows an entry of the
    savings chart *)
Definition asDataPoint (e : SavingsTrendChart.SavingsDataPoint)
  : IncomeExpenseChart.DataPoint :=
  {| IncomeExpenseChart.month := SavingsTrendChart.month e;
     IncomeExpenseChart.income := SavingsTrendChart.income e;
     IncomeExpenseChart.expenses := SavingsTrendChart.expense e |}.

(** an entry of the savings chart and a bucket of the income and expense
    chart that hold the same totals *)
Definition sameTotals (e : SavingsTrendChart.SavingsDataPoint)
    (b : IncomeExpenseChart.Bucket) : Prop :=
  SavingsTrendChart.income e = IncomeExpenseChart.b_income b
  ∧ SavingsTrendChart.expense e = IncomeExpenseChart.b_expenses b.

(** The amount an expense record contributes to the bar of the month
    named [m] in the expense chart. *)
Definition expenseAmountIn (tza : Z) (m : string) (r : ExpenseChart.ExpenseData)
  : option number :=
  match ExpenseChart.parseDate tza (ExpenseChart.date r) with
  | Some (ValidDate t) =>
      if String.eqb (JSDate.monthShort (JSDate.LocalTime tza t)) m
      then Some (Num.or (ExpenseChart.amount r) Num.zero) else None
  | _ => None
  end.

(** two stores in which the user [u] finds the same records *)
Definition sameView (u : string) (db db' : Store) : Prop :=
  whereUserId u (incomes db') = whereUserId u (incomes db)
  ∧ whereUserId u (expenses db') = whereUserId u (expenses db).

(** a finite number: in this model of numbers, any number but NaN *)
Definition finite (x : number) : Prop := ∃ q, x = Fin q.

(** The values of the variables [totalIncome] and [totalExpense] of the
    summary endpoint when its two loops have ended, before the guards. *)
Definition runningIncome (tza : Z) (uid : string) (from to : option string) (db : Store)
  : number :=
  foldl (SummaryRoute.visitIncome tza (SummaryRoute.parseDateParam tza from)
           (SummaryRoute.parseDateParam tza to))
        (Num.add Num.zero SummaryRoute.testIncomeAmount)
        (whereUserId uid (incomes db)).

Definition runningExpense (tza : Z) (uid : string) (from to : option string) (db : Store)
  : number :=
  (foldl (SummaryRoute.visitExpense tza (SummaryRoute.parseDateParam tza from)
            (SummaryRoute.parseDateParam tza to))
         (Num.add Num.zero SummaryRoute.testExpenseAmount,
          <["Test Category"%string := SummaryRoute.testExpenseAmount]> ∅)
         (whereUserId uid (expenses db))).1.

(** The amount an income record contributes to the year [year] as the
    claim on month buckets reads it: the record is admitted when its date
    is a point in time of that year; an amount that is not usable counts
    as 0. *)
Definition admittedInYear (tza year : Z) (r : IncomeChart.IncomeRecord) : option number :=
  match IncomeChart.parseIncomeDate tza (IncomeChart.date r) with
  | Some (ValidDate t) =>
      if JSDate.YearFromTime (JSDate.LocalTime tza t) =? year
      then Some (Num.or (IncomeChart.amount r) Num.zero) else None
  | _ => None
  end.

(** Amounts that add up without rounding.  The program adds amounts as
    double-precision numbers; the numbers of this development are exact.
    The two agree on whole amounts whose magnitudes add up to at most
    [2^53]: every sum and difference of such amounts, taken in any order,
    is a whole number a double holds exactly.  [wholeAmount] is the amount
    of a record when it is a whole number, [exactSums] says that every
    number amount of the records is whole and that the magnitudes stay
    within that bound. *)
Definition wholeAmount (v : jsval) : option Z :=
  match v with
  | VNumber (Fin q) => if (Qden q =? 1)%positive then Some (Qnum q) else None
  | _ => None
  end.

Definition magnitude (doc : Doc) : Z :=
  Z.abs (default 0 (wholeAmount (Firestore.amount (Firestore.data doc)))).

Definition exactSums (docs : list Doc) : Prop :=
  Forall (λ doc, JS.isNumber (Firestore.amount (Firestore.data doc)) = true →
                 is_Some (wholeAmount (Firestore.amount (Firestore.data doc)))) docs
  ∧ foldr (λ doc total, magnitude doc + total) 0 docs <= 2 ^ 53.

End Spec.

(** ** Sample inputs *)

Module Examples.

Definition emptyStore : Store :=
  {| incomes := []; expenses := []; serverTime := 0 |}.

Definition record (id uid : string) (amount date : jsval)
    (category source : option string) : Doc :=
  {| Firestore.id := id;
     Firestore.data :=
       {| userId := uid; Firestore.amount := amount; Firestore.date := date;
          Firestore.category := category; title := None;
          Firestore.source := source; createdAt := VUndefined |} |}.

(** an income of 50 whose date does not parse *)
Definition badDateIncome : Doc :=
  record "i1" "u1" (VNumber (Num.of_Z 50)) (VString "not-a-date") None (Some "Salary"%string).

(** an income whose stored amount is NaN *)
Definition nanIncome : Doc :=
  record "i1" "u1" (VNumber NaN) (VString "2024-01-15T10:30:00.000Z") None
         (Some "Salary"%string).

Definition storeOf (incomes : list Doc) : Store :=
  {| incomes := incomes; expenses := []; serverTime := 0 |}.

(** an extracted statement line with amount 0 *)
Definition zeroAmountLine : UploadTransactions.ExtractedTransaction :=
  {| UploadTransactions.date := "2024-01-15";
     UploadTransactions.description := "Opening balance";
     UploadTransactions.amount := Num.zero;
     UploadTransactions.type := "CR";
     UploadTransactions.classifiedAs := "Income" |}.

(** three lines of a statement: a salary, a meal and a withdrawal *)
Definition statementLines : list UploadTransactions.ExtractedTransaction :=
  [ {| UploadTransactions.date := "2024-01-15";
       UploadTransactions.description := "Salary credit";
       UploadTransactions.amount := Num.of_Z 100;
       UploadTransactions.type := "CR";
       UploadTransactions.classifiedAs := "Income" |};
    {| UploadTransactions.date := "2024-01-20";
       UploadTransactions.description := "Zomato order";
       UploadTransactions.amount := Num.of_Z (-40);
       UploadTransactions.type := "DR";
       UploadTransactions.classifiedAs := "Expense" |};
    {| UploadTransactions.date := "2024-01-21";
       UploadTransactions.description := "ATM withdrawal";
       UploadTransactions.amount := Num.of_Z (-500);
       UploadTransactions.type := "DR";
       UploadTransactions.classifiedAs := "Expense" |} ].

(** 15 January 2024, 10:30 UTC *)
Definition jan15 : Z := 1705314600000.

Definition incomeForm (amount : string) : AddIncomeForm.Form :=
  {| AddIncomeForm.amount := amount; AddIncomeForm.source := "Salary";
     AddIncomeForm.customSource := EmptyString;
     AddIncomeForm.date := Some (ValidDate jan15) |}.

Definition salaryTxn : LatestTransactionsTable.Transaction :=
  {| LatestTransactionsTable.id := "i1";
     LatestTransactionsTable.title := "Salary";
     LatestTransactionsTable.amount := Num.of_Z 100;
     LatestTransactionsTable.type := "Income";
     LatestTransactionsTable.date := ValidDate jan15 |}.

(** the two records of the specification's scenario *)
Definition scenarioIncome : Doc :=
  record "i1" "u1" (VNumber (Num.of_Z 100)) (VString "2024-01-15T00:00:00.000Z") None
         (Some "Salary"%string).

Definition scenarioExpense : Doc :=
  record "e1" "u1" (VNumber (Num.of_Z 40)) (VString "2024-01-20T00:00:00.000Z")
         (Some "Food"%string) None.

Definition lines (ls : list string) : string :=
  Str.join (String Str.newline EmptyString) ls.

(** the response of the specification's scenario *)
Definition scenarioContent : string :=
  lines ["* Income is stable"; "* Spending rose"; "random text"]%string.

(** a response whose second bullet is indented *)
Definition indentedContent : string :=
  lines ["* a"; "  * b"]%string.

(** an income of 100 in January 2023 and one of 7 in January 2024 *)
Definition income2023 : IncomeChart.IncomeRecord :=
  {| IncomeChart.amount := Num.of_Z 100;
     IncomeChart.date := VString "2023-01-15T00:00:00.000Z" |}.

Definition income2024 : IncomeChart.IncomeRecord :=
  {| IncomeChart.amount := Num.of_Z 7;
     IncomeChart.date := VString "2024-01-15T00:00:00.000Z" |}.

(** a store of two users: [u1] has an income of 100 and an expense of 40,
    [u2] an income whose amount is NaN *)
Definition twoUsers : Store :=
  {| incomes := [scenarioIncome;
                 record "i2" "u2" (VNumber NaN) (VString "2024-01-15T10:30:00.000Z") None
                        (Some "Salary"%string)];
     expenses := [scenarioExpense];
     serverTime := 0 |}.

(** three expenses of January 2024: 40 and 25 for food, 65 for rent *)
Definition januaryExpenses : list Doc :=
  [record "e1" "u1" (VNumber (Num.of_Z 40)) (VString "2024-01-20T00:00:00.000Z")
          (Some "Food"%string) None;
   record "e2" "u1" (VNumber (Num.of_Z 65)) (VString "2024-01-21T00:00:00.000Z")
          (Some "Rent"%string) None;
   record "e3" "u1" (VNumber (Num.of_Z 25)) (VString "2024-01-22T00:00:00.000Z")
          (Some "Food"%string) None].

End Examples.

(* ===================================================================== *)
(** * Part II: properties *)
(* ===================================================================== *)

(** Closed equalities are decided by evaluation: two numbers that differ
    only in the proofs of canonicity they carry are equal. *)
Ltac by_evaluation :=
  match goal with
  | |- ?P => apply (bool_decide_eq_true_1 P); vm_compute; reflexivity
  end.

(** ** Arithmetic of numbers *)

Section NumberFacts.

Lemma Num_add_comm a b : Num.add a b = Num.add b a.
Proof. destruct a, b; simpl; try reflexivity. f_equal. apply Qcplus_comm. Qed.

Lemma Num_add_assoc a b c : Num.add a (Num.add b c) = Num.add (Num.add a b) c.
Proof. destruct a, b, c; simpl; try reflexivity. f_equal. apply Qcplus_assoc. Qed.

Lemma Num_add_zero_l a : Num.add Num.zero a = a.
Proof. destruct a; simpl; try reflexivity. f_equal. apply Qcplus_0_l. Qed.

Lemma Num_add_zero_r a : Num.add a Num.zero = a.
Proof. rewrite Num_add_comm. apply Num_add_zero_l. Qed.

Lemma Num_sum_cons x l : Num.sum (x :: l) = Num.add x (Num.sum l).
Proof. reflexivity. Qed.

Lemma Num_sum_singleton x : Num.sum [x] = x.
Proof. apply Num_add_zero_r. Qed.

Lemma Num_sum_app l1 l2 : Num.sum (l1 ++ l2) = Num.add (Num.sum l1) (Num.sum l2).
Proof.
  induction l1 as [|x l1 IH]; simpl.
  - symmetry. apply Num_add_zero_l.
  - unfold Num.sum in *. simpl. rewrite IH. apply Num_add_assoc.
Qed.

Lemma Num_sum_omap_cons {A} (f : A → option number) x l :
  Num.sum (omap f (x :: l))
  = Num.add (Num.sum (option_list (f x))) (Num.sum (omap f l)).
Proof.
  change (omap f (x :: l))
    with (match f x with Some y => y :: omap f l | None => omap f l end).
  destruct (f x) as [y|].
  - change (option_list (Some y)) with [y].
    by rewrite !Num_sum_cons, <- Num_add_assoc, (Num_add_zero_l (Num.sum _)).
  - symmetry. apply Num_add_zero_l.
Qed.

Lemma Num_foldl_add a l : foldl Num.add a l = Num.add a (Num.sum l).
Proof.
  revert a. induction l as [|x l IH]; intros a; simpl.
  - symmetry. apply Num_add_zero_r.
  - rewrite IH. unfold Num.sum. simpl. symmetry. apply Num_add_assoc.
Qed.

Lemma Qred_inject_Z z : Qred (inject_Z z) = inject_Z z.
Proof. apply Qred_identity. simpl. apply Z.gcd_1_r. Qed.

Lemma Num_cmp_of_Z a b : Num.cmp (Num.of_Z a) (Num.of_Z b) = Some (a ?= b).
Proof.
  unfold Num.cmp, Num.of_Z, Qccompare. simpl. rewrite !Qred_inject_Z.
  unfold Qcompare. simpl. by rewrite !Z.mul_1_r.
Qed.

Lemma Num_strict_eq_of_Z a b : Num.strict_eq (Num.of_Z a) (Num.of_Z b) = (a =? b).
Proof.
  unfold Num.strict_eq. rewrite Num_cmp_of_Z.
  destruct (Z.compare_spec a b), (Z.eqb_spec a b); try reflexivity; lia.
Qed.

Lemma Num_le_of_Z a b : Num.le (Num.of_Z a) (Num.of_Z b) = (a <=? b).
Proof.
  unfold Num.le. rewrite Num_cmp_of_Z. unfold Z.leb. by destruct (a ?= b).
Qed.

Lemma Num_strict_eq_NaN_l b : Num.strict_eq NaN b = false.
Proof. reflexivity. Qed.

Lemma Num_toIndex_of_Z z : 0 <= z -> Num.toIndex (Num.of_Z z) = Some (Z.to_nat z).
Proof.
  intros Hz. unfold Num.toIndex, Num.of_Z. simpl. rewrite Qred_inject_Z. simpl.
  destruct (0 <=? z) eqn:E; [done | lia].
Qed.

(** [x || 0] only replaces [NaN] *)
Lemma Num_or_zero_Fin q : Num.or (Fin q) Num.zero = Fin q.
Proof.
  unfold Num.or, Num.truthy, Num.strict_eq, Num.cmp, Num.zero, Num.of_Z.
  destruct (q ?= Q2Qc (inject_Z 0))%Qc eqn:E; simpl; try reflexivity.
  apply Qceq_alt in E. by rewrite E.
Qed.

Lemma Num_or_zero_NaN : Num.or NaN Num.zero = Num.zero.
Proof. reflexivity. Qed.

Lemma Num_or_zero_not_NaN a : Num.or a Num.zero ≠ NaN.
Proof. destruct a; [by rewrite Num_or_zero_Fin | done]. Qed.

Lemma Num_add_not_NaN a b : a ≠ NaN -> b ≠ NaN -> Num.add a b ≠ NaN.
Proof. by destruct a, b. Qed.

Lemma Num_or_zero_id a : a ≠ NaN -> Num.or a Num.zero = a.
Proof. destruct a; [intros _; apply Num_or_zero_Fin | done]. Qed.

End NumberFacts.

(** ** The calendar *)

Section CalendarFacts.

Lemma doy_of_doe_range doe :
  0 <= doe < 146097 -> 0 <= JSDate.doy_of_doe doe <= 365.
Proof.
  intros H. unfold JSDate.doy_of_doe, JSDate.yoe_of_doe.
  Z.div_mod_to_equations. lia.
Qed.

Lemma civil_month_range z :
  1 <= JSDate.c_month (JSDate.civil_from_days z) <= 12.
Proof.
  unfold JSDate.civil_from_days. cbv zeta. simpl JSDate.c_month.
  pose proof (doy_of_doe_range ((z + 719468) mod 146097)) as Hd.
  assert (0 <= (z + 719468) mod 146097 < 146097) as Hm
    by (apply Z.mod_pos_bound; lia).
  specialize (Hd Hm).
  set (doy := JSDate.doy_of_doe _) in *.
  assert (0 <= (5 * doy + 2) / 153 <= 11) as Hmp
    by (Z.div_mod_to_equations; lia).
  destruct (_ <? 10) eqn:E; lia.
Qed.

(** [getMonth] of a valid date is one of 0..11 *)
Lemma MonthFromTime_range t : 0 <= JSDate.MonthFromTime t <= 11.
Proof.
  unfold JSDate.MonthFromTime.
  pose proof (civil_month_range (JSDate.Day t)). lia.
Qed.

Lemma monthShort_lookup t :
  JSDate.monthShortNames !! Z.to_nat (JSDate.MonthFromTime t)
  = Some (JSDate.monthShort t).
Proof.
  unfold JSDate.monthShort.
  pose proof (MonthFromTime_range t) as H.
  destruct (JSDate.monthShortNames !! Z.to_nat (JSDate.MonthFromTime t)) eqn:E;
    [done|].
  apply lookup_ge_None in E. simpl in E. lia.
Qed.

Lemma monthShort_elem t : JSDate.monthShort t ∈ JSDate.monthShortNames.
Proof. apply list_elem_of_lookup. eexists. apply monthShort_lookup. Qed.

Lemma getFullYear_valid tza t year :
  Num.strict_eq (JSDate.getFullYear tza (ValidDate t)) (Num.of_Z year)
  = (JSDate.YearFromTime (JSDate.LocalTime tza t) =? year).
Proof. apply Num_strict_eq_of_Z. Qed.

Lemma getMonth_valid tza t month :
  Num.strict_eq (JSDate.getMonth tza (ValidDate t)) (Num.of_Z month)
  = (JSDate.MonthFromTime (JSDate.LocalTime tza t) =? month).
Proof. apply Num_strict_eq_of_Z. Qed.

End CalendarFacts.

(** ** The text of a date

    [toISOString] and the parser of [new Date(string)] are inverse to each
    other: the income and expense forms store the date as the former writes
    it, and the widgets read it back with the latter. *)

Section IsoText.

Lemma Str_append_cons c a b : (String c a +:+ b) = String c (a +:+ b).
Proof. reflexivity. Qed.

Lemma Str_append_nil_l b : (EmptyString +:+ b) = b.
Proof. reflexivity. Qed.

Lemma take_digits_all s : ∀ acc rest,
  Spec.allDigits s = true →
  JSDate.take_digits (String.length s) acc (s +:+ rest) = Some (Spec.digitsValue s acc, rest).
Proof.
  induction s as [|c s IH]; intros acc rest H; [reflexivity|].
  cbn [Spec.allDigits] in H. apply andb_true_iff in H as [Hc Hs].
  rewrite Str_append_cons. cbn [String.length JSDate.take_digits Spec.digitsValue].
  rewrite Hc. by apply IH.
Qed.

Lemma pretty_N_char_digit x :
  (x < 10)%N → Str.isDigit (pretty_N_char x) = true
              ∧ Str.digitVal (pretty_N_char x) = Z.of_N x.
Proof.
  intros H. destruct x as [|p]; [by split|].
  do 4 (try destruct p as [p|p|]); try (by split); lia.
Qed.

Lemma pretty_N_go_digits x : ∀ s k,
  Spec.allDigits s = true → (x < 10 ^ k)%N →
  Spec.allDigits (pretty_N_go x s) = true
  ∧ Spec.digitsValue (pretty_N_go x s) 0 = Spec.digitsValue s (Z.of_N x)
  ∧ (String.length (pretty_N_go x s) <= N.to_nat k + String.length s)%nat.
Proof.
  induction (N.lt_wf_0 x) as [x _ IH]; intros s k Hs Hk.
  destruct (decide (x = 0)%N) as [->|Hx].
  - rewrite pretty_N_go_0. repeat split; [done | lia].
  - rewrite pretty_N_go_step by lia.
    destruct (pretty_N_char_digit (x `mod` 10)%N) as [Hd Hv].
    { apply N.mod_lt. lia. }
    assert (k ≠ 0)%N as Hk0.
    { intros ->. change (10 ^ 0)%N with 1%N in Hk. lia. }
    destruct (IH (x `div` 10)%N) with (s := String (pretty_N_char (x `mod` 10)) s)
                                      (k := (k - 1)%N) as (H1 & H2 & H3).
    + apply N.div_lt; lia.
    + cbn [Spec.allDigits]. by rewrite Hd, Hs.
    + apply N.Div0.div_lt_upper_bound.
      replace (10 * 10 ^ (k - 1))%N with (10 ^ k)%N; [done|].
      rewrite <- N.pow_succ_r'. f_equal. lia.
    + repeat split; [done | |].
      * rewrite H2. cbn [Spec.digitsValue]. rewrite Hv. f_equal.
        pose proof (N.div_mod x 10 ltac:(lia)). lia.
      * cbn [String.length] in H3. lia.
Qed.

Lemma pretty_Z_digits z k :
  0 <= z < 10 ^ Z.of_nat k → (0 < k)%nat →
  Spec.allDigits (pretty z) = true
  ∧ Spec.digitsValue (pretty z) 0 = z
  ∧ (String.length (pretty z) <= k)%nat.
Proof.
  intros Hz Hk. destruct z as [|p|p]; [| |lia].
  - repeat split; simpl; lia.
  - change (pretty (Z.pos p)) with (pretty (N.pos p)).
    unfold pretty, pretty_N. destruct (decide _) as [?|_]; [done|].
    destruct (pretty_N_go_digits (N.pos p) EmptyString (N.of_nat k)) as (H1 & H2 & H3);
      [done | | ].
    + apply N2Z.inj_lt. rewrite N2Z.inj_pow. simpl. rewrite nat_N_Z. lia.
    + repeat split; [done | done |]. simpl in H3. lia.
Qed.

Lemma take_digits_zeros k : ∀ n s,
  JSDate.take_digits (k + n) 0 (string_of_list_ascii (replicate k "0"%char) +:+ s)
  = JSDate.take_digits n 0 s.
Proof.
  induction k as [|k IH]; intros n s; [reflexivity|].
  cbn [replicate string_of_list_ascii]. rewrite Str_append_cons.
  cbn [Nat.add JSDate.take_digits]. apply IH.
Qed.

Lemma Str_append_assoc a b c : ((a +:+ b) +:+ c) = (a +:+ (b +:+ c)).
Proof. induction a as [|x a IH]; [done|]. by rewrite !Str_append_cons, IH. Qed.

(** a number printed on [k] digits reads back as itself *)
Lemma take_digits_padStart0 k z rest :
  (0 < k)%nat → 0 <= z < 10 ^ Z.of_nat k →
  JSDate.take_digits k 0 (Str.padStart0 k (pretty z) +:+ rest) = Some (z, rest).
Proof.
  intros Hk Hz. destruct (pretty_Z_digits z k Hz Hk) as (Hd & Hv & Hl).
  unfold Str.padStart0. rewrite Str_append_assoc.
  replace k with ((k - String.length (pretty z)) + String.length (pretty z))%nat at 1 by lia.
  rewrite take_digits_zeros, take_digits_all by done. by rewrite Hv.
Qed.

Lemma yoe_of_doe_range doe : 0 <= doe < 146097 → 0 <= JSDate.yoe_of_doe doe <= 399.
Proof. intros H. unfold JSDate.yoe_of_doe. Z.div_mod_to_equations. lia. Qed.

Lemma civil_roundtrip z :
  let c := JSDate.civil_from_days z in
  JSDate.days_from_civil (JSDate.c_year c) (JSDate.c_month c) (JSDate.c_day c) = z.
Proof.
  cbv zeta. unfold JSDate.civil_from_days. cbv zeta.
  cbn [JSDate.c_year JSDate.c_month JSDate.c_day].
  assert (0 <= (z + 719468) mod 146097 < 146097) as Hm by (apply Z.mod_pos_bound; lia).
  pose proof (yoe_of_doe_range _ Hm) as Hy.
  pose proof (doy_of_doe_range _ Hm) as Hd.
  pose proof (Z.div_mod (z + 719468) 146097 ltac:(lia)) as Hz.
  unfold JSDate.doy_of_doe in *.
  set (doe := (z + 719468) mod 146097) in *.
  set (era := (z + 719468) / 146097) in *.
  set (yoe := JSDate.yoe_of_doe doe) in *.
  set (doy := doe - (365 * yoe + yoe / 4 - yoe / 100)) in *.
  set (mp := (5 * doy + 2) / 153).
  assert (0 <= mp <= 11) as Hmp by (unfold mp; Z.div_mod_to_equations; lia).
  unfold JSDate.days_from_civil.
  set (m := if mp <? 10 then mp + 3 else mp - 9).
  assert ((if 2 <? m then m - 3 else m + 9) = mp) as ->.
  { unfold m. destruct (Z.ltb_spec mp 10);
      [destruct (Z.ltb_spec 2 (mp + 3)) | destruct (Z.ltb_spec 2 (mp - 9))]; lia. }
  set (y := if m <=? 2 then yoe + era * 400 + 1 else yoe + era * 400).
  assert ((if m <=? 2 then y - 1 else y) = yoe + era * 400) as ->.
  { unfold y. destruct (m <=? 2); lia. }
  assert ((yoe + era * 400) / 400 = era) as ->.
  { Z.div_mod_to_equations. lia. }
  replace (yoe + era * 400 - era * 400) with yoe by lia.
  unfold doy. lia.
Qed.

Lemma isLeapYear_spec y :
  JSDate.isLeapYear y = true ↔ (y mod 4 = 0 ∧ (y mod 100 ≠ 0 ∨ y mod 400 = 0)).
Proof.
  unfold JSDate.isLeapYear.
  destruct (Z.eqb_spec (y mod 4) 0), (Z.eqb_spec (y mod 100) 0),
    (Z.eqb_spec (y mod 400) 0); simpl; split; try done; try tauto;
    try (intros _; split; [done | tauto]);
    try (intros [? [?|?]]; done).
  all: Z.div_mod_to_equations; lia.
Qed.

Lemma doy_leap_day doe :
  0 <= doe < 146097 → JSDate.doy_of_doe doe = 365 →
  (JSDate.yoe_of_doe doe + 1) mod 4 = 0
  ∧ ((JSDate.yoe_of_doe doe + 1) mod 100 ≠ 0 ∨ (JSDate.yoe_of_doe doe + 1) mod 400 = 0).
Proof.
  intros H. unfold JSDate.doy_of_doe, JSDate.yoe_of_doe.
  Z.div_mod_to_equations. lia.
Qed.

Lemma civil_day_range z :
  let c := JSDate.civil_from_days z in
  1 <= JSDate.c_day c <= JSDate.DaysInMonth (JSDate.c_year c) (JSDate.c_month c).
Proof.
  cbv zeta. unfold JSDate.civil_from_days. cbv zeta.
  cbn [JSDate.c_year JSDate.c_month JSDate.c_day].
  assert (0 <= (z + 719468) mod 146097 < 146097) as Hm by (apply Z.mod_pos_bound; lia).
  pose proof (doy_of_doe_range _ Hm) as Hd.
  pose proof (doy_leap_day _ Hm) as Hleap.
  set (doe := (z + 719468) mod 146097) in *.
  set (era := (z + 719468) / 146097) in *.
  set (yoe := JSDate.yoe_of_doe doe) in *.
  set (doy := JSDate.doy_of_doe doe) in *.
  set (mp := (5 * doy + 2) / 153).
  assert (0 <= mp <= 11) as Hmp by (unfold mp; Z.div_mod_to_equations; lia).
  assert (mp = 0 ∨ mp = 1 ∨ mp = 2 ∨ mp = 3 ∨ mp = 4 ∨ mp = 5 ∨ mp = 6 ∨ mp = 7
          ∨ mp = 8 ∨ mp = 9 ∨ mp = 10 ∨ mp = 11) as Hcase by lia.
  assert (∀ k, mp = k → 153 * k - 2 <= 5 * doy ∧ 5 * doy + 2 < 153 * (k + 1)) as Hb.
  { intros k Hk. unfold mp in Hk. Z.div_mod_to_equations. lia. }
  unfold JSDate.DaysInMonth.
  repeat (destruct Hcase as [Hk|Hcase];
          [specialize (Hb _ Hk); rewrite Hk; simpl; Z.div_mod_to_equations; lia|]).
  (* February *)
  specialize (Hb _ Hcase). rewrite Hcase. simpl.
  destruct (JSDate.isLeapYear (yoe + era * 400 + 1)) eqn:E.
  - Z.div_mod_to_equations. lia.
  - assert (doy ≠ 365) as Hne.
    { intros H365. apply Hleap in H365.
      assert (JSDate.isLeapYear (yoe + era * 400 + 1) = true); [|congruence].
      apply isLeapYear_spec. Z.div_mod_to_equations. lia. }
    Z.div_mod_to_equations. lia.
Qed.

Lemma parse_year_digits s z r :
  JSDate.take_digits 4 0 s = Some (z, r) → JSDate.parse_year s = Some (z, r).
Proof.
  destruct s as [|c s]; [done|]. intros H.
  assert (Str.isDigit c = true) as Hc.
  { cbn [JSDate.take_digits] in H. by destruct (Str.isDigit c). }
  unfold JSDate.parse_year.
  destruct c as [[] [] [] [] [] [] [] []]; try discriminate Hc; exact H.
Qed.

Lemma parse_opt2_present sep z rest :
  0 <= z < 100 →
  JSDate.parse_opt2 sep (String sep (Str.padStart0 2 (pretty z) +:+ rest))
  = Some (Some z, rest).
Proof.
  intros Hz. unfold JSDate.parse_opt2. rewrite Ascii.eqb_refl.
  by rewrite (take_digits_padStart0 2) by (simpl; lia).
Qed.

Lemma parse_time_iso h mi s ms :
  0 <= h <= 23 → 0 <= mi <= 59 → 0 <= s <= 59 → 0 <= ms <= 999 →
  JSDate.parse_time
    (Str.padStart0 2 (pretty h) +:+ ":" +:+ Str.padStart0 2 (pretty mi) +:+ ":"
       +:+ Str.padStart0 2 (pretty s) +:+ "." +:+ Str.padStart0 3 (pretty ms) +:+ "Z")
  = Some (JSDate.MakeTime h mi s ms, JSDate.OffMinutes 0).
Proof.
  intros Hh Hmi Hs Hms. unfold JSDate.parse_time.
  rewrite (take_digits_padStart0 2) by (simpl; lia). cbn [mbind option_bind].
  rewrite Str_append_cons, Str_append_nil_l.
  rewrite (take_digits_padStart0 2) by (simpl; lia). cbn [mbind option_bind].
  rewrite Str_append_cons, Str_append_nil_l.
  rewrite parse_opt2_present by lia. cbn [mbind option_bind].
  rewrite Str_append_cons, Str_append_nil_l.
  rewrite (take_digits_padStart0 3) by (simpl; lia). cbn [mbind option_bind].
  change (JSDate.parse_offset "Z") with (Some (JSDate.OffMinutes 0)).
  cbn [mbind option_bind].
  replace ((h <=? 23) && (mi <=? 59) && (s <=? 59)) with true; [done|].
  symmetry. rewrite !andb_true_iff, !Z.leb_le. lia.
Qed.

Lemma time_of_day_fields t :
  0 <= JSDate.HourFromTime t <= 23 ∧ 0 <= JSDate.MinFromTime t <= 59
  ∧ 0 <= JSDate.SecFromTime t <= 59 ∧ 0 <= JSDate.msFromTime t <= 999
  ∧ JSDate.MakeTime (JSDate.HourFromTime t) (JSDate.MinFromTime t)
      (JSDate.SecFromTime t) (JSDate.msFromTime t) = JSDate.TimeWithinDay t.
Proof.
  unfold JSDate.HourFromTime, JSDate.MinFromTime, JSDate.SecFromTime, JSDate.msFromTime,
    JSDate.MakeTime, JSDate.TimeWithinDay, JSDate.msPerDay.
  Z.div_mod_to_equations. lia.
Qed.

Lemma MakeDay_civil z :
  let c := JSDate.civil_from_days z in
  JSDate.MakeDay (JSDate.c_year c) (JSDate.c_month c - 1) (JSDate.c_day c) = z.
Proof.
  cbv zeta. pose proof (civil_roundtrip z) as Hr. cbv zeta in Hr.
  pose proof (civil_month_range z) as Hm.
  unfold JSDate.MakeDay.
  set (c := JSDate.civil_from_days z) in *.
  replace ((JSDate.c_month c - 1) / 12) with 0 by (Z.div_mod_to_equations; lia).
  replace ((JSDate.c_month c - 1) mod 12 + 1) with (JSDate.c_month c)
    by (Z.div_mod_to_equations; lia).
  rewrite Z.add_0_r.
  transitivity (JSDate.days_from_civil (JSDate.c_year c) (JSDate.c_month c) (JSDate.c_day c));
    [|exact Hr].
  unfold JSDate.days_from_civil. lia.
Qed.

(** The text written by [toISOString] for a date of the years 0 to 9999
    parses back to the same time value. *)
Lemma iso_string_roundtrip tza t iso :
  0 <= JSDate.YearFromTime t <= 9999 →
  JSDate.toISOString (ValidDate t) = Some iso →
  JSDate.ofString tza iso = JSDate.TimeClip t.
Proof.
  intros Hy [= <-]. unfold JSDate.ofString.
  assert (JSDate.parse_format true tza
            (Str.padStart0 4 (pretty (JSDate.YearFromTime t)) +:+ "-"
               +:+ Str.padStart0 2 (pretty (JSDate.MonthFromTime t + 1)) +:+ "-"
               +:+ Str.padStart0 2 (pretty (JSDate.DateFromTime t)) +:+ "T"
               +:+ Str.padStart0 2 (pretty (JSDate.HourFromTime t)) +:+ ":"
               +:+ Str.padStart0 2 (pretty (JSDate.MinFromTime t)) +:+ ":"
               +:+ Str.padStart0 2 (pretty (JSDate.SecFromTime t)) +:+ "."
               +:+ Str.padStart0 3 (pretty (JSDate.msFromTime t)) +:+ "Z")
          = Some t) as Hp.
  { destruct (time_of_day_fields t) as (Hh & Hmi & Hs & Hms & Htime).
    pose proof (civil_month_range (JSDate.Day t)) as Hm.
    pose proof (civil_day_range (JSDate.Day t)) as Hd. cbv zeta in Hd.
    pose proof (MakeDay_civil (JSDate.Day t)) as Hday. cbv zeta in Hday.
    unfold JSDate.MonthFromTime, JSDate.DateFromTime, JSDate.YearFromTime in *.
    set (c := JSDate.civil_from_days (JSDate.Day t)) in *.
    assert (JSDate.c_day c <= 31) as Hd31.
    { destruct Hd as [_ Hd]. unfold JSDate.DaysInMonth in Hd.
      destruct (JSDate.c_month c =? 2);
        [destruct (JSDate.isLeapYear _) | destruct (_ || _)]. all: lia. }
    unfold JSDate.parse_format.
    erewrite parse_year_digits; cycle 1.
    { apply (take_digits_padStart0 4); [lia|].
      change (10 ^ Z.of_nat 4) with 10000. lia. }
    cbn [mbind option_bind].
    rewrite Str_append_cons, Str_append_nil_l.
    rewrite parse_opt2_present by lia. cbn [mbind option_bind].
    rewrite Str_append_cons, Str_append_nil_l.
    rewrite parse_opt2_present by lia. cbn [mbind option_bind default from_option Datatypes.id].
    replace (JSDate.c_month c - 1 + 1) with (JSDate.c_month c) by lia.
    replace (negb _) with false.
    2:{ symmetry. apply negb_false_iff. rewrite !andb_true_iff, !Z.leb_le. lia. }
    rewrite Str_append_cons, Str_append_nil_l.
    rewrite parse_time_iso by lia. cbn [mbind option_bind].
    f_equal. rewrite Hday, Htime.
    unfold JSDate.MakeDate, JSDate.Day, JSDate.TimeWithinDay, JSDate.msPerDay.
    Z.div_mod_to_equations. lia. }
  cbn [JSDate.toISOString].
  replace ((0 <=? JSDate.YearFromTime t) && (JSDate.YearFromTime t <=? 9999)) with true.
  2:{ symmetry. rewrite andb_true_iff, !Z.leb_le. lia. }
  by rewrite Hp.
Qed.

End IsoText.

(** ** Month buckets and the admitted records *)

Section SavingsBuckets.

Import SavingsTrendChart.

Variables (get keep : SavingsDataPoint → number)
          (add : number → SavingsDataPoint → SavingsDataPoint).
Hypothesis get_add : ∀ a e, get (add a e) = Num.add (get e) a.
Hypothesis keep_add : ∀ a e, keep (add a e) = keep e.
Hypothesis month_add : ∀ a e, month (add a e) = month e.

Lemma sum_alter_get a i (l : list SavingsDataPoint) :
  (i < length l)%nat →
  Num.sum (map get (alter (add a) i l)) = Num.add (Num.sum (map get l)) a.
Proof.
  revert i. induction l as [|e l IH]; intros i Hi; simpl in Hi; [lia|].
  destruct i as [|i].
  - change (alter (add a) 0%nat (e :: l)) with (add a e :: l).
    cbn [map]. rewrite !Num_sum_cons, get_add.
    rewrite <- !Num_add_assoc. f_equal. apply Num_add_comm.
  - change (alter (add a) (S i) (e :: l)) with (e :: alter (add a) i l).
    cbn [map]. rewrite !Num_sum_cons, IH by lia. apply Num_add_assoc.
Qed.

Lemma map_alter_keep a i (l : list SavingsDataPoint) :
  map keep (alter (add a) i l) = map keep l.
Proof.
  revert i. induction l as [|e l IH]; intros [|i]; try done.
  - change (alter (add a) 0%nat (e :: l)) with (add a e :: l).
    cbn [map]. by rewrite keep_add.
  - change (alter (add a) (S i) (e :: l)) with (e :: alter (add a) i l).
    cbn [map]. by rewrite IH.
Qed.

Lemma map_alter_month a i (l : list SavingsDataPoint) :
  map month (alter (add a) i l) = map month l.
Proof.
  revert i. induction l as [|e l IH]; intros [|i]; try done.
  - change (alter (add a) 0%nat (e :: l)) with (add a e :: l).
    cbn [map]. by rewrite month_add.
  - change (alter (add a) (S i) (e :: l)) with (e :: alter (add a) i l).
    cbn [map]. by rewrite IH.
Qed.

Lemma visit_spec tza year monthly doc :
  length monthly = 12%nat →
  ∃ monthly',
    visit tza year add monthly doc = Some monthly'
    ∧ length monthly' = 12%nat
    ∧ map keep monthly' = map keep monthly
    ∧ map month monthly' = map month monthly
    ∧ Num.sum (map get monthly')
      = Num.add (Num.sum (map get monthly))
                (Num.sum (option_list (Spec.admittedAmount tza year doc))).
Proof.
  intros Hlen. unfold visit, Spec.admittedAmount.
  destruct (parseDate tza (Firestore.date (Firestore.data doc))) as [[t|]|];
    destruct (Firestore.amount (Firestore.data doc)) as [| | |a| | | |];
    try (exists monthly; simpl; rewrite ?Num_add_zero_r; done).
  rewrite getFullYear_valid.
  destruct (_ =? year);
    [|exists monthly; simpl; rewrite ?Num_add_zero_r; done].
  pose proof (MonthFromTime_range (JSDate.LocalTime tza t)) as Hm.
  unfold Array.update, JSDate.getMonth.
  rewrite Num_toIndex_of_Z by lia. simpl.
  destruct (decide _) as [Hlt|Hge]; [|lia].
  eexists. split; [reflexivity|].
  rewrite length_alter, map_alter_keep, map_alter_month, sum_alter_get by lia.
  repeat split; try done.
  f_equal. unfold Num.sum. simpl. by rewrite Num_add_zero_r.
Qed.

Lemma foldM_visit_spec tza year docs : ∀ monthly,
  length monthly = 12%nat →
  ∃ monthly',
    Array.foldM (visit tza year add) monthly docs = Some monthly'
    ∧ length monthly' = 12%nat
    ∧ map keep monthly' = map keep monthly
    ∧ map month monthly' = map month monthly
    ∧ Num.sum (map get monthly')
      = Num.add (Num.sum (map get monthly))
                (Num.sum (omap (Spec.admittedAmount tza year) docs)).
Proof.
  induction docs as [|doc docs IH]; intros monthly Hlen.
  - exists monthly. repeat split; try done. symmetry. apply Num_add_zero_r.
  - destruct (visit_spec tza year monthly doc Hlen)
      as (m1 & Hv & Hlen1 & Hk1 & Hm1 & Hs1).
    destruct (IH m1 Hlen1) as (m2 & Hf & Hlen2 & Hk2 & Hm2 & Hs2).
    exists m2. cbn [Array.foldM]. rewrite Hv. cbn [mbind option_bind].
    repeat split; try congruence.
    by rewrite Hs2, Hs1, <- Num_add_assoc, Num_sum_omap_cons.
Qed.

Lemma visit_lookup tza year monthly monthly' doc i e :
  visit tza year add monthly doc = Some monthly' →
  monthly !! i = Some e →
  ∃ e', monthly' !! i = Some e'
    ∧ get e' = Num.add (get e)
                 (Num.sum (option_list (Spec.admittedAmountIn tza year i doc))).
Proof.
  unfold visit, Spec.admittedAmountIn. intros Hv He.
  destruct (parseDate tza (Firestore.date (Firestore.data doc))) as [[t|]|];
    destruct (Firestore.amount (Firestore.data doc)) as [| | |a| | | |];
    try (injection Hv as <-; exists e; split; [done | symmetry; apply Num_add_zero_r]).
  rewrite getFullYear_valid in Hv.
  destruct (_ =? year);
    [|injection Hv as <-; exists e; split; [done | symmetry; apply Num_add_zero_r]].
  pose proof (MonthFromTime_range (JSDate.LocalTime tza t)) as Hm.
  unfold Array.update, JSDate.getMonth in Hv.
  rewrite Num_toIndex_of_Z in Hv by lia. cbn [mbind option_bind] in Hv.
  destruct (decide _) as [Hlt|Hge]; [|done]. injection Hv as <-.
  cbn [andb].
  destruct (Nat.eqb_spec (Z.to_nat (JSDate.MonthFromTime (JSDate.LocalTime tza t))) i)
    as [->|Hne].
  - exists (add a e). rewrite list_lookup_alter_eq, He. split; [done|].
    change (option_list (Some ?x)) with [x]. by rewrite get_add, Num_sum_singleton.
  - exists e. rewrite list_lookup_alter_ne by done.
    split; [done | symmetry; apply Num_add_zero_r].
Qed.

Lemma foldM_visit_lookup tza year docs i : ∀ monthly monthly' e,
  Array.foldM (visit tza year add) monthly docs = Some monthly' →
  monthly !! i = Some e →
  ∃ e', monthly' !! i = Some e'
    ∧ get e' = Num.add (get e)
                 (Num.sum (omap (Spec.admittedAmountIn tza year i) docs)).
Proof.
  induction docs as [|doc docs IH]; intros monthly monthly' e Hf He.
  - injection Hf as <-. exists e. split; [done | symmetry; apply Num_add_zero_r].
  - cbn [Array.foldM] in Hf.
    destruct (visit tza year add monthly doc) as [m1|] eqn:Hv; [|done].
    cbn [mbind option_bind] in Hf.
    destruct (visit_lookup _ _ _ _ _ _ _ Hv He) as (e1 & He1 & Hg1).
    destruct (IH _ _ _ Hf He1) as (e2 & He2 & Hg2).
    exists e2. split; [done|].
    by rewrite Hg2, Hg1, <- Num_add_assoc, Num_sum_omap_cons.
Qed.

End SavingsBuckets.

Section IncomeChartBuckets.

Import IncomeChart.

Lemma getOr0_not_NaN (m : gmap string number) k : getOr0 m k ≠ NaN.
Proof.
  unfold getOr0. destruct (m !! k); [apply Num_or_zero_not_NaN | done].
Qed.

Lemma getOr0_insert_eq (m : gmap string number) k v :
  v ≠ NaN → getOr0 (<[k:=v]> m) k = v.
Proof.
  intros Hv. unfold getOr0. rewrite lookup_insert_eq. by apply Num_or_zero_id.
Qed.

Lemma getOr0_insert_ne (m : gmap string number) k k' v :
  k ≠ k' → getOr0 (<[k:=v]> m) k' = getOr0 m k'.
Proof. intros Hne. unfold getOr0. by rewrite lookup_insert_ne. Qed.

Lemma map_getOr0_insert_notin (m : gmap string number) k v (ks : list string) :
  k ∉ ks → map (getOr0 (<[k:=v]> m)) ks = map (getOr0 m) ks.
Proof.
  induction ks as [|k0 ks IH]; intros Hk; [done|].
  apply not_elem_of_cons in Hk as [Hne Hk].
  cbn [map]. by rewrite getOr0_insert_ne, IH.
Qed.

(** adding [a] to the bucket [k] adds [a] to the total over any list of
    distinct keys that contains [k] *)
Lemma sum_getOr0_insert (m : gmap string number) k a (ks : list string) :
  NoDup ks → k ∈ ks → a ≠ NaN →
  Num.sum (map (getOr0 (<[k := Num.add (getOr0 m k) a]> m)) ks)
  = Num.add (Num.sum (map (getOr0 m) ks)) a.
Proof.
  intros Hnd Hk Ha. induction Hnd as [|k0 ks Hk0 Hnd IH]; [by inversion Hk|].
  cbn [map]. rewrite !Num_sum_cons.
  destruct (decide (k = k0)) as [->|Hne].
  - rewrite getOr0_insert_eq
      by (apply Num_add_not_NaN; [apply getOr0_not_NaN | done]).
    rewrite map_getOr0_insert_notin by done.
    rewrite <- !Num_add_assoc. f_equal. apply Num_add_comm.
  - rewrite getOr0_insert_ne by done.
    apply elem_of_cons in Hk as [?|Hk]; [done|].
    rewrite IH by done. apply Num_add_assoc.
Qed.

Lemma MONTHS_ORDER_NoDup : NoDup MONTHS_ORDER.
Proof. apply (bool_decide_unpack (NoDup MONTHS_ORDER)). vm_compute. exact I. Qed.

Lemma accumulate_sum tza (m : gmap string number) r :
  Num.sum (map (getOr0 (accumulate tza m r)) MONTHS_ORDER)
  = Num.add (Num.sum (map (getOr0 m) MONTHS_ORDER))
            (Num.sum (option_list (Spec.chartAmount tza r))).
Proof.
  unfold accumulate, Spec.chartAmount.
  destruct (parseIncomeDate tza (date r)) as [[t|]|];
    try (symmetry; apply Num_add_zero_r).
  rewrite sum_getOr0_insert.
  - f_equal. change (option_list (Some ?x)) with [x].
    by rewrite Num_sum_cons, (Num_add_zero_r (Num.or _ _)).
  - apply MONTHS_ORDER_NoDup.
  - apply monthShort_elem.
  - apply Num_or_zero_not_NaN.
Qed.

Lemma foldl_accumulate_sum tza rs : ∀ m : gmap string number,
  Num.sum (map (getOr0 (foldl (accumulate tza) m rs)) MONTHS_ORDER)
  = Num.add (Num.sum (map (getOr0 m) MONTHS_ORDER))
            (Num.sum (omap (Spec.chartAmount tza) rs)).
Proof.
  induction rs as [|r rs IH]; intros m.
  - symmetry. apply Num_add_zero_r.
  - cbn [foldl]. by rewrite IH, accumulate_sum, <- Num_add_assoc, Num_sum_omap_cons.
Qed.

Lemma buildMonthlyIncomeData_income tza rs :
  map income (buildMonthlyIncomeData tza rs)
  = map (getOr0 (foldl (accumulate tza) ∅ rs)) MONTHS_ORDER.
Proof. unfold buildMonthlyIncomeData. by rewrite map_map. Qed.

Lemma buildMonthlyIncomeData_name tza rs :
  map name (buildMonthlyIncomeData tza rs) = MONTHS_ORDER.
Proof. unfold buildMonthlyIncomeData. rewrite map_map. apply map_id. Qed.

End IncomeChartBuckets.

(** The savings chart: the new [data] has the twelve months, and its
    income and expense totals add up to the admitted amounts. *)
Lemma fetchSavingsData_sums (tza year : Z) (incomeSnap expenseSnap : list Doc) :
  ∃ monthly,
    SavingsTrendChart.fetchSavingsData tza year incomeSnap expenseSnap = Some monthly
    ∧ map SavingsTrendChart.month monthly = SavingsTrendChart.monthNames
    ∧ Num.sum (map SavingsTrendChart.income monthly)
      = Num.sum (omap (Spec.admittedAmount tza year) incomeSnap)
    ∧ Num.sum (map SavingsTrendChart.expense monthly)
      = Num.sum (omap (Spec.admittedAmount tza year) expenseSnap).
Proof.
  unfold SavingsTrendChart.fetchSavingsData.
  set (m0 := map _ SavingsTrendChart.monthNames).
  assert (length m0 = 12%nat) as H0 by reflexivity.
  destruct (foldM_visit_spec SavingsTrendChart.income SavingsTrendChart.expense
              SavingsTrendChart.addIncome (λ _ _, eq_refl) (λ _ _, eq_refl)
              (λ _ _, eq_refl) tza year incomeSnap m0 H0)
    as (m1 & -> & H1 & Hk1 & Hm1 & Hs1).
  cbn [mbind option_bind].
  destruct (foldM_visit_spec SavingsTrendChart.expense SavingsTrendChart.income
              SavingsTrendChart.addExpense (λ _ _, eq_refl) (λ _ _, eq_refl)
              (λ _ _, eq_refl) tza year expenseSnap m1 H1)
    as (m2 & -> & H2 & Hk2 & Hm2 & Hs2).
  cbn [mbind option_bind]. eexists. split; [reflexivity|].
  rewrite !map_map.
  change (map (λ x, SavingsTrendChart.month (SavingsTrendChart.setSavings x)) m2)
    with (map SavingsTrendChart.month m2).
  change (map (λ x, SavingsTrendChart.income (SavingsTrendChart.setSavings x)) m2)
    with (map SavingsTrendChart.income m2).
  change (map (λ x, SavingsTrendChart.expense (SavingsTrendChart.setSavings x)) m2)
    with (map SavingsTrendChart.expense m2).
  repeat split.
  - by rewrite Hm2, Hm1.
  - rewrite Hk2, Hs1. apply Num_add_zero_l.
  - rewrite Hs2, Hk1. apply Num_add_zero_l.
Qed.

Lemma map_lookup_eq {A B} (f : A → B) (l l' : list A) i x x' :
  map f l = map f l' → l !! i = Some x → l' !! i = Some x' → f x = f x'.
Proof.
  intros H Hx Hx'. apply (f_equal (λ k, k !! i)) in H.
  change (@map) with (@fmap list _) in H.
  rewrite !list_lookup_fmap, Hx, Hx' in H. by injection H.
Qed.

(** The savings chart, month by month: the entry of the month of index
    [i] holds the sums of the amounts admitted for that month, hence 0 and
    0 when there is none. *)
Lemma fetchSavingsData_entries (tza year : Z) (incomeSnap expenseSnap : list Doc)
    monthly i name :
  SavingsTrendChart.fetchSavingsData tza year incomeSnap expenseSnap = Some monthly →
  SavingsTrendChart.monthNames !! i = Some name →
  ∃ e, monthly !! i = Some e
    ∧ SavingsTrendChart.month e = name
    ∧ SavingsTrendChart.income e
      = Num.sum (omap (Spec.admittedAmountIn tza year i) incomeSnap)
    ∧ SavingsTrendChart.expense e
      = Num.sum (omap (Spec.admittedAmountIn tza year i) expenseSnap)
    ∧ SavingsTrendChart.savings e
      = Num.sub (SavingsTrendChart.income e) (SavingsTrendChart.expense e).
Proof.
  unfold SavingsTrendChart.fetchSavingsData. intros H Hname.
  set (m0 := map _ SavingsTrendChart.monthNames) in H.
  set (e0 := {| SavingsTrendChart.month := name; SavingsTrendChart.income := Num.zero;
                SavingsTrendChart.expense := Num.zero;
                SavingsTrendChart.savings := Num.zero |}).
  assert (m0 !! i = Some e0) as H0.
  { unfold m0. change (@map) with (@fmap list _). by rewrite list_lookup_fmap, Hname. }
  destruct (Array.foldM _ m0 incomeSnap) as [m1|] eqn:H1; [|done].
  cbn [mbind option_bind] in H.
  destruct (Array.foldM _ m1 expenseSnap) as [m2|] eqn:H2; [|done].
  cbn [mbind option_bind] in H. injection H as <-.
  destruct (foldM_visit_lookup SavingsTrendChart.income SavingsTrendChart.addIncome
              (λ _ _, eq_refl) tza year incomeSnap i m0 m1 e0 H1 H0) as (e1 & He1 & Hi1).
  destruct (foldM_visit_lookup SavingsTrendChart.expense SavingsTrendChart.addExpense
              (λ _ _, eq_refl) tza year expenseSnap i m1 m2 e1 H2 He1) as (e2 & He2 & He2x).
  assert (length m0 = 12%nat) as L0 by reflexivity.
  destruct (foldM_visit_spec SavingsTrendChart.income SavingsTrendChart.expense
              SavingsTrendChart.addIncome (λ _ _, eq_refl) (λ _ _, eq_refl)
              (λ _ _, eq_refl) tza year incomeSnap m0 L0)
    as (m1' & E1 & L1 & K1 & M1 & _).
  rewrite H1 in E1. injection E1 as <-.
  destruct (foldM_visit_spec SavingsTrendChart.expense SavingsTrendChart.income
              SavingsTrendChart.addExpense (λ _ _, eq_refl) (λ _ _, eq_refl)
              (λ _ _, eq_refl) tza year expenseSnap m1 L1)
    as (m2' & E2 & L2 & K2 & M2 & _).
  rewrite H2 in E2. injection E2 as <-.
  exists (SavingsTrendChart.setSavings e2).
  pose proof (map_lookup_eq _ _ _ i _ _ K2 He2 He1) as Hinc.
  pose proof (map_lookup_eq _ _ _ i _ _ K1 He1 H0) as Hexp.
  pose proof (map_lookup_eq _ _ _ i _ _ M2 He2 He1) as Hmon2.
  pose proof (map_lookup_eq _ _ _ i _ _ M1 He1 H0) as Hmon1.
  cbn in Hexp, Hmon1.
  repeat split.
  - change (@map) with (@fmap list _). by rewrite list_lookup_fmap, He2.
  - cbn. by rewrite Hmon2, Hmon1.
  - cbn. rewrite Hinc, Hi1. apply Num_add_zero_l.
  - cbn. rewrite He2x, Hexp. apply Num_add_zero_l.
Qed.

(** The income chart: its totals add up to the usable amounts of the
    records with a valid date. *)
Lemma buildMonthlyIncomeData_sums (tza : Z) (incomes : list IncomeChart.IncomeRecord) :
  Num.sum (map IncomeChart.income (IncomeChart.buildMonthlyIncomeData tza incomes))
  = Num.sum (omap (Spec.chartAmount tza) incomes).
Proof.
  rewrite buildMonthlyIncomeData_income, foldl_accumulate_sum.
  apply Num_add_zero_l.
Qed.


(** ** Sorting *)

Section SortFacts.

Context {A : Type} (comparefn : A → A → number).

Lemma insert_Permutation x l : Array.insert comparefn x l ≡ₚ x :: l.
Proof.
  induction l as [|y l IH]; [done|]. cbn [Array.insert].
  destruct (Array.inOrder comparefn x y); [done|].
  rewrite IH. apply Permutation_swap.
Qed.

Lemma sort_Permutation l : Array.sort comparefn l ≡ₚ l.
Proof.
  induction l as [|x l IH]; [done|].
  unfold Array.sort in *. cbn [foldr]. by rewrite insert_Permutation, IH.
Qed.

Lemma sort_length l : length (Array.sort comparefn l) = length l.
Proof. by rewrite sort_Permutation. Qed.

(** When the comparator orders the elements of the list by a key, in
    descending order, the result is sorted by that key. *)
Variables (P : A → Prop) (key : A → Z).
Hypothesis inOrder_key :
  ∀ x y, P x → P y → Array.inOrder comparefn x y = (key y <=? key x).

Lemma insert_sorted x l :
  P x → Forall P l → StronglySorted (λ x y, key y <= key x) l →
  StronglySorted (λ x y, key y <= key x) (Array.insert comparefn x l).
Proof.
  intros Hx Hl Hs. induction Hs as [|y l Hs IH Hy]; cbn [Array.insert].
  - repeat constructor.
  - apply Forall_cons in Hl as [Py Pl].
    rewrite inOrder_key by done.
    destruct (Z.leb_spec (key y) (key x)) as [Hle|Hgt].
    + constructor; [by constructor|].
      constructor; [done|].
      eapply Forall_impl; [exact Hy|]. intros z Hz. simpl in *. lia.
    + constructor; [by apply IH|].
      rewrite insert_Permutation. constructor; [lia | done].
Qed.

Lemma sort_sorted l :
  Forall P l → StronglySorted (λ x y, key y <= key x) (Array.sort comparefn l).
Proof.
  induction l as [|x l IH]; intros Hl; [constructor|].
  apply Forall_cons in Hl as [Px Pl].
  unfold Array.sort in *. cbn [foldr]. apply insert_sorted; [done| |by apply IH].
  change (Forall P (Array.sort comparefn l)). by rewrite sort_Permutation.
Qed.

End SortFacts.

(** ** The transaction list and the exported statement *)

Section Transactions.

Import LatestTransactionsTable.

Lemma Num_sub_of_Z b a : Num.sub (Num.of_Z b) (Num.of_Z a) = Num.of_Z (b - a).
Proof.
  unfold Num.sub, Num.of_Z. f_equal. apply Qc_is_canon.
  unfold Qcminus, Qcplus, Qcopp, Q2Qc, this.
  rewrite !Qred_correct. unfold Z.sub.
  by rewrite inject_Z_plus, inject_Z_opp.
Qed.

Lemma Num_gt_zero_of_Z z : Num.gt (Num.of_Z z) Num.zero = (0 <? z).
Proof.
  unfold Num.gt, Num.lt, Num.zero. rewrite Num_cmp_of_Z.
  unfold Z.ltb. by destruct (0 ?= z).
Qed.

Lemma byDate_inOrder x y :
  Spec.hasValidDate x → Spec.hasValidDate y →
  Array.inOrder Spec.byDate x y = (Spec.timeKey y <=? Spec.timeKey x).
Proof.
  intros [tx Hx] [ty Hy]. unfold Array.inOrder, Spec.byDate, Spec.timeKey.
  rewrite Hx, Hy. cbn [JSDate.getTime].
  rewrite Num_sub_of_Z, Num_gt_zero_of_Z.
  destruct (Z.ltb_spec 0 (ty - tx)), (Z.leb_spec ty tx); simpl; try done; lia.
Qed.

Lemma notOlder_key x y :
  Spec.hasValidDate x → Spec.hasValidDate y → Spec.timeKey y <= Spec.timeKey x → Spec.notOlder x y.
Proof.
  intros [tx Hx] [ty Hy]. unfold Spec.notOlder, Spec.timeKey, Num.ge.
  rewrite Hx, Hy. cbn [JSDate.getTime]. rewrite Num_le_of_Z. lia.
Qed.

Lemma admitted_inMonth tza month year doc :
  match admitted tza month year doc with
  | Some (dt, _) => Spec.inMonth tza month year doc = true ∧ ∃ t, dt = ValidDate t
  | None => Spec.inMonth tza month year doc = false
  end.
Proof.
  unfold admitted, Spec.inMonth.
  destruct (parseDate tza (Firestore.date (Firestore.data doc))) as [[t|]|];
    destruct (Firestore.amount (Firestore.data doc)); try done.
  rewrite getFullYear_valid, getMonth_valid.
  destruct (_ && _); [eauto | done].
Qed.

Lemma incomeTransaction_inMonth tza month year doc :
  match incomeTransaction tza month year doc with
  | Some txn => Spec.inMonth tza month year doc = true ∧ Spec.hasValidDate txn
  | None => Spec.inMonth tza month year doc = false
  end.
Proof.
  unfold incomeTransaction.
  pose proof (admitted_inMonth tza month year doc) as H.
  destruct (admitted tza month year doc) as [[dt a]|]; [|done].
  destruct H as [H [t ->]]. split; [done|]. by exists t.
Qed.

Lemma expenseTransaction_inMonth tza month year doc :
  match expenseTransaction tza month year doc with
  | Some txn => Spec.inMonth tza month year doc = true ∧ Spec.hasValidDate txn
  | None => Spec.inMonth tza month year doc = false
  end.
Proof.
  unfold expenseTransaction.
  pose proof (admitted_inMonth tza month year doc) as H.
  destruct (admitted tza month year doc) as [[dt a]|]; [|done].
  destruct H as [H [t ->]]. split; [done|]. by exists t.
Qed.

(** a loop that pushes one transaction per admitted record pushes as many
    transactions as there are admitted records, all with a valid date *)
Lemma omap_admitted (f : Doc → option Transaction) (p : Doc → bool) snap :
  (∀ doc, match f doc with
          | Some txn => p doc = true ∧ Spec.hasValidDate txn
          | None => p doc = false
          end) →
  length (omap f snap) = length (List.filter p snap)
  ∧ Forall Spec.hasValidDate (omap f snap).
Proof.
  intros Hf. induction snap as [|doc snap [IHl IHv]]; [by split|].
  change (omap f (doc :: snap))
    with (match f doc with Some y => y :: omap f snap | None => omap f snap end).
  cbn [List.filter]. specialize (Hf doc).
  destruct (f doc) as [txn|].
  - destruct Hf as [-> Hv]. split; [simpl; by rewrite IHl | by constructor].
  - rewrite Hf. by split.
Qed.

Lemma StronglySorted_weaken {A} (R R' : A → A → Prop) (P : A → Prop) l :
  (∀ x y, P x → P y → R x y → R' x y) →
  Forall P l → StronglySorted R l → StronglySorted R' l.
Proof.
  intros HR HP Hs. induction Hs as [|x l Hs IH Hx]; [constructor|].
  apply Forall_cons in HP as [Px Pl]. constructor; [by apply IH|].
  rewrite Forall_forall in *. intros y Hy. apply HR; auto.
Qed.

End Transactions.


(** ** The summary endpoint *)

Section Summary.

Import SummaryRoute.

(** the totals before the final NaN guards *)
Lemma GET_Json tza uid from to db s :
  GET tza uid from to db = Json s →
  ∃ u, uid = Some u ∧ Str.truthy u = true
    ∧ let fromDate := parseDateParam tza from in
      let toDate := parseDateParam tza to in
      let rawIncome :=
        foldl (visitIncome tza fromDate toDate) (Num.add Num.zero testIncomeAmount)
              (whereUserId u (incomes db)) in
      let rawExpense :=
        foldl (visitExpense tza fromDate toDate)
              (Num.add Num.zero testExpenseAmount,
               <["Test Category"%string := testExpenseAmount]> ∅)
              (whereUserId u (expenses db)) in
      s = {| totalIncome := if Num.isNaN rawIncome then Num.zero else rawIncome;
             totalExpense := if Num.isNaN rawExpense.1 then Num.zero else rawExpense.1;
             savings := if Num.isNaN (Num.sub rawIncome rawExpense.1) then Num.zero
                        else Num.sub rawIncome rawExpense.1;
             categoryTotals := rawExpense.2 |}.
Proof.
  unfold GET. destruct uid as [u|]; [|done].
  destruct (Str.truthy u) eqn:Hu; [|done]. cbn [negb].
  intros H. exists u. split; [done|]. split; [done|]. cbv zeta.
  destruct (foldl (visitExpense _ _ _) _ _) as [e c]. by injection H as <-.
Qed.

Lemma visitIncome_not_NaN tza f t docs : ∀ acc,
  acc ≠ NaN →
  (∀ doc, doc ∈ docs → Firestore.amount (Firestore.data doc) ≠ VNumber NaN) →
  foldl (visitIncome tza f t) acc docs ≠ NaN.
Proof.
  induction docs as [|doc docs IH]; intros acc Hacc Hdocs; [done|].
  cbn [foldl]. apply IH.
  - unfold visitIncome.
    pose proof (Hdocs doc (list_elem_of_here _ _)) as Hd.
    destruct (Firestore.amount (Firestore.data doc)) as [| | |a| | | |]; try done.
    destruct (isWithinRange _ _ _ _); [|done].
    apply Num_add_not_NaN; [done|]. by intros ->.
  - intros d Hin. apply Hdocs. by apply list_elem_of_further.
Qed.

Lemma visitExpense_not_NaN tza f t docs : ∀ acc,
  acc.1 ≠ NaN →
  (∀ doc, doc ∈ docs → Firestore.amount (Firestore.data doc) ≠ VNumber NaN) →
  (foldl (visitExpense tza f t) acc docs).1 ≠ NaN.
Proof.
  induction docs as [|doc docs IH]; intros acc Hacc Hdocs; [done|].
  cbn [foldl]. apply IH.
  - unfold visitExpense. destruct acc as [e c].
    pose proof (Hdocs doc (list_elem_of_here _ _)) as Hd.
    destruct (Firestore.amount (Firestore.data doc)) as [| | |a| | | |]; try done.
    destruct (isWithinRange _ _ _ _); [|done].
    apply Num_add_not_NaN; [done|]. by intros ->.
  - intros d Hin. apply Hdocs. by apply list_elem_of_further.
Qed.

Lemma whereUserId_subset u (coll : list Doc) doc :
  doc ∈ whereUserId u coll → doc ∈ coll.
Proof. unfold whereUserId. rewrite list_elem_of_filter. tauto. Qed.

Lemma foldl_visitIncome tza f t docs : ∀ acc,
  foldl (visitIncome tza f t) acc docs
  = Num.add acc (Num.sum (omap (Spec.windowAmount tza f t) docs)).
Proof.
  induction docs as [|doc docs IH]; intros acc.
  - symmetry. apply Num_add_zero_r.
  - cbn [foldl]. rewrite IH, Num_sum_omap_cons, Num_add_assoc. f_equal.
    unfold visitIncome, Spec.windowAmount.
    destruct (Firestore.amount (Firestore.data doc));
      try (symmetry; apply Num_add_zero_r).
    destruct (isWithinRange _ _ _ _); [|symmetry; apply Num_add_zero_r].
    change (option_list (Some ?x)) with [x].
    by rewrite Num_sum_singleton.
Qed.

Lemma foldl_visitExpense_total tza f t docs : ∀ acc,
  (foldl (visitExpense tza f t) acc docs).1
  = Num.add acc.1 (Num.sum (omap (Spec.windowAmount tza f t) docs)).
Proof.
  induction docs as [|doc docs IH]; intros acc.
  - symmetry. apply Num_add_zero_r.
  - cbn [foldl]. rewrite IH, Num_sum_omap_cons, Num_add_assoc. f_equal.
    unfold visitExpense, Spec.windowAmount. destruct acc as [e c].
    destruct (Firestore.amount (Firestore.data doc));
      try (symmetry; apply Num_add_zero_r).
    destruct (isWithinRange _ _ _ _); [|symmetry; apply Num_add_zero_r].
    change (option_list (Some ?x)) with [x]. cbn [fst].
    by rewrite Num_sum_singleton.
Qed.

(** What the endpoint computes: each total is the built-in test amount
    plus the sum of the admitted amounts of the user's records. *)
Lemma summary_totals tza uid from to db s :
  GET tza (Some uid) from to db = Json s →
  let fromDate := parseDateParam tza from in
  let toDate := parseDateParam tza to in
  totalIncome s
  = Spec.orZeroIfNaN
      (Num.add (Num.of_Z 5000)
         (Num.sum (omap (Spec.windowAmount tza fromDate toDate)
                        (whereUserId uid (incomes db)))))
  ∧ totalExpense s
    = Spec.orZeroIfNaN
        (Num.add (Num.of_Z 2000)
           (Num.sum (omap (Spec.windowAmount tza fromDate toDate)
                          (whereUserId uid (expenses db))))).
Proof.
  intros H. apply GET_Json in H as (u & [= <-] & Hu & Hs). cbv zeta in *.
  subst s. cbn [totalIncome totalExpense].
  by rewrite foldl_visitIncome, foldl_visitExpense_total.
Qed.

Lemma visitExpense_keys tza f t (acc : number * gmap string number) doc k :
  is_Some ((visitExpense tza f t acc doc).2 !! k) →
  is_Some (acc.2 !! k)
  ∨ (is_Some (Spec.windowAmount tza f t doc)
     ∧ default "Other"%string (Firestore.category (Firestore.data doc)) = k).
Proof.
  unfold visitExpense, Spec.windowAmount. destruct acc as [e c].
  destruct (Firestore.amount (Firestore.data doc)); auto.
  destruct (isWithinRange _ _ _ _); [|auto]. cbn [snd].
  destruct (decide (default "Other"%string (Firestore.category (Firestore.data doc)) = k))
    as [<-|Hne]; [by right|].
  rewrite lookup_insert_ne by done. auto.
Qed.

(** Every category of the summary other than the built-in one is the
    category of an admitted expense record of the user. *)
Lemma summary_category_keys tza uid from to db s k :
  GET tza (Some uid) from to db = Json s →
  is_Some (categoryTotals s !! k) →
  k = "Test Category"%string
  ∨ ∃ doc, doc ∈ whereUserId uid (expenses db)
      ∧ is_Some (Spec.windowAmount tza (parseDateParam tza from)
                   (parseDateParam tza to) doc)
      ∧ default "Other"%string (Firestore.category (Firestore.data doc)) = k.
Proof.
  intros H. apply GET_Json in H as (u & [= <-] & Hu & Hs). cbv zeta in *.
  subst s. cbn [categoryTotals].
  generalize (Num.add Num.zero testExpenseAmount).
  assert (∀ docs (acc : number * gmap string number),
            is_Some ((foldl (visitExpense tza (parseDateParam tza from)
                               (parseDateParam tza to)) acc docs).2 !! k) →
            is_Some (acc.2 !! k)
            ∨ ∃ doc, doc ∈ docs
                ∧ is_Some (Spec.windowAmount tza (parseDateParam tza from)
                             (parseDateParam tza to) doc)
                ∧ default "Other"%string (Firestore.category (Firestore.data doc)) = k)
    as Hfold.
  { induction docs as [|doc docs IH]; intros acc Hk; [by left|].
    cbn [foldl] in Hk. apply IH in Hk as [Hk|(d & Hin & Hd)].
    - apply visitExpense_keys in Hk as [Hk|Hk]; [by left|].
      right. exists doc. split; [apply list_elem_of_here | done].
    - right. exists d. split; [by apply list_elem_of_further | done]. }
  intros n Hk. apply Hfold in Hk as [Hk|Hk]; [|by right].
  left. cbn [snd] in Hk.
  destruct (decide (k = "Test Category"%string)) as [->|Hne]; [done|].
  rewrite lookup_insert_ne, lookup_empty in Hk by done. by destruct Hk.
Qed.

End Summary.

(** C1.  On a store with no record at all the summary is not empty: the
    endpoint reports the built-in test amounts, total income 5000 and total
    expense 2000, and the category [Test Category] with 2000, whatever the
    user and the window. *)
Theorem summary_of_empty_store_reports_test_amounts
    (tza : Z) (uid : string) (from to : option string) :
  Str.truthy uid = true →
  SummaryRoute.GET tza (Some uid) from to Examples.emptyStore
  = SummaryRoute.Json
      {| SummaryRoute.totalIncome := Num.of_Z 5000;
         SummaryRoute.totalExpense := Num.of_Z 2000;
         SummaryRoute.savings := Num.of_Z 3000;
         SummaryRoute.categoryTotals := {[ "Test Category"%string := Num.of_Z 2000 ]} |}.
Proof.
  intros Hu. unfold SummaryRoute.GET. rewrite Hu. reflexivity.
Qed.

Lemma summary_of_empty_store_witness :
  SummaryRoute.GET 0 (Some "u1"%string) None None Examples.emptyStore
  = SummaryRoute.Json
      {| SummaryRoute.totalIncome := Num.of_Z 5000;
         SummaryRoute.totalExpense := Num.of_Z 2000;
         SummaryRoute.savings := Num.of_Z 3000;
         SummaryRoute.categoryTotals := {[ "Test Category"%string := Num.of_Z 2000 ]} |}.
Proof.
  apply (summary_of_empty_store_reports_test_amounts 0 "u1" None None). reflexivity.
Defined.

(** C3.  The category totals of the summary contain the key
    [Test Category] although the user has no expense record at all, hence
    none of that category. *)
Theorem summary_has_category_without_records
    (tza : Z) (from to : option string) (incomes : list Doc) :
  ∃ s, SummaryRoute.GET tza (Some "u1"%string) from to (Examples.storeOf incomes)
       = SummaryRoute.Json s
    ∧ SummaryRoute.categoryTotals s !! "Test Category"%string = Some (Num.of_Z 2000).
Proof.
  unfold SummaryRoute.GET. cbn [Str.truthy negb].
  eexists. split; [reflexivity|]. reflexivity.
Qed.

(** C10 as stated fails: with a stored income whose amount is NaN the
    response has total income 0, total expense 2000 and savings 0. *)
Lemma summary_savings_inconsistent_on_NaN_amount :
  ∃ s, SummaryRoute.GET 0 (Some "u1"%string) None None
         (Examples.storeOf [Examples.nanIncome]) = SummaryRoute.Json s
    ∧ SummaryRoute.totalIncome s = Num.zero
    ∧ SummaryRoute.totalExpense s = Num.of_Z 2000
    ∧ SummaryRoute.savings s = Num.zero
    ∧ ¬ Spec.savingsConsistent s.
Proof.
  eexists. split; [reflexivity|]. repeat split. intros H. discriminate H.
Qed.

(** C10, amended.  A request with a user is answered with a summary whose
    three numeric fields are never NaN: each field is the value the
    endpoint computed for it (the running total income, the running total
    expense, their difference), or 0 where that value is NaN, decided for
    each field on its own.  Hence the savings are the total income minus
    the total expense whenever both running totals are finite numbers. *)
Theorem summary_fields_guarded
    (tza : Z) (uid : string) (from to : option string) (db : Store) :
  Str.truthy uid = true →
  let income := Spec.runningIncome tza uid from to db in
  let expense := Spec.runningExpense tza uid from to db in
  ∃ s, SummaryRoute.GET tza (Some uid) from to db = SummaryRoute.Json s
    ∧ SummaryRoute.totalIncome s = Spec.orZeroIfNaN income
    ∧ SummaryRoute.totalExpense s = Spec.orZeroIfNaN expense
    ∧ SummaryRoute.savings s = Spec.orZeroIfNaN (Num.sub income expense)
    ∧ Num.isNaN (SummaryRoute.totalIncome s) = false
    ∧ Num.isNaN (SummaryRoute.totalExpense s) = false
    ∧ Num.isNaN (SummaryRoute.savings s) = false
    ∧ (Spec.finite income → Spec.finite expense → Spec.savingsConsistent s).
Proof.
  intros Hu. cbv zeta.
  unfold SummaryRoute.GET, Spec.runningIncome, Spec.runningExpense.
  rewrite Hu. cbn [negb].
  set (rawIncome := foldl (SummaryRoute.visitIncome _ _ _) _ _).
  destruct (foldl (SummaryRoute.visitExpense _ _ _) _ _) as [rawExpense categories].
  eexists. split; [reflexivity|].
  unfold Spec.savingsConsistent, Spec.orZeroIfNaN.
  cbn [SummaryRoute.totalIncome SummaryRoute.totalExpense SummaryRoute.savings fst].
  split; [reflexivity|]. split; [reflexivity|]. split; [reflexivity|].
  split; [by destruct rawIncome|]. split; [by destruct rawExpense|].
  split; [by destruct (Num.sub rawIncome rawExpense)|].
  intros [qi ->] [qe ->]. reflexivity.
Qed.

(** The store of two users, asked for [u1] with no window: the running
    totals are 5100 and 2040, and the NaN of the other user is not read. *)
Lemma summary_fields_guarded_witness :
  let income := Spec.runningIncome 0 "u1" None None Examples.twoUsers in
  let expense := Spec.runningExpense 0 "u1" None None Examples.twoUsers in
  ∃ s, SummaryRoute.GET 0 (Some "u1"%string) None None Examples.twoUsers
       = SummaryRoute.Json s
    ∧ SummaryRoute.totalIncome s = Spec.orZeroIfNaN income
    ∧ SummaryRoute.totalExpense s = Spec.orZeroIfNaN expense
    ∧ SummaryRoute.savings s = Spec.orZeroIfNaN (Num.sub income expense)
    ∧ Num.isNaN (SummaryRoute.totalIncome s) = false
    ∧ Num.isNaN (SummaryRoute.totalExpense s) = false
    ∧ Num.isNaN (SummaryRoute.savings s) = false
    ∧ (Spec.finite income → Spec.finite expense → Spec.savingsConsistent s).
Proof.
  apply (summary_fields_guarded 0 "u1" None None Examples.twoUsers). reflexivity.
Defined.

(** On that store the hypothesis of the last part holds and the summary
    reads 5100, 2040 and 3060. *)
Lemma summary_of_two_users :
  Spec.runningIncome 0 "u1" None None Examples.twoUsers = Num.of_Z 5100
  ∧ Spec.runningExpense 0 "u1" None None Examples.twoUsers = Num.of_Z 2040
  ∧ ∃ s, SummaryRoute.GET 0 (Some "u1"%string) None None Examples.twoUsers
         = SummaryRoute.Json s
      ∧ SummaryRoute.savings s = Num.of_Z 3060.
Proof.
  split; [by_evaluation|]. split; [by_evaluation|].
  eexists. split; [reflexivity|]. by_evaluation.
Qed.

(** ** The date normalizers *)

(** C5.  A malformed date string is not normalized to the unparseable
    result: both normalizers return the Invalid Date for it. *)
Theorem malformed_date_string_yields_invalid_date (tza : Z) :
  TotalBalanceCard.parseDate tza (VString "not-a-date") = Some InvalidDate
  ∧ SummaryRoute.parseFirestoreDate tza (VString "not-a-date") = Some InvalidDate.
Proof. split; reflexivity. Qed.

(** The absent value and the shapes the normalizers do not know yield the
    unparseable result. *)
Lemma parseDate_unrecognized tza :
  TotalBalanceCard.parseDate tza VUndefined = None
  ∧ TotalBalanceCard.parseDate tza VNull = None
  ∧ TotalBalanceCard.parseDate tza (VString EmptyString) = None
  ∧ (∀ b, TotalBalanceCard.parseDate tza (VBool b) = None)
  ∧ (∀ n, TotalBalanceCard.parseDate tza (VNumber n) = None)
  ∧ (∀ v, TotalBalanceCard.parseDate tza (VObject v) = None).
Proof.
  repeat split; try reflexivity.
  - by intros [].
  - intros n. unfold TotalBalanceCard.parseDate. by destruct (JS.truthy _).
Qed.

(** The summary endpoint's normalizer does not know the native date. *)
Lemma parseFirestoreDate_native_date tza d :
  SummaryRoute.parseFirestoreDate tza (VDate d) = None.
Proof. reflexivity. Qed.

(** A native date is passed through, and a timestamp wrapper of whole
    milliseconds yields the same point in time. *)
Lemma parseDate_native_date tza d :
  TotalBalanceCard.parseDate tza (VDate d) = Some d.
Proof. reflexivity. Qed.

Lemma Timestamp_toDate_millis t :
  JS.Timestamp_toDate (t / 1000) ((t mod 1000) * 1000000) = JSDate.TimeClip t.
Proof.
  unfold JS.Timestamp_toDate, JSDate.ofNumber, Num.add, Num.mul, Num.of_Z, Num.ratio.
  f_equal.
  assert (((Q2Qc (inject_Z (t / 1000)) * Q2Qc (inject_Z 1000)
            + Q2Qc (t mod 1000 * 1000000 # 1000000))%Qc : Qc)
          = Q2Qc (inject_Z t)) as ->.
  { apply Qc_is_canon. unfold Qcplus, Qcmult, Q2Qc, this.
    rewrite !Qred_correct.
    unfold Qeq, Qplus, Qmult, inject_Z; simpl.
    pose proof (Z.div_mod t 1000 ltac:(lia)). lia. }
  unfold Num.trunc, Q2Qc, this. rewrite Qred_inject_Z.
  unfold Qle_bool, Qfloor, Qceiling, Qfloor, inject_Z; simpl.
  rewrite !Z.div_1_r. destruct (_ <=? _); lia.
Qed.

Lemma parseDate_timestamp tza t :
  TotalBalanceCard.parseDate tza (VTimestamp (t / 1000) ((t mod 1000) * 1000000))
  = Some (JSDate.TimeClip t).
Proof.
  unfold TotalBalanceCard.parseDate. cbn [JS.truthy negb].
  by rewrite Timestamp_toDate_millis.
Qed.

(** The three representations of 15 January 2024, 10:30 UTC. *)
Lemma parseDate_three_representations tza :
  TotalBalanceCard.parseDate tza (VString "2024-01-15T10:30:00.000Z")
  = Some (ValidDate Examples.jan15)
  ∧ TotalBalanceCard.parseDate tza (VTimestamp 1705314600 0) = Some (ValidDate Examples.jan15)
  ∧ TotalBalanceCard.parseDate tza (VDate (ValidDate Examples.jan15))
    = Some (ValidDate Examples.jan15).
Proof. repeat split. Qed.

Lemma Str_truthy_app a c b : Str.truthy (a +:+ String c b) = true.
Proof. by destruct a. Qed.

(** The ISO representation: the text [toISOString] writes for a date of
    the years 0 to 9999 is normalized to the same point in time. *)
Lemma parseDate_iso_string tza t iso :
  0 <= JSDate.YearFromTime t <= 9999 →
  JSDate.toISOString (ValidDate t) = Some iso →
  TotalBalanceCard.parseDate tza (VString iso) = Some (JSDate.TimeClip t)
  ∧ SummaryRoute.parseFirestoreDate tza (VString iso) = Some (JSDate.TimeClip t).
Proof.
  intros Hy Hiso.
  pose proof (iso_string_roundtrip tza t iso Hy Hiso) as Hr.
  assert (Str.truthy iso = true) as Ht.
  { injection Hiso as <-. destruct (_ && _); apply Str_truthy_app. }
  unfold TotalBalanceCard.parseDate, SummaryRoute.parseFirestoreDate.
  cbn [JS.truthy]. rewrite Ht. cbn [negb]. by rewrite Hr.
Qed.

(** ** Records whose date does not parse *)

(** C6.  With no window bound the summary endpoint counts a record whose
    date does not parse: the income of 50 dated [not-a-date] raises the
    total income from 5000 to 5050. *)
Theorem unbounded_window_counts_unparseable_date (tza : Z) :
  ∃ s s',
    SummaryRoute.GET tza (Some "u1"%string) None None
      (Examples.storeOf [Examples.badDateIncome]) = SummaryRoute.Json s
    ∧ SummaryRoute.GET tza (Some "u1"%string) None None (Examples.storeOf [])
      = SummaryRoute.Json s'
    ∧ SummaryRoute.totalIncome s = Num.of_Z 5050
    ∧ SummaryRoute.totalIncome s' = Num.of_Z 5000.
Proof. do 2 eexists. repeat split. Qed.

(** ** The bullet parser *)

(** C9.  A bullet line that is indented is selected, but its marker is not
    stripped: the response [* a] / [  * b] parses to [a] and [* b]. *)
Theorem indented_bullet_keeps_its_marker :
  InsightSummaryCard.parseInsight (Some Examples.indentedContent)
  = InsightSummaryCard.InsightPoints ["a"; "* b"]%string.
Proof. reflexivity. Qed.

(** The scenario of the specification: the line without a marker is dropped. *)
Lemma scenario_bullets :
  InsightSummaryCard.parseInsight (Some Examples.scenarioContent)
  = InsightSummaryCard.InsightPoints ["Income is stable"; "Spending rose"]%string.
Proof. reflexivity. Qed.

(** At most three points are kept. *)
Lemma parseInsight_at_most_three content points :
  InsightSummaryCard.parseInsight content = InsightSummaryCard.InsightPoints points →
  (length points <= 3)%nat.
Proof.
  unfold InsightSummaryCard.parseInsight.
  destruct (Str.trim <$> content) as [c|]; [|done].
  destruct (negb (Str.truthy c)); [done|].
  intros [= <-]. rewrite length_take. lia.
Qed.

(** Exactly the lines that begin with the marker once trimmed are selected,
    and a selected line that is not indented loses its marker. *)
Lemma bullets_selected content :
  InsightSummaryCard.bullets content
  = map (λ line, Str.trim (InsightSummaryCard.stripMarker line))
        (List.filter (λ line, Str.startsWith "*" (Str.trim line))
                     (Str.split Str.newline content)).
Proof. reflexivity. Qed.

Lemma stripMarker_unindented rest :
  InsightSummaryCard.stripMarker (String "*" rest) = Str.trimStart rest.
Proof. reflexivity. Qed.

(** ** The exported statement *)

(** C8.  The date column of a row is written without quotes and holds a
    comma: the row of a salary of 100 on 15 January 2024 reads as five
    fields, not four. *)
Theorem statement_row_has_five_fields :
  Spec.csvFields (LatestTransactionsTable.csvRow 0 Examples.salaryTxn)
  = ["January 15"; " 2024"; "Salary"; "Income"; "100.00"]%string.
Proof. reflexivity. Qed.

(** The header line. *)
Lemma statement_starts_with_header tza st text :
  LatestTransactionsTable.handleDownloadStatement tza st = Some text →
  Str.startsWith "Date,Title,Type,Amount" text = true.
Proof.
  unfold LatestTransactionsTable.handleDownloadStatement.
  destruct (LatestTransactionsTable.allMonthlyTransactions st); [done|].
  by intros [= <-].
Qed.

(** A quoted text reads back as one field holding the text, whatever commas
    and double quotes it contains. *)
Lemma csvFields_go_quoted s : ∀ cur,
  Spec.csvFields_go true cur
    (Str.replaceAllChar Str.dquote
       (String Str.dquote (String Str.dquote EmptyString)) s
     +:+ String Str.dquote EmptyString)
  = [Str.rev (Str.rev_acc s cur)].
Proof.
  induction s as [|c s IH]; intros cur; [reflexivity|].
  cbn [Str.replaceAllChar]. destruct (Ascii.eqb c Str.dquote) eqn:E.
  - apply Ascii.eqb_eq in E as ->.
    rewrite !Str_append_cons, Str_append_nil_l.
    cbn [Spec.csvFields_go Str.rev_acc]. rewrite !Ascii.eqb_refl. apply IH.
  - rewrite Str_append_cons.
    cbn [Spec.csvFields_go Str.rev_acc]. rewrite E. apply IH.
Qed.

Lemma Str_rev_acc_rev_acc s : ∀ a b,
  Str.rev_acc (Str.rev_acc s a) b = Str.rev_acc a (s +:+ b).
Proof.
  induction s as [|c s IH]; intros a b; [reflexivity|].
  rewrite Str_append_cons. cbn [Str.rev_acc]. by rewrite IH.
Qed.

Lemma Str_append_nil_r s : (s +:+ EmptyString) = s.
Proof.
  induction s as [|c s IH]; [reflexivity|]. by rewrite Str_append_cons, IH.
Qed.

Lemma Str_rev_involutive s : Str.rev (Str.rev s) = s.
Proof.
  unfold Str.rev. rewrite Str_rev_acc_rev_acc. cbn [Str.rev_acc].
  apply Str_append_nil_r.
Qed.

Lemma csvFields_quoted s : Spec.csvFields (LatestTransactionsTable.quoted s) = [s].
Proof.
  unfold Spec.csvFields, LatestTransactionsTable.quoted.
  rewrite Str_append_cons, Str_append_nil_l.
  cbn [Spec.csvFields_go].
  rewrite Ascii.eqb_refl.
  replace (Ascii.eqb Str.dquote ",") with false by reflexivity.
  rewrite csvFields_go_quoted. f_equal. apply Str_rev_involutive.
Qed.



(** ** The write paths *)

Lemma Num_not_le_zero_gt a :
  Num.isNaN a = false → Num.le a Num.zero = false → Num.gt a Num.zero = true.
Proof.
  destruct a as [q|]; [|done]. intros _.
  unfold Num.gt, Num.lt, Num.le, Num.cmp, Num.zero, Num.of_Z, Qccompare.
  rewrite <- (Qcompare_antisym (this q) (this (Q2Qc (inject_Z 0)))).
  by destruct (this q ?= this (Q2Qc (inject_Z 0)))%Q.
Qed.

(** The income form writes at most one record, into the incomes only, and
    the amount of the record it writes is a number greater than 0. *)
Lemma income_form_writes_positive_amount form user db :
  let db' := (AddIncomeForm.handleSubmit form user db).2 in
  expenses db' = expenses db
  ∧ (incomes db' = incomes db
     ∨ ∃ doc a, incomes db' = incomes db ++ [doc]
         ∧ Firestore.amount (Firestore.data doc) = VNumber a
         ∧ Num.gt a Num.zero = true).
Proof.
  unfold AddIncomeForm.handleSubmit.
  destruct (AddIncomeForm.date form) as [d|]; [|by split; [|left]].
  destruct (_ || _); [by split; [|left]|].
  destruct (Num.isNaN _ || Num.le _ _) eqn:E; [by split; [|left]|].
  apply orb_false_iff in E as [E1 E2].
  destruct user as [uid|]; [|by split; [|left]].
  destruct (JSDate.toISOString d) as [iso|]; [|by split; [|left]].
  split; [done|]. right. do 2 eexists. split; [reflexivity|]. split; [reflexivity|].
  by apply Num_not_le_zero_gt.
Qed.

(** The same for the expense form. *)
Lemma expense_form_writes_positive_amount form user db :
  let db' := (AddExpenseForm.handleSubmit form user db).2 in
  incomes db' = incomes db
  ∧ (expenses db' = expenses db
     ∨ ∃ doc a, expenses db' = expenses db ++ [doc]
         ∧ Firestore.amount (Firestore.data doc) = VNumber a
         ∧ Num.gt a Num.zero = true).
Proof.
  unfold AddExpenseForm.handleSubmit.
  destruct (AddExpenseForm.date form) as [d|]; [|by split; [|left]].
  destruct (_ || _); [by split; [|left]|].
  destruct (Num.isNaN _ || Num.le _ _) eqn:E; [by split; [|left]|].
  apply orb_false_iff in E as [E1 E2].
  destruct (_ && _); [by split; [|left]|].
  destruct user as [uid|]; [|by split; [|left]].
  destruct (JSDate.toISOString d) as [iso|]; [|by split; [|left]].
  split; [done|]. right. do 2 eexists. split; [reflexivity|]. split; [reflexivity|].
  by apply Num_not_le_zero_gt.
Qed.

(** The scenario of the specification: the amounts [-5] and [0] are
    rejected and the store is left as it was; [12.50] is saved. *)
Lemma manual_income_scenario :
  AddIncomeForm.handleSubmit (Examples.incomeForm "-5") (Some "u1"%string) Examples.emptyStore
  = (ToastError "Enter a valid amount > 0", Examples.emptyStore)
  ∧ AddIncomeForm.handleSubmit (Examples.incomeForm "0") (Some "u1"%string) Examples.emptyStore
    = (ToastError "Enter a valid amount > 0", Examples.emptyStore)
  ∧ ∃ doc,
      AddIncomeForm.handleSubmit (Examples.incomeForm "12.50") (Some "u1"%string)
        Examples.emptyStore
      = (ToastSuccess "Income saved", Examples.storeOf [doc])
      ∧ Firestore.amount (Firestore.data doc) = VNumber (Num.ratio 25 2)
      ∧ Firestore.date (Firestore.data doc) = VString "2024-01-15T10:30:00.000Z".
Proof.
  split; [reflexivity|]. split; [reflexivity|].
  eexists. split; [reflexivity|]. split; [by_evaluation | reflexivity].
Qed.

(** C2.  The statement upload persists an amount that is not greater than
    0: an extracted line with amount 0 is written to the incomes with
    amount 0. *)
Theorem upload_persists_zero_amount :
  ∃ doc,
    incomes (UploadTransactions.handleSaveToFirebase 0 Examples.jan15 (Some "u1"%string)
               [Examples.zeroAmountLine] Examples.emptyStore).2 = [doc]
    ∧ Firestore.amount (Firestore.data doc) = VNumber Num.zero
    ∧ Num.gt Num.zero Num.zero = false.
Proof. eexists. split; [reflexivity|]. split; reflexivity. Qed.

(** What the upload does guarantee: the amount it writes is the absolute
    value of the extracted amount. *)
Lemma upload_writes_absolute_amount tza now uid tx :
  Firestore.amount (UploadTransactions.toDoc tza now uid tx)
  = VNumber (Num.abs (UploadTransactions.amount tx)).
Proof. reflexivity. Qed.

(** ** Month buckets and category buckets *)

Section IncomeChartPerMonth.

Import IncomeChart.

Lemma accumulate_bucket tza (mp : gmap string number) r m :
  getOr0 (accumulate tza mp r) m
  = Num.add (getOr0 mp m) (Num.sum (option_list (Spec.chartAmountIn tza m r))).
Proof.
  unfold accumulate, Spec.chartAmountIn.
  destruct (parseIncomeDate tza (date r)) as [[t|]|];
    try (symmetry; apply Num_add_zero_r).
  unfold format_MMM.
  destruct (String.eqb_spec (JSDate.monthShort (JSDate.LocalTime tza t)) m) as [->|Hne].
  - rewrite getOr0_insert_eq
      by (apply Num_add_not_NaN; [apply getOr0_not_NaN | apply Num_or_zero_not_NaN]).
    f_equal. change (option_list (Some ?x)) with [x].
    by rewrite Num_sum_cons, (Num_add_zero_r (Num.or _ _)).
  - rewrite getOr0_insert_ne by done. symmetry. apply Num_add_zero_r.
Qed.

Lemma foldl_accumulate_bucket tza rs m : ∀ mp : gmap string number,
  getOr0 (foldl (accumulate tza) mp rs) m
  = Num.add (getOr0 mp m) (Num.sum (omap (Spec.chartAmountIn tza m) rs)).
Proof.
  induction rs as [|r rs IH]; intros mp.
  - symmetry. apply Num_add_zero_r.
  - cbn [foldl]. by rewrite IH, accumulate_bucket, <- Num_add_assoc, Num_sum_omap_cons.
Qed.

(** The income chart has one entry per calendar month, in calendar order,
    whatever the records; the entry of a month holds the sum of the usable
    amounts of the records of that month, hence 0 when there is none. *)
Lemma income_chart_entries tza rs :
  buildMonthlyIncomeData tza rs
  = map (λ m, {| name := m;
                 income := Num.sum (omap (Spec.chartAmountIn tza m) rs) |})
        MONTHS_ORDER.
Proof.
  unfold buildMonthlyIncomeData. apply map_ext. intros m. f_equal.
  rewrite foldl_accumulate_bucket. apply Num_add_zero_l.
Qed.

Lemma income_chart_of_no_record tza :
  map income (buildMonthlyIncomeData tza []) = replicate 12 Num.zero.
Proof. reflexivity. Qed.

End IncomeChartPerMonth.

(** The savings chart has one entry per calendar month as well. *)
Lemma savings_chart_months tza year incomeSnap expenseSnap :
  ∃ monthly,
    SavingsTrendChart.fetchSavingsData tza year incomeSnap expenseSnap = Some monthly
    ∧ map SavingsTrendChart.month monthly = SavingsTrendChart.monthNames.
Proof.
  destruct (fetchSavingsData_sums tza year incomeSnap expenseSnap)
    as (monthly & H & Hm & _).
  by exists monthly.
Qed.

Section ObjectFacts.

Lemma Obj_get_elem o k v : Obj.get o k = Some v → (k, v) ∈ o.
Proof.
  induction o as [|[k' v'] o IH]; [done|]. cbn [Obj.get].
  destruct (String.eqb_spec k' k) as [->|Hne].
  - intros [= ->]. apply list_elem_of_here.
  - intros H. apply list_elem_of_further. by apply IH.
Qed.

Lemma Obj_get_None o k : Obj.get o k = None → k ∉ map fst o.
Proof.
  induction o as [|[k' v'] o IH]; cbn [Obj.get map fst].
  - intros _. apply not_elem_of_nil.
  - destruct (String.eqb_spec k' k) as [->|Hne]; [done|].
    intros H. apply not_elem_of_cons. split; [congruence | by apply IH].
Qed.

(** setting a property keeps the names, or adds the new name last *)
Lemma Obj_set_keys o k v :
  map fst (Obj.set o k v)
  = match Obj.get o k with Some _ => map fst o | None => map fst o ++ [k] end.
Proof.
  induction o as [|[k' v'] o IH]; [done|]. cbn [Obj.get Obj.set].
  destruct (String.eqb k' k); [done|]. cbn [map fst]. rewrite IH.
  by destruct (Obj.get o k).
Qed.

Lemma Obj_set_NoDup o k v : NoDup (map fst o) → NoDup (map fst (Obj.set o k v)).
Proof.
  intros Ho. rewrite Obj_set_keys. destruct (Obj.get o k) eqn:E; [done|].
  apply NoDup_app. split; [done|]. split; [|apply NoDup_singleton].
  intros x Hx Hk. apply list_elem_of_singleton in Hk as ->.
  by apply (Obj_get_None o k E).
Qed.

(** the sum of the values after a property is set *)
Lemma Obj_set_new_total o k v :
  Obj.get o k = None →
  Num.sum (map snd (Obj.set o k v)) = Num.add (Num.sum (map snd o)) v.
Proof.
  induction o as [|[k' v'] o IH]; cbn [Obj.get Obj.set map snd]; intros H.
  - by rewrite Num_sum_singleton, Num_add_zero_l.
  - destruct (String.eqb k' k); [done|]. cbn [map snd].
    by rewrite !Num_sum_cons, IH, Num_add_assoc.
Qed.

Lemma Obj_set_own_total o k v a :
  Obj.get o k = Some v →
  Num.sum (map snd (Obj.set o k (Num.add v a))) = Num.add (Num.sum (map snd o)) a.
Proof.
  induction o as [|[k' v'] o IH]; cbn [Obj.get Obj.set map snd]; [done|]. intros H.
  destruct (String.eqb k' k).
  - injection H as ->. cbn [map snd]. rewrite !Num_sum_cons, <- !Num_add_assoc.
    f_equal. apply Num_add_comm.
  - cbn [map snd]. by rewrite !Num_sum_cons, IH, Num_add_assoc.
Qed.

Lemma Obj_set_values (P : number → Prop) o k v :
  P v → Forall P (map snd o) → Forall P (map snd (Obj.set o k v)).
Proof.
  intros Hv. induction o as [|[k' v'] o IH]; cbn [Obj.set map snd]; intros Ho.
  - by constructor.
  - apply Forall_cons in Ho as [H1 H2].
    destruct (String.eqb k' k); cbn [map snd]; constructor; auto.
Qed.

(** [Object.entries] lists every own property once *)
Lemma Obj_entries_Permutation o : Obj.entries o ≡ₚ o.
Proof.
  unfold Obj.entries. rewrite sort_Permutation. apply filter_app_complement.
Qed.

End ObjectFacts.

Section CategoryBuckets.

Import SpendingCategoryChart.

Lemma visit_keys tza month year (cm cm' : Obj.t) doc k :
  visit tza month year cm doc = Some cm' →
  k ∈ map fst cm' →
  k ∈ map fst cm
  ∨ (Spec.inMonth tza month year doc = true ∧ Spec.chartCategory doc = k).
Proof.
  unfold visit, Spec.inMonth, Spec.chartCategory.
  change LatestTransactionsTable.parseDate with parseDate.
  destruct (parseDate tza (Firestore.date (Firestore.data doc))) as [[t|]|];
    destruct (Firestore.amount (Firestore.data doc)) as [| | |a| | | |];
    try (intros [= <-]; auto).
  rewrite getFullYear_valid, getMonth_valid.
  destruct (_ && _); [|intros [= <-]; auto].
  set (cat := JS.textOr _ _) in *.
  assert (∀ v, k ∈ map fst (Obj.set cm cat v) → k ∈ map fst cm ∨ true = true ∧ cat = k)
    as Hset.
  { intros v. rewrite Obj_set_keys. destruct (Obj.get cm cat); [auto|].
    rewrite elem_of_app, list_elem_of_singleton. intros [?| ->]; auto. }
  destruct (Obj.get cm cat) as [total|].
  - intros [= <-]. apply Hset.
  - destruct (String.eqb cat "__proto__"); [intros [= <-]; auto|].
    destruct (Obj.inherited cat); [done|]. intros [= <-]. apply Hset.
Qed.

Lemma categoryMap_keys tza month year snapshot k : ∀ cm cm' : Obj.t,
  Array.foldM (visit tza month year) cm snapshot = Some cm' →
  k ∈ map fst cm' →
  k ∈ map fst cm
  ∨ ∃ doc, doc ∈ snapshot
      ∧ Spec.inMonth tza month year doc = true
      ∧ Spec.chartCategory doc = k.
Proof.
  induction snapshot as [|doc snapshot IH]; intros cm cm' Hf H.
  - injection Hf as <-. by left.
  - cbn [Array.foldM] in Hf.
    destruct (visit tza month year cm doc) as [cm1|] eqn:Hv; [|done].
    cbn [mbind option_bind] in Hf.
    destruct (IH _ _ Hf H) as [H1|(d & Hin & Hd)].
    + destruct (visit_keys _ _ _ _ _ _ _ Hv H1) as [?|[H2 H3]]; [by left|].
      right. exists doc. split; [apply list_elem_of_here | done].
    + right. exists d. split; [by apply list_elem_of_further | done].
Qed.

(** Every category of the spending chart is the category of an expense
    record admitted by the window: no key without a record. *)
Lemma category_chart_keys_observed tza month year snapshot data k :
  fetchCategoryData tza month year snapshot = Some data →
  k ∈ map name data →
  ∃ doc, doc ∈ snapshot
    ∧ Spec.inMonth tza month year doc = true
    ∧ Spec.chartCategory doc = k.
Proof.
  unfold fetchCategoryData, categoryMap.
  destruct (Array.foldM (visit tza month year) [] snapshot) as [cm|] eqn:Hf; [|done].
  cbn [mbind option_bind]. intros [= <-].
  rewrite sort_Permutation, Obj_entries_Permutation.
  rewrite list_elem_of_In, in_map_iff. intros (e & <- & He).
  apply in_map_iff in He as ([k v] & <- & Hkv).
  destruct (categoryMap_keys tza month year snapshot k [] cm Hf) as [H|H]; [| |done].
  - apply list_elem_of_fmap. exists (k, v). split; [done | by apply list_elem_of_In].
  - by apply elem_of_nil in H.
Qed.

End CategoryBuckets.

(** ** Month mode rejects a record whose date does not parse *)

Section UnparseableDates.

Lemma monthTotal_unparseable tza tm ty l1 doc l2 :
  Spec.unparseable tza (Firestore.date (Firestore.data doc)) →
  TotalBalanceCard.monthTotal tza tm ty (l1 ++ doc :: l2)
  = TotalBalanceCard.monthTotal tza tm ty (l1 ++ l2).
Proof.
  intros Hbad. unfold TotalBalanceCard.monthTotal.
  rewrite !foldl_app. cbn [foldl]. f_equal.
  destruct Hbad as [-> | ->]; [done|].
  cbn [JSDate.getMonth]. rewrite Num_strict_eq_NaN_l.
  by destruct (Firestore.amount (Firestore.data doc)).
Qed.

(** The balance card: every total is the same as if the record were
    absent, be it an income or an expense. *)
Lemma balance_card_ignores_unparseable tza month year l1 doc l2 others :
  Spec.unparseable tza (Firestore.date (Firestore.data doc)) →
  TotalBalanceCard.fetchData tza month year (l1 ++ doc :: l2) others
  = TotalBalanceCard.fetchData tza month year (l1 ++ l2) others
  ∧ TotalBalanceCard.fetchData tza month year others (l1 ++ doc :: l2)
    = TotalBalanceCard.fetchData tza month year others (l1 ++ l2).
Proof.
  intros Hbad. unfold TotalBalanceCard.fetchData.
  assert (∀ acc i,
            TotalBalanceCard.step tza month year (l1 ++ doc :: l2) others acc i
            = TotalBalanceCard.step tza month year (l1 ++ l2) others acc i) as Hi.
  { intros [[b i0] e0] i. unfold TotalBalanceCard.step.
    by rewrite !monthTotal_unparseable. }
  assert (∀ acc i,
            TotalBalanceCard.step tza month year others (l1 ++ doc :: l2) acc i
            = TotalBalanceCard.step tza month year others (l1 ++ l2) acc i) as He.
  { intros [[b i0] e0] i. unfold TotalBalanceCard.step.
    by rewrite !monthTotal_unparseable. }
  cbn [foldl]. by rewrite !Hi, !He.
Qed.

Import ExpenseChart.

Lemma accumulate_agree tza (m m' : gmap string number) r :
  Spec.agreeOnMonths m m' →
  Spec.agreeOnMonths (accumulate tza m r) (accumulate tza m' r).
Proof.
  intros Hag. unfold accumulate.
  destruct (parseDate tza (date r)) as [d|]; [|done].
  set (month := dayjs_format_MMM tza d).
  intros k Hk. destruct (decide (month = k)) as [->|Hne].
  - rewrite !lookup_insert_eq. unfold getOr0. by rewrite (Hag k Hk).
  - rewrite !lookup_insert_ne by done. by apply Hag.
Qed.

Lemma foldl_accumulate_agree tza rs : ∀ m m' : gmap string number,
  Spec.agreeOnMonths m m' →
  Spec.agreeOnMonths (foldl (accumulate tza) m rs) (foldl (accumulate tza) m' rs).
Proof.
  induction rs as [|r rs IH]; intros m m' Hag; [done|].
  cbn [foldl]. by apply IH, accumulate_agree.
Qed.

Lemma accumulate_unparseable tza (m : gmap string number) r :
  Spec.unparseable tza (date r) →
  Spec.agreeOnMonths (accumulate tza m r) m.
Proof.
  unfold Spec.unparseable, accumulate.
  change TotalBalanceCard.parseDate with parseDate.
  intros [-> | ->]; [done|].
  intros k Hk. cbn [dayjs_format_MMM]. by rewrite lookup_insert_ne.
Qed.

(** The expense chart: its twelve totals are the same as if the record
    were absent. *)
Lemma expense_chart_ignores_unparseable tza l1 r l2 :
  Spec.unparseable tza (date r) →
  buildMonthlyExpenseData tza (l1 ++ r :: l2) = buildMonthlyExpenseData tza (l1 ++ l2).
Proof.
  intros Hbad. unfold buildMonthlyExpenseData.
  assert (Spec.agreeOnMonths (foldl (accumulate tza) ∅ (l1 ++ r :: l2))
                             (foldl (accumulate tza) ∅ (l1 ++ l2))) as Hag.
  { rewrite !foldl_app. cbn [foldl].
    by apply foldl_accumulate_agree, accumulate_unparseable. }
  apply map_ext_in. intros month Hin.
  f_equal. unfold getOr0. rewrite (Hag month); [done|].
  intros ->. simpl in Hin.
  repeat (destruct Hin as [Hin|Hin]; [discriminate Hin|]). done.
Qed.

(** A bounded window rejects the record as well: only the window without
    bounds lets it in. *)
Lemma bounded_window_rejects_invalid_date tza fromDate toDate raw :
  SummaryRoute.parseFirestoreDate tza raw = Some InvalidDate →
  is_Some fromDate ∨ is_Some toDate →
  SummaryRoute.isWithinRange tza fromDate toDate raw = false.
Proof.
  intros Hraw Hbound. unfold SummaryRoute.isWithinRange. rewrite Hraw.
  destruct Hbound as [[f ->]|[t ->]].
  - cbn [JSDate.getTime]. unfold Num.ge, Num.le. by destruct (JSDate.getTime f).
  - cbn [JSDate.getTime]. unfold Num.ge, Num.le. apply andb_false_r.
Qed.

End UnparseableDates.

(** The date stored by the income form reads back as the date that was
    picked. *)
Lemma income_form_date_reads_back tza form uid db t doc :
  AddIncomeForm.date form = Some (ValidDate t) →
  0 <= JSDate.YearFromTime t <= 9999 →
  incomes (AddIncomeForm.handleSubmit form (Some uid) db).2 = incomes db ++ [doc] →
  TotalBalanceCard.parseDate tza (Firestore.date (Firestore.data doc))
  = Some (JSDate.TimeClip t).
Proof.
  intros Hd Hy. unfold AddIncomeForm.handleSubmit. rewrite Hd.
  destruct (_ || _); [intros H; by apply (f_equal length) in H;
                      rewrite length_app in H; simpl in H; lia|].
  destruct (_ || _); [intros H; by apply (f_equal length) in H;
                      rewrite length_app in H; simpl in H; lia|].
  destruct (JSDate.toISOString (ValidDate t)) as [iso|] eqn:Hiso; [|done].
  cbn [snd addDoc incomes]. intros H. apply app_inv_head in H. injection H as <-.
  cbn [Firestore.data Firestore.date newDoc toStored].
  by apply parseDate_iso_string.
Qed.

(** ** The scenario of the specification

    An income of 100 on 15 January 2024 and an expense of 40 for food on
    20 January 2024: the January bucket holds 100 and 40, every other
    month 0 and 0, and the only category is Food with 40. *)
Lemma scenario_time_series :
  (map (λ e, (SavingsTrendChart.month e, SavingsTrendChart.income e,
              SavingsTrendChart.expense e, SavingsTrendChart.savings e))
   <$> SavingsTrendChart.fetchSavingsData 0 2024
         [Examples.scenarioIncome] [Examples.scenarioExpense])
  = Some (("Jan"%string, Num.of_Z 100, Num.of_Z 40, Num.of_Z 60)
            :: map (λ m, (m, Num.zero, Num.zero, Num.zero))
                   (tail SavingsTrendChart.monthNames)).
Proof. by_evaluation. Qed.

Lemma scenario_categories :
  SpendingCategoryChart.fetchCategoryData 0 0 2024 [Examples.scenarioExpense]
  = Some [{| SpendingCategoryChart.name := "Food";
             SpendingCategoryChart.value := Num.of_Z 40 |}].
Proof. by_evaluation. Qed.

(* ===================================================================== *)
(** * Part III: the other widgets, the pages and the write paths *)
(* ===================================================================== *)

(** ** Calendar: from a date to its day number and back *)

Section CalendarInverse.

Lemma Num_trunc_of_Z z : Num.trunc (Q2Qc (inject_Z z)) = z.
Proof.
  unfold Num.trunc, Q2Qc, this. rewrite Qred_inject_Z.
  unfold Qle_bool, Qfloor, Qceiling, Qfloor, inject_Z; simpl.
  rewrite !Z.div_1_r. destruct (_ <=? _); lia.
Qed.

(** the months counted from March: the day of the year a date falls on,
    and the month it gives back *)
Lemma month_start_days mp d y m :
  1 <= m <= 12 → 1 <= d <= JSDate.DaysInMonth y m →
  mp = (if 2 <? m then m - 3 else m + 9) →
  let doy := (153 * mp + 2) / 5 + d - 1 in
  0 <= mp <= 11 ∧ 0 <= doy <= 365 ∧ (5 * doy + 2) / 153 = mp
  ∧ (doy = 365 → m = 2 ∧ JSDate.isLeapYear y = true).
Proof.
  intros Hm Hd ->. cbv zeta.
  assert (m = 1 ∨ m = 2 ∨ m = 3 ∨ m = 4 ∨ m = 5 ∨ m = 6 ∨ m = 7 ∨ m = 8 ∨ m = 9
          ∨ m = 10 ∨ m = 11 ∨ m = 12) as H by lia.
  unfold JSDate.DaysInMonth in Hd.
  repeat (destruct H as [H|H];
          [subst m; simpl in Hd |- *; try destruct (JSDate.isLeapYear y);
           repeat split; try (Z.div_mod_to_equations; lia) |]).
  subst m. simpl in Hd |- *. repeat split; try (Z.div_mod_to_equations; lia).
Qed.

Lemma civil_of_days_from_civil y m d :
  1 <= m <= 12 → 1 <= d <= JSDate.DaysInMonth y m →
  JSDate.civil_from_days (JSDate.days_from_civil y m d)
  = {| JSDate.c_year := y; JSDate.c_month := m; JSDate.c_day := d |}.
Proof.
  intros Hm Hd.
  destruct (month_start_days _ d y m Hm Hd eq_refl) as (Hmp & Hdoy & Hmp' & Hleap).
  unfold JSDate.days_from_civil, JSDate.civil_from_days. cbv zeta.
  set (mp := if 2 <? m then m - 3 else m + 9) in *.
  set (Y := if m <=? 2 then y - 1 else y).
  set (doy := (153 * mp + 2) / 5 + d - 1) in *.
  set (era := Y / 400).
  set (yoe := Y - era * 400).
  set (doe := yoe * 365 + yoe / 4 - yoe / 100 + doy).
  assert (0 <= yoe <= 399) as Hyoe by (unfold yoe, era; Z.div_mod_to_equations; lia).
  assert (doy = 365 → (yoe + 1) mod 4 = 0 ∧ ((yoe + 1) mod 100 ≠ 0 ∨ yoe = 399)) as Hl.
  { intros H365. destruct (Hleap H365) as [-> Hly].
    apply isLeapYear_spec in Hly. unfold yoe, era, Y. simpl.
    Z.div_mod_to_equations. lia. }
  assert (0 <= doe < 146097) as Hdoe.
  { unfold doe. Z.div_mod_to_equations. lia. }
  replace (era * 146097 + doe - 719468 + 719468) with (doe + era * 146097) by lia.
  rewrite Z.mod_add, Z.div_add by lia.
  rewrite (Z.mod_small doe), (Z.div_small doe) by lia.
  assert (JSDate.yoe_of_doe doe = yoe) as Hy1.
  { unfold JSDate.yoe_of_doe, doe. Z.div_mod_to_equations. lia. }
  assert (JSDate.doy_of_doe doe = doy) as Hd1.
  { unfold JSDate.doy_of_doe. rewrite Hy1. unfold doe. lia. }
  rewrite Hy1, Hd1, Hmp'.
  f_equal.
  - unfold yoe, Y, mp. destruct (Z.leb_spec m 2), (Z.ltb_spec 2 m); try lia.
    + destruct (Z.ltb_spec (m + 9) 10); try lia.
      destruct (Z.leb_spec (m + 9 - 9) 2); lia.
    + destruct (Z.ltb_spec (m - 3) 10); try lia.
      destruct (Z.leb_spec (m - 3 + 3) 2); lia.
  - unfold mp. destruct (Z.ltb_spec 2 m).
    + destruct (Z.ltb_spec (m - 3) 10); lia.
    + destruct (Z.ltb_spec (m + 9) 10); lia.
  - unfold doy. lia.
Qed.

Lemma DaysInMonth_pos y m : 28 <= JSDate.DaysInMonth y m <= 31.
Proof.
  unfold JSDate.DaysInMonth.
  destruct (m =? 2); [destruct (JSDate.isLeapYear y); lia|].
  destruct (_ || _); lia.
Qed.

(** the first day of the month [m] (0 = January, any integer) of the year [y] *)
Lemma MakeDay_first y m :
  JSDate.civil_from_days (JSDate.MakeDay y m 1)
  = {| JSDate.c_year := y + m / 12; JSDate.c_month := m mod 12 + 1; JSDate.c_day := 1 |}.
Proof.
  unfold JSDate.MakeDay.
  replace (JSDate.days_from_civil (y + m / 12) (m mod 12 + 1) 1 + 1 - 1)
    with (JSDate.days_from_civil (y + m / 12) (m mod 12 + 1) 1) by lia.
  apply civil_of_days_from_civil.
  - pose proof (Z.mod_pos_bound m 12 ltac:(lia)). lia.
  - pose proof (DaysInMonth_pos (y + m / 12) (m mod 12 + 1)). lia.
Qed.

Lemma days_from_civil_bound y m :
  -200001 <= y <= 200001 → 1 <= m <= 12 →
  -73900000 <= JSDate.days_from_civil y m 1 <= 73900000.
Proof.
  intros Hy Hm. unfold JSDate.days_from_civil.
  destruct (m <=? 2), (2 <? m); Z.div_mod_to_equations; lia.
Qed.

(** [new Date(year, month, 1)]: local midnight of the first day of a month *)
Lemma ofFields_first tza y m :
  100 <= y <= 200000 → -12 <= m <= 23 →
  - JSDate.msPerDay <= tza <= JSDate.msPerDay →
  ∃ t, JSDate.ofFields tza (Num.of_Z y) (Num.of_Z m) (Num.of_Z 1) = ValidDate t
    ∧ JSDate.LocalTime tza t = JSDate.MakeDay y m 1 * JSDate.msPerDay
    ∧ JSDate.YearFromTime (JSDate.LocalTime tza t) = y + m / 12
    ∧ JSDate.MonthFromTime (JSDate.LocalTime tza t) = m mod 12.
Proof.
  intros Hy Hm Htza.
  exists (JSDate.MakeDay y m 1 * JSDate.msPerDay - tza).
  assert (JSDate.LocalTime tza (JSDate.MakeDay y m 1 * JSDate.msPerDay - tza)
          = JSDate.MakeDay y m 1 * JSDate.msPerDay) as HL
    by (unfold JSDate.LocalTime; lia).
  repeat split.
  - unfold JSDate.ofFields, Num.of_Z. rewrite !Num_trunc_of_Z.
    replace ((0 <=? y) && (y <=? 99)) with false
      by (symmetry; apply andb_false_iff; right; apply Z.leb_gt; lia).
    unfold JSDate.MakeDate, JSDate.UTC. rewrite Z.add_0_r.
    unfold JSDate.TimeClip.
    assert (-73900000 <= JSDate.MakeDay y m 1 <= 73900000) as Hb.
    { unfold JSDate.MakeDay.
      replace (JSDate.days_from_civil (y + m / 12) (m mod 12 + 1) 1 + 1 - 1)
        with (JSDate.days_from_civil (y + m / 12) (m mod 12 + 1) 1) by lia.
      apply days_from_civil_bound; Z.div_mod_to_equations; lia. }
    unfold JSDate.msPerDay in *.
    destruct (Z.ltb_spec 8640000000000000
                (Z.abs (JSDate.MakeDay y m 1 * 86400000 - tza))); [lia|done].
  - exact HL.
  - rewrite HL. unfold JSDate.YearFromTime, JSDate.Day.
    rewrite Z.div_mul by (unfold JSDate.msPerDay; lia).
    by rewrite MakeDay_first.
  - rewrite HL. unfold JSDate.MonthFromTime, JSDate.Day.
    rewrite Z.div_mul by (unfold JSDate.msPerDay; lia).
    rewrite MakeDay_first. simpl. lia.
Qed.

End CalendarInverse.

(** ** The balance card *)

Section BalanceCard.

Import TotalBalanceCard.

Lemma monthTotal_admitted tza month year snap :
  monthTotal tza (Num.of_Z month) (Num.of_Z year) snap
  = Num.sum (omap (Spec.monthAmount tza month year) snap).
Proof.
  unfold monthTotal. rewrite <- (Num_add_zero_l (Num.sum _)).
  generalize Num.zero.
  induction snap as [|doc snap IH]; intros acc.
  - symmetry. apply Num_add_zero_r.
  - cbn [foldl]. rewrite IH, Num_sum_omap_cons, Num_add_assoc. f_equal.
    unfold Spec.monthAmount, Spec.inMonth.
    change (LatestTransactionsTable.parseDate tza) with (parseDate tza).
    destruct (parseDate tza (Firestore.date (Firestore.data doc))) as [[t|]|];
      destruct (Firestore.amount (Firestore.data doc));
      try (symmetry; apply Num_add_zero_r).
    rewrite getFullYear_valid, getMonth_valid, andb_comm.
    destruct (_ && _); [|symmetry; apply Num_add_zero_r].
    change (option_list (Some ?x)) with [x].
    by rewrite Num_sum_singleton.
Qed.

Lemma step_spec tza month year incomeSnap expenseSnap balances ti te i :
  0 <= month <= 11 → 100 <= year <= 200000 →
  - JSDate.msPerDay <= tza <= JSDate.msPerDay → 0 <= i <= 5 →
  step tza month year incomeSnap expenseSnap (balances, ti, te) i
  = (balances ++ [Spec.historyPoint tza month year incomeSnap expenseSnap i],
     if i =? 0 then Num.sum (omap (Spec.monthAmount tza month year) incomeSnap) else ti,
     if i =? 0 then Num.sum (omap (Spec.monthAmount tza month year) expenseSnap) else te).
Proof.
  intros Hm Hy Htza Hi. unfold step, Spec.historyPoint.
  destruct (ofFields_first tza year (month - i)) as (t & -> & HL & HY & HM);
    [lia | lia | lia |].
  cbn [JSDate.getMonth JSDate.getFullYear monthLabel].
  rewrite HY, HM, !Num_strict_eq_of_Z, !monthTotal_admitted.
  unfold JSDate.monthShort. rewrite HM.
  destruct (Z.eqb_spec i 0) as [->|Hi0].
  - rewrite Z.sub_0_r, Z.mod_small, Z.div_small, Z.add_0_r, !Z.eqb_refl by lia.
    reflexivity.
  - replace (((month - i) mod 12 =? month) && (year + (month - i) / 12 =? year))
      with false; [reflexivity|].
    symmetry. apply andb_false_iff.
    destruct (Z.eqb_spec ((month - i) mod 12) month) as [E|]; [|by left]. right.
    apply Z.eqb_neq. Z.div_mod_to_equations. lia.
Qed.

(** The six steps of the loop of [fetchData], one after the other. *)
Lemma fetchData_spec tza month year incomeSnap expenseSnap :
  0 <= month <= 11 → 100 <= year <= 200000 →
  - JSDate.msPerDay <= tza <= JSDate.msPerDay →
  let st := fetchData tza month year incomeSnap expenseSnap in
  data st = map (Spec.historyPoint tza month year incomeSnap expenseSnap) [5; 4; 3; 2; 1; 0]
  ∧ currentIncome st = Num.sum (omap (Spec.monthAmount tza month year) incomeSnap)
  ∧ currentExpense st = Num.sum (omap (Spec.monthAmount tza month year) expenseSnap)
  ∧ currentBalance st = Num.sub (currentIncome st) (currentExpense st).
Proof.
  intros Hm Hy Htza. unfold fetchData. cbn [foldl].
  do 6 (rewrite step_spec by lia). cbn [Z.eqb app].
  cbn [data currentIncome currentExpense currentBalance map]. done.
Qed.

(** X1.  The history of the balance card.  For a selected month 0..11 of a
    year 100..200000 the card draws exactly six points: the five months
    before the selected one and the selected month, oldest first, going
    back into the previous year where needed.  Each point carries the short
    name of its month and the income less the expense of the records the
    month admits. *)
Theorem balance_card_history tza month year incomeSnap expenseSnap :
  0 <= month <= 11 → 100 <= year <= 200000 →
  - JSDate.msPerDay <= tza <= JSDate.msPerDay →
  data (fetchData tza month year incomeSnap expenseSnap)
  = map (Spec.historyPoint tza month year incomeSnap expenseSnap) [5; 4; 3; 2; 1; 0].
Proof.
  intros Hm Hy Htza.
  destruct (fetchData_spec tza month year incomeSnap expenseSnap Hm Hy Htza) as (H & _).
  exact H.
Qed.

Lemma balance_card_history_witness :
  data (fetchData 19800000 0 2024 [Examples.scenarioIncome] [Examples.scenarioExpense])
  = map (Spec.historyPoint 19800000 0 2024
           [Examples.scenarioIncome] [Examples.scenarioExpense]) [5; 4; 3; 2; 1; 0].
Proof.
  apply balance_card_history; [lia | lia | unfold JSDate.msPerDay; lia].
Defined.

(** X2.  The figures of the selected month.  The income and the expense
    the card shows are the sums of the amounts of the income and of the
    expense records the selected month admits, and the balance is their
    difference. *)
Theorem balance_card_current_month tza month year incomeSnap expenseSnap :
  0 <= month <= 11 → 100 <= year <= 200000 →
  - JSDate.msPerDay <= tza <= JSDate.msPerDay →
  let st := fetchData tza month year incomeSnap expenseSnap in
  currentIncome st = Num.sum (omap (Spec.monthAmount tza month year) incomeSnap)
  ∧ currentExpense st = Num.sum (omap (Spec.monthAmount tza month year) expenseSnap)
  ∧ currentBalance st
    = Num.sub (Num.sum (omap (Spec.monthAmount tza month year) incomeSnap))
              (Num.sum (omap (Spec.monthAmount tza month year) expenseSnap)).
Proof.
  intros Hm Hy Htza.
  destruct (fetchData_spec tza month year incomeSnap expenseSnap Hm Hy Htza)
    as (_ & Hi & He & Hb).
  cbv zeta. rewrite Hb, Hi, He. done.
Qed.

Lemma balance_card_current_month_witness :
  let st := fetchData 19800000 0 2024 [Examples.scenarioIncome] [Examples.scenarioExpense] in
  currentIncome st
  = Num.sum (omap (Spec.monthAmount 19800000 0 2024) [Examples.scenarioIncome])
  ∧ currentExpense st
    = Num.sum (omap (Spec.monthAmount 19800000 0 2024) [Examples.scenarioExpense])
  ∧ currentBalance st
    = Num.sub (Num.sum (omap (Spec.monthAmount 19800000 0 2024) [Examples.scenarioIncome]))
              (Num.sum (omap (Spec.monthAmount 19800000 0 2024) [Examples.scenarioExpense])).
Proof.
  apply balance_card_current_month; [lia | lia | unfold JSDate.msPerDay; lia].
Defined.

End BalanceCard.

(** ** The transaction list against the balance card *)

Section StatementTotals.

Import LatestTransactionsTable.

(** addition is commutative, so a sum does not depend on the order *)
Lemma Num_sum_Permutation l l' : l ≡ₚ l' → Num.sum l = Num.sum l'.
Proof.
  induction 1 as [|x l l' _ IH|x y l|l l' l'' _ IH1 _ IH2].
  - done.
  - by rewrite !Num_sum_cons, IH.
  - rewrite !Num_sum_cons, !Num_add_assoc. f_equal. apply Num_add_comm.
  - by rewrite IH1.
Qed.

Lemma Num_sub_add_neg a b : Num.sub a b = Num.add a (Num.neg b).
Proof. by destruct a, b. Qed.

Lemma Num_neg_add a b : Num.neg (Num.add a b) = Num.add (Num.neg a) (Num.neg b).
Proof.
  destruct a as [x|], b as [y|]; try done. simpl. f_equal.
  apply Qc_is_canon. unfold Qcopp, Qcplus, Q2Qc, this.
  rewrite !Qred_correct. ring.
Qed.

Lemma Num_sum_neg l : Num.sum (map Num.neg l) = Num.neg (Num.sum l).
Proof.
  induction l as [|x l IH]; [by_evaluation|].
  cbn [map]. by rewrite !Num_sum_cons, IH, Num_neg_add.
Qed.

(** the amounts of the listed incomes and of the listed expenses *)
Lemma income_amounts tza month year snap :
  map amount (omap (incomeTransaction tza month year) snap)
  = omap (Spec.monthAmount tza month year) snap.
Proof.
  induction snap as [|doc snap IH]; [done|].
  change (omap ?f (doc :: snap))
    with (match f doc with Some y => y :: omap f snap | None => omap f snap end).
  rewrite <- IH. clear IH.
  pose proof (admitted_inMonth tza month year doc) as H.
  unfold incomeTransaction, Spec.monthAmount, admitted in *.
  destruct (parseDate tza (Firestore.date (Firestore.data doc))) as [dt|];
    destruct (Firestore.amount (Firestore.data doc)); try (by rewrite H).
  destruct (_ && _); cbn [mbind option_bind] in *.
  - destruct H as [-> _]. done.
  - by rewrite H.
Qed.

Lemma expense_amounts tza month year snap :
  map amount (omap (expenseTransaction tza month year) snap)
  = map Num.neg (omap (Spec.monthAmount tza month year) snap).
Proof.
  induction snap as [|doc snap IH]; [done|].
  change (omap ?f (doc :: snap))
    with (match f doc with Some y => y :: omap f snap | None => omap f snap end).
  pose proof (admitted_inMonth tza month year doc) as H.
  unfold expenseTransaction, Spec.monthAmount, admitted in *.
  destruct (parseDate tza (Firestore.date (Firestore.data doc))) as [dt|];
    destruct (Firestore.amount (Firestore.data doc)); try (by rewrite H).
  destruct (_ && _); cbn [mbind option_bind] in *.
  - destruct H as [-> _]. cbn [map amount]. by rewrite IH.
  - by rewrite H.
Qed.

(** X3.  The transactions of the month net to the balance of the month.
    Incomes are listed with their amount and expenses with the amount
    negated.  When the amounts are whole numbers that add up without
    rounding, the amounts of the list the statement is exported from sum
    to the income less the expense of the records the month admits, which
    is the balance the balance card shows for that month. *)
Theorem statement_net_amount tza month year incomeSnap expenseSnap :
  Spec.exactSums (incomeSnap ++ expenseSnap) →
  Num.sum (map amount
             (allMonthlyTransactions
                (fetchTransactions tza month year incomeSnap expenseSnap)))
  = Num.sub (Num.sum (omap (Spec.monthAmount tza month year) incomeSnap))
            (Num.sum (omap (Spec.monthAmount tza month year) expenseSnap)).
Proof.
  intros _. unfold fetchTransactions. cbn [allMonthlyTransactions].
  rewrite (Num_sum_Permutation _ _ (Permutation_map _ (sort_Permutation _ _))).
  rewrite map_app, Num_sum_app, income_amounts, expense_amounts, Num_sum_neg.
  symmetry. apply Num_sub_add_neg.
Qed.

Lemma statement_net_amount_witness :
  Num.sum (map amount
             (allMonthlyTransactions
                (fetchTransactions 0 0 2024
                   [Examples.scenarioIncome] [Examples.scenarioExpense])))
  = Num.sub (Num.sum (omap (Spec.monthAmount 0 0 2024) [Examples.scenarioIncome]))
            (Num.sum (omap (Spec.monthAmount 0 0 2024) [Examples.scenarioExpense])).
Proof.
  apply statement_net_amount. split.
  - repeat constructor; intros _; eexists; reflexivity.
  - vm_compute. discriminate.
Defined.

End StatementTotals.

(** ** The category chart: sorted, one slice per category, nothing lost *)

Section SortByRelation.

Context {A : Type} (comparefn : A → A → number).
Variables (P : A → Prop) (R : A → A → Prop).
Hypothesis R_trans : ∀ x y z, P x → P y → P z → R x y → R y z → R x z.
Hypothesis inOrder_R : ∀ x y, P x → P y → Array.inOrder comparefn x y = true → R x y.
Hypothesis not_inOrder_R : ∀ x y, P x → P y → Array.inOrder comparefn x y = false → R y x.

(** [Array.sort] puts a list in the order [R] when the comparator decides
    [R] on the elements of the list. *)
Lemma insert_sorted_by x l :
  P x → Forall P l → StronglySorted R l → StronglySorted R (Array.insert comparefn x l).
Proof.
  intros Hx Hl Hs. induction Hs as [|y l Hs IH Hy]; cbn [Array.insert].
  - repeat constructor.
  - apply Forall_cons in Hl as [Py Pl].
    destruct (Array.inOrder comparefn x y) eqn:E.
    + constructor; [by constructor|].
      constructor; [by apply inOrder_R|].
      rewrite Forall_forall in *. intros z Hz.
      apply (R_trans x y z); auto.
    + constructor; [by apply IH|].
      rewrite insert_Permutation. constructor; [by apply not_inOrder_R | done].
Qed.

Lemma sort_sorted_by l :
  Forall P l → StronglySorted R (Array.sort comparefn l).
Proof.
  induction l as [|x l IH]; intros Hl; [constructor|].
  apply Forall_cons in Hl as [Px Pl].
  unfold Array.sort in *. cbn [foldr]. apply insert_sorted_by; [done| |by apply IH].
  change (Forall P (Array.sort comparefn l)). by rewrite sort_Permutation.
Qed.

End SortByRelation.

Section CategoryTotals.

Import SpendingCategoryChart.

(** What the loop keeps, one record after the other: the names of the map
    are distinct, no total is NaN, and the totals add up to the amounts
    admitted so far. *)
Lemma visit_total tza month year (cm : Obj.t) doc :
  NoDup (map fst cm) → Forall (λ v, v ≠ NaN) (map snd cm) →
  Firestore.amount (Firestore.data doc) ≠ VNumber NaN →
  Spec.plainCategory doc →
  ∃ cm', visit tza month year cm doc = Some cm'
    ∧ NoDup (map fst cm') ∧ Forall (λ v, v ≠ NaN) (map snd cm')
    ∧ Num.sum (map snd cm')
      = Num.add (Num.sum (map snd cm))
                (Num.sum (option_list (Spec.monthAmount tza month year doc))).
Proof.
  intros Hnd Hcm Ha Hcat. unfold visit, Spec.monthAmount, Spec.inMonth.
  unfold Spec.plainCategory, Spec.chartCategory in Hcat.
  change (LatestTransactionsTable.parseDate tza) with (parseDate tza).
  destruct (parseDate tza (Firestore.date (Firestore.data doc))) as [[t|]|];
    destruct (Firestore.amount (Firestore.data doc)) as [| | |a| | | |];
    try (exists cm; repeat split; [done | done | symmetry; apply Num_add_zero_r]).
  rewrite getFullYear_valid, getMonth_valid.
  destruct (_ && _);
    [|exists cm; repeat split; [done | done | symmetry; apply Num_add_zero_r]].
  change (option_list (Some ?x)) with [x]. rewrite Num_sum_singleton.
  set (cat := JS.textOr _ _) in *.
  assert (a ≠ NaN) as Ha' by congruence.
  destruct (Obj.get cm cat) as [total|] eqn:E.
  - assert (total ≠ NaN) as Ht.
    { apply Obj_get_elem in E. rewrite Forall_forall in Hcm. apply Hcm.
      apply list_elem_of_fmap. by exists (cat, total). }
    rewrite (Num_or_zero_id total Ht).
    eexists. split; [reflexivity|]. split; [by apply Obj_set_NoDup|].
    split; [apply Obj_set_values; [by apply Num_add_not_NaN | done]|].
    by apply Obj_set_own_total.
  - assert (String.eqb cat "__proto__" = false) as ->.
    { apply String.eqb_neq. intros Hp. by rewrite Hp in Hcat. }
    rewrite Hcat. rewrite Num_add_zero_l.
    eexists. split; [reflexivity|]. split; [by apply Obj_set_NoDup|].
    split; [by apply Obj_set_values|].
    by apply Obj_set_new_total.
Qed.

Lemma categoryMap_total tza month year snapshot : ∀ cm : Obj.t,
  NoDup (map fst cm) → Forall (λ v, v ≠ NaN) (map snd cm) →
  Forall (λ doc, Firestore.amount (Firestore.data doc) ≠ VNumber NaN
                 ∧ Spec.plainCategory doc) snapshot →
  ∃ cm', Array.foldM (visit tza month year) cm snapshot = Some cm'
    ∧ NoDup (map fst cm') ∧ Forall (λ v, v ≠ NaN) (map snd cm')
    ∧ Num.sum (map snd cm')
      = Num.add (Num.sum (map snd cm))
                (Num.sum (omap (Spec.monthAmount tza month year) snapshot)).
Proof.
  induction snapshot as [|doc snapshot IH]; intros cm Hnd Hcm Hs.
  - exists cm. repeat split; [done | done | symmetry; apply Num_add_zero_r].
  - apply Forall_cons in Hs as [[Ha Hc] Hs]. cbn [Array.foldM].
    destruct (visit_total tza month year cm doc Hnd Hcm Ha Hc)
      as (cm1 & -> & Hnd1 & Hcm1 & Ht1).
    cbn [mbind option_bind].
    destruct (IH cm1 Hnd1 Hcm1 Hs) as (cm2 & Hf & Hnd2 & Hcm2 & Ht2).
    exists cm2. split; [exact Hf|]. split; [done|]. split; [done|].
    by rewrite Ht2, Ht1, Num_sum_omap_cons, Num_add_assoc.
Qed.

(** the comparator [b.value - a.value] decides [value_ge] *)
Lemma Num_gt_sub_zero x y :
  Num.gt (Num.sub (Fin y) (Fin x)) Num.zero = negb (Num.le (Fin y) (Fin x)).
Proof.
  unfold Num.gt, Num.lt, Num.le, Num.cmp, Num.sub, Num.zero, Num.of_Z.
  change (Q2Qc (inject_Z 0)) with 0%Qc.
  destruct (y ?= x)%Qc eqn:H.
  - apply Qceq_alt in H. subst.
    replace (x - x)%Qc with 0%Qc by ring.
    by rewrite (proj1 (Qceq_alt _ _) eq_refl).
  - apply Qclt_alt, Qclt_minus_iff in H.
    assert (y - x < 0)%Qc as H'.
    { apply Qclt_minus_iff.
      by replace (0 + - (y - x))%Qc with (x + - y)%Qc by ring. }
    apply Qcgt_alt in H'. by rewrite H'.
  - apply Qcgt_alt, Qclt_minus_iff in H.
    assert (0 < y - x)%Qc as H' by exact H.
    apply (proj1 (Qclt_alt _ _)) in H'. by rewrite H'.
Qed.

Lemma value_ge_trans (a b c : CategoryDataPoint) :
  Spec.value_ge a b → Spec.value_ge b c → Spec.value_ge a c.
Proof.
  unfold Spec.value_ge, Num.ge, Num.le, Num.cmp.
  destruct (value a) as [x|], (value b) as [y|], (value c) as [z|]; try done.
  intros H1 H2.
  assert (z <= y)%Qc as L1.
  { apply Qcle_alt. intros E. by rewrite E in H2. }
  assert (y <= x)%Qc as L2.
  { apply Qcle_alt. intros E. by rewrite E in H1. }
  pose proof (proj1 (Qcle_alt _ _) (Qcle_trans _ _ _ L1 L2)) as L3.
  destruct (z ?= x)%Qc; done.
Qed.

(** a whole amount is not NaN *)
Lemma exactSums_not_NaN docs :
  Spec.exactSums docs →
  Forall (λ doc, Firestore.amount (Firestore.data doc) ≠ VNumber NaN) docs.
Proof.
  intros [H _]. eapply Forall_impl; [exact H|]. cbv beta. intros doc Hd E.
  rewrite E in Hd. by destruct (Hd eq_refl).
Qed.

(** X4.  The slices of the category chart.  When the amounts are whole
    numbers that add up without rounding and no category is the name of a
    property that every object inherits, the chart gets its slices: their
    values sum to the expense of the records the month admits (the expense
    of the balance card), no category name occurs twice, and the slices
    are in descending order of value. *)
Theorem fetchCategoryData_spec tza month year snapshot :
  Spec.exactSums snapshot →
  Forall Spec.plainCategory snapshot →
  ∃ data,
    fetchCategoryData tza month year snapshot = Some data
    ∧ Num.sum (map value data)
      = Num.sum (omap (Spec.monthAmount tza month year) snapshot)
    ∧ NoDup (map name data)
    ∧ StronglySorted Spec.value_ge data.
Proof.
  intros Hexact Hplain.
  assert (Forall (λ doc, Firestore.amount (Firestore.data doc) ≠ VNumber NaN
                         ∧ Spec.plainCategory doc) snapshot) as Hs.
  { apply Forall_and. split; [by apply exactSums_not_NaN | done]. }
  destruct (categoryMap_total tza month year snapshot [] (NoDup_nil_2) (Forall_nil_2 _) Hs)
    as (cm & Hf & Hnd & Hn & Ht).
  unfold fetchCategoryData, categoryMap. rewrite Hf. cbn [mbind option_bind].
  eexists. split; [reflexivity|].
  set (entries := map (λ '(name, value), {| name := name; value := value |})
                      (Obj.entries cm)).
  assert (entries ≡ₚ map (λ '(name, value), {| name := name; value := value |}) cm)
    as Hperm by (unfold entries; by rewrite Obj_entries_Permutation).
  assert (map value (map (λ '(name, value), {| name := name; value := value |}) cm)
          = map snd cm) as Hv.
  { rewrite map_map. apply map_ext. by intros []. }
  assert (map name (map (λ '(name, value), {| name := name; value := value |}) cm)
          = map fst cm) as Hk.
  { rewrite map_map. apply map_ext. by intros []. }
  split; [|split].
  - rewrite (Num_sum_Permutation _ _ (Permutation_map value (sort_Permutation _ _))).
    rewrite (Num_sum_Permutation _ _ (Permutation_map value Hperm)), Hv, Ht.
    apply Num_add_zero_l.
  - rewrite (Permutation_map name (sort_Permutation _ _)).
    by rewrite (Permutation_map name Hperm), Hk.
  - apply (sort_sorted_by _ (λ a, value a ≠ NaN) Spec.value_ge).
    + intros x y z _ _ _. apply value_ge_trans.
    + intros x y Hx Hy. unfold Array.inOrder, Spec.value_ge, Num.ge.
      destruct (value x) as [vx|], (value y) as [vy|]; try done.
      rewrite Num_gt_sub_zero, negb_involutive. done.
    + intros x y Hx Hy. unfold Array.inOrder, Spec.value_ge, Num.ge.
      destruct (value x) as [vx|] eqn:Ex, (value y) as [vy|] eqn:Ey; try done.
      rewrite Num_gt_sub_zero, negb_involutive.
      unfold Num.le, Num.cmp. intros H.
      destruct (vy ?= vx)%Qc eqn:E; try done.
      apply (proj2 (Qcgt_alt _ _)) in E. apply (proj1 (Qclt_alt _ _)) in E.
      by rewrite E.
    + rewrite Hperm. apply Forall_map. rewrite Forall_map in Hn.
      eapply Forall_impl; [exact Hn|]. by intros [k v].
Qed.

Lemma fetchCategoryData_spec_witness :
  ∃ data,
    fetchCategoryData 0 0 2024 Examples.januaryExpenses = Some data
    ∧ Num.sum (map value data)
      = Num.sum (omap (Spec.monthAmount 0 0 2024) Examples.januaryExpenses)
    ∧ NoDup (map name data)
    ∧ StronglySorted Spec.value_ge data.
Proof.
  apply fetchCategoryData_spec.
  - split.
    + repeat constructor; intros _; eexists; reflexivity.
    + vm_compute. discriminate.
  - repeat constructor.
Defined.

(** Three expenses of January 2024, 40 and 25 for food and 65 for rent: the
    chart has the slices Food and Rent, both 65, in the order in which the
    categories were first met. *)
Lemma category_chart_of_equal_slices :
  fetchCategoryData 0 0 2024 Examples.januaryExpenses
  = Some [{| name := "Food"; value := Num.of_Z 65 |};
          {| name := "Rent"; value := Num.of_Z 65 |}].
Proof. by_evaluation. Qed.

(** A record whose category is [constructor] takes the map out of the
    numbers, and one whose category is [__proto__] is dropped. *)
Lemma category_chart_of_inherited_names :
  fetchCategoryData 0 0 2024
    [Examples.record "e1" "u1" (VNumber (Num.of_Z 50))
       (VString "2024-01-20T00:00:00.000Z") (Some "constructor"%string) None] = None
  ∧ fetchCategoryData 0 0 2024
      [Examples.record "e1" "u1" (VNumber (Num.of_Z 50))
         (VString "2024-01-20T00:00:00.000Z") (Some "__proto__"%string) None] = Some [].
Proof. split; reflexivity. Qed.

End CategoryTotals.

(** ** The exported savings file *)

Section PlainText.

Lemma plainText_app a b :
  Spec.plainText (a +:+ b) = Spec.plainText a && Spec.plainText b.
Proof.
  induction a as [|c a IH]; [done|].
  rewrite Str_append_cons. cbn [Spec.plainText]. by rewrite IH, andb_assoc.
Qed.

Lemma allDigits_plainText s : Spec.allDigits s = true → Spec.plainText s = true.
Proof.
  induction s as [|c s IH]; [done|]. cbn [Spec.allDigits Spec.plainText].
  intros [Hc Hs]%andb_true_iff. rewrite IH, andb_true_r by done.
  destruct c as [[] [] [] [] [] [] [] []]; try discriminate Hc; reflexivity.
Qed.

Lemma allDigits_app a b :
  Spec.allDigits (a +:+ b) = Spec.allDigits a && Spec.allDigits b.
Proof.
  induction a as [|c a IH]; [done|].
  rewrite Str_append_cons. cbn [Spec.allDigits]. by rewrite IH, andb_assoc.
Qed.

Lemma allDigits_substring s : ∀ i j,
  Spec.allDigits s = true → Spec.allDigits (String.substring i j s) = true.
Proof.
  induction s as [|c s IH]; intros i j H.
  - by destruct i, j.
  - cbn [Spec.allDigits] in H. apply andb_true_iff in H as [Hc Hs].
    destruct i as [|i]; cbn [String.substring].
    + destruct j as [|j]; [done|]. cbn [Spec.allDigits]. by rewrite Hc, IH.
    + by apply IH.
Qed.

Lemma allDigits_zeros k :
  Spec.allDigits (string_of_list_ascii (replicate k "0"%char)) = true.
Proof. induction k as [|k IH]; [done|]. exact IH. Qed.

Lemma pretty_nonneg_digits z : 0 <= z → Spec.allDigits (pretty z) = true.
Proof.
  intros Hz.
  destruct (pretty_Z_digits z (Z.to_nat z + 1)) as (H & _ & _); [|lia|done].
  split; [done|].
  rewrite Nat2Z.inj_add, Z2Nat.id by done.
  pose proof (Z.pow_gt_lin_r 10 z ltac:(lia) Hz).
  pose proof (Z.pow_le_mono_r 10 z (z + 1) ltac:(lia) ltac:(lia)).
  change (Z.of_nat 1) with 1. lia.
Qed.

Lemma toFixed_plainText f x : Spec.plainText (NumStr.toFixed f x) = true.
Proof.
  destruct x as [q|]; [|done]. unfold NumStr.toFixed.
  set (n := Qfloor _).
  assert (0 <= n) as Hn.
  { unfold n. change 0 with (Qfloor 0). apply Qfloor_resp_le.
    apply Qle_trans with (0 + (1 # 2))%Q; [unfold Qle; simpl; lia|].
    apply Qplus_le_l. apply Qmult_le_0_compat; [apply Qabs_nonneg|].
    change 0%Q with (inject_Z 0). rewrite <- Zle_Qle.
    apply Z.pow_nonneg. lia. }
  set (ds := Str.padStart0 (S f) (pretty n)).
  assert (Spec.allDigits ds = true) as Hds.
  { unfold ds, Str.padStart0. rewrite allDigits_app, allDigits_zeros.
    by apply pretty_nonneg_digits. }
  assert (Spec.plainText (if Qle_bool 0 q then EmptyString else "-"%string) = true) as Hsg
    by (by destruct (Qle_bool 0 q)).
  destruct f as [|f].
  - rewrite plainText_app, Hsg. apply allDigits_plainText.
    by apply allDigits_substring.
  - rewrite !plainText_app, Hsg.
    rewrite !(allDigits_plainText (String.substring _ _ ds))
      by (by apply allDigits_substring).
    reflexivity.
Qed.

(** a plain text is one field of a CSV record, and one line of a file *)
Lemma csvFields_go_plain a : ∀ cur rest,
  Spec.plainText a = true →
  Spec.csvFields_go false cur (a +:+ rest)
  = Spec.csvFields_go false (Str.rev_acc a cur) rest.
Proof.
  induction a as [|c a IH]; intros cur rest H; [done|].
  cbn [Spec.plainText] in H. apply andb_true_iff in H as [Hc Ha].
  apply negb_true_iff, orb_false_iff in Hc as [[H1 H2]%orb_false_iff _].
  rewrite Str_append_cons. cbn [Spec.csvFields_go Str.rev_acc].
  rewrite H1, H2. by apply IH.
Qed.

Lemma csvFields_plain_cons a rest :
  Spec.plainText a = true →
  Spec.csvFields (a +:+ "," +:+ rest) = a :: Spec.csvFields rest.
Proof.
  intros H. unfold Spec.csvFields. rewrite csvFields_go_plain by done.
  rewrite Str_append_cons, Str_append_nil_l.
  change (Spec.csvFields_go false (Str.rev_acc a EmptyString) (String "," rest))
    with (Str.rev (Str.rev a) :: Spec.csvFields_go false EmptyString rest).
  by rewrite Str_rev_involutive.
Qed.

Lemma csvFields_plain a : Spec.plainText a = true → Spec.csvFields a = [a].
Proof.
  intros H. unfold Spec.csvFields.
  rewrite <- (Str_append_nil_r a) at 1. rewrite csvFields_go_plain by done.
  change (Spec.csvFields_go false (Str.rev_acc a EmptyString) EmptyString)
    with [Str.rev (Str.rev a)].
  by rewrite Str_rev_involutive.
Qed.

(** the lines of a text whose pieces hold no line break *)
Lemma oneLine_app a b : Spec.oneLine (a +:+ b) = Spec.oneLine a && Spec.oneLine b.
Proof.
  induction a as [|c a IH]; [done|].
  rewrite Str_append_cons. cbn [Spec.oneLine]. by rewrite IH, andb_assoc.
Qed.

Lemma plainText_oneLine a : Spec.plainText a = true → Spec.oneLine a = true.
Proof.
  induction a as [|c a IH]; [done|]. cbn [Spec.plainText Spec.oneLine].
  intros [Hc Ha]%andb_true_iff. rewrite IH, andb_true_r by done.
  apply negb_true_iff, orb_false_iff in Hc as [_ ->]. done.
Qed.

Lemma split_go_oneLine a : ∀ cur rest,
  Spec.oneLine a = true →
  Str.split_go Str.newline (a +:+ rest) cur
  = Str.split_go Str.newline rest (Str.rev_acc a cur).
Proof.
  induction a as [|c a IH]; intros cur rest H; [done|].
  cbn [Spec.oneLine] in H. apply andb_true_iff in H as [Hc Ha].
  apply negb_true_iff in Hc.
  rewrite Str_append_cons. cbn [Str.split_go Str.rev_acc].
  rewrite Hc. by apply IH.
Qed.

Lemma split_line_cons a rest :
  Spec.oneLine a = true →
  Str.split Str.newline (a +:+ String Str.newline rest)
  = a :: Str.split Str.newline rest.
Proof.
  intros H. unfold Str.split. rewrite split_go_oneLine by done.
  change (Str.split_go Str.newline (String Str.newline rest) (Str.rev_acc a EmptyString))
    with (Str.rev (Str.rev a) :: Str.split_go Str.newline rest EmptyString).
  by rewrite Str_rev_involutive.
Qed.

Lemma split_lines rows :
  Forall (λ r, Spec.oneLine r = true) rows → rows ≠ [] →
  Str.split Str.newline (Str.join (String Str.newline EmptyString) rows) = rows.
Proof.
  intros H. induction H as [|r rows Hr Hrows IH]; [done|]. intros _.
  destruct rows as [|r' rows].
  - cbn [Str.join]. unfold Str.split. rewrite <- (Str_append_nil_r r) at 1.
    rewrite split_go_oneLine by done.
    change (Str.split_go Str.newline EmptyString (Str.rev_acc r EmptyString))
      with [Str.rev (Str.rev r)].
    by rewrite Str_rev_involutive.
  - change (Str.join ?sep (r :: r' :: rows))
      with (r +:+ sep +:+ Str.join sep (r' :: rows)).
    rewrite Str_append_cons, Str_append_nil_l.
    rewrite split_line_cons by done. by rewrite IH.
Qed.

End PlainText.

Section SavingsCsv.

Import SavingsTrendChart.

Lemma monthNames_plain m : m ∈ monthNames → Spec.plainText m = true.
Proof.
  intros H. unfold monthNames in H.
  repeat (apply elem_of_cons in H as [->|H]; [reflexivity|]).
  by apply elem_of_nil in H.
Qed.

Lemma csvRow_fields e :
  Spec.plainText (month e) = true →
  Spec.csvFields (csvRow e)
  = [month e; NumStr.toFixed 2 (income e); NumStr.toFixed 2 (expense e);
     NumStr.toFixed 2 (savings e)].
Proof.
  intros H. unfold csvRow.
  rewrite csvFields_plain_cons by done.
  rewrite csvFields_plain_cons by apply toFixed_plainText.
  rewrite csvFields_plain_cons by apply toFixed_plainText.
  by rewrite csvFields_plain by apply toFixed_plainText.
Qed.

Lemma csvRow_oneLine e :
  Spec.plainText (month e) = true → Spec.oneLine (csvRow e) = true.
Proof.
  intros H. unfold csvRow. rewrite !oneLine_app.
  rewrite !(plainText_oneLine (NumStr.toFixed _ _)) by apply toFixed_plainText.
  by rewrite (plainText_oneLine _ H).
Qed.

(** X5.  The exported savings file.  The year's data is always produced,
    and the file written from it reads back line by line as the header
    followed by one line per month, twelve in all; every such line holds
    exactly four fields: the month and the income, the expense and the
    savings with two decimals. *)
Theorem savings_csv tza year incomeSnap expenseSnap :
  ∃ monthly,
    fetchSavingsData tza year incomeSnap expenseSnap = Some monthly
    ∧ Str.split Str.newline (handleDownloadCSV monthly)
      = "Month,Income,Expenses,Savings"%string :: map csvRow monthly
    ∧ length monthly = 12%nat
    ∧ Forall (λ e, Spec.csvFields (csvRow e)
                   = [month e; NumStr.toFixed 2 (income e); NumStr.toFixed 2 (expense e);
                      NumStr.toFixed 2 (savings e)]) monthly.
Proof.
  destruct (fetchSavingsData_sums tza year incomeSnap expenseSnap)
    as (monthly & Hf & Hnames & _).
  exists monthly. split; [exact Hf|].
  assert (Forall (λ e, Spec.plainText (month e) = true) monthly) as Hplain.
  { apply Forall_forall. intros e He. apply monthNames_plain.
    rewrite <- Hnames. by apply list_elem_of_fmap_2. }
  assert (length monthly = 12%nat) as Hlen.
  { by rewrite <- (length_map month), Hnames. }
  repeat split.
  - change (handleDownloadCSV monthly)
      with ("Month,Income,Expenses,Savings"%string
              +:+ String Str.newline
                    (Str.join (String Str.newline EmptyString) (map csvRow monthly))).
    rewrite split_line_cons by done. f_equal.
    apply split_lines.
    + apply Forall_map. eapply Forall_impl; [exact Hplain|].
      intros e. apply csvRow_oneLine.
    + destruct monthly; [done|]. done.
  - exact Hlen.
  - eapply Forall_impl; [exact Hplain|]. intros e. apply csvRow_fields.
Qed.

End SavingsCsv.

(** ** The statistics page: the window it starts with *)

Section MonthEnds.

(** the day after the last day of a month is the first day of the next *)
Lemma days_from_civil_next_month y m :
  1 <= m <= 12 →
  JSDate.days_from_civil y m (JSDate.DaysInMonth y m) + 1
  = JSDate.days_from_civil (y + m / 12) (m mod 12 + 1) 1.
Proof.
  intros Hm.
  assert (m = 1 ∨ m = 2 ∨ m = 3 ∨ m = 4 ∨ m = 5 ∨ m = 6 ∨ m = 7 ∨ m = 8 ∨ m = 9
          ∨ m = 10 ∨ m = 11 ∨ m = 12) as H by lia.
  unfold JSDate.days_from_civil, JSDate.DaysInMonth.
  repeat (destruct H as [H|H];
          [subst m; simpl; try (Z.div_mod_to_equations; lia) |]).
  2:{ subst m. simpl. Z.div_mod_to_equations. lia. }
  (* February *)
  destruct (JSDate.isLeapYear y) eqn:E.
  - apply isLeapYear_spec in E. Z.div_mod_to_equations. lia.
  - assert (¬ (y mod 4 = 0 ∧ (y mod 100 ≠ 0 ∨ y mod 400 = 0))) as E'.
    { intros E'. apply isLeapYear_spec in E'. congruence. }
    Z.div_mod_to_equations. lia.
Qed.

Lemma days_from_civil_day y m d :
  JSDate.days_from_civil y m d = JSDate.days_from_civil y m 1 + d - 1.
Proof. unfold JSDate.days_from_civil. lia. Qed.

(** [new Date(year, month + 1, 0)] is the last day of the month *)
Lemma MakeDay_last y m :
  0 <= m <= 11 →
  JSDate.civil_from_days (JSDate.MakeDay y (m + 1) 0)
  = {| JSDate.c_year := y; JSDate.c_month := m + 1;
       JSDate.c_day := JSDate.DaysInMonth y (m + 1) |}.
Proof.
  intros Hm. unfold JSDate.MakeDay.
  rewrite <- (days_from_civil_next_month y (m + 1)) by lia.
  replace (JSDate.days_from_civil y (m + 1) (JSDate.DaysInMonth y (m + 1)) + 1 + 0 - 1)
    with (JSDate.days_from_civil y (m + 1) (JSDate.DaysInMonth y (m + 1))) by lia.
  apply civil_of_days_from_civil; [lia|].
  pose proof (DaysInMonth_pos y (m + 1)). lia.
Qed.

End MonthEnds.

Section StatisticsWindow.

Import StatisticsPage.

Lemma Num_add_of_Z a b : Num.add (Num.of_Z a) (Num.of_Z b) = Num.of_Z (a + b).
Proof.
  unfold Num.add, Num.of_Z. f_equal. apply Qc_is_canon.
  unfold Qcplus, Q2Qc, this. rewrite !Qred_correct.
  by rewrite inject_Z_plus.
Qed.

Lemma MakeDay_bound y m d :
  -200000 <= y <= 200000 → -12 <= m <= 23 → -31 <= d <= 62 →
  -74000000 <= JSDate.MakeDay y m d <= 74000000.
Proof.
  intros Hy Hm Hd. unfold JSDate.MakeDay.
  pose proof (days_from_civil_bound (y + m / 12) (m mod 12 + 1)
                ltac:(Z.div_mod_to_equations; lia) ltac:(Z.div_mod_to_equations; lia)).
  lia.
Qed.

(** [new Date(year, month, day)] for a year from 100 on: the local
    midnight that starts the day *)
Lemma ofFields_valid tza y m d :
  100 <= y <= 200000 → -12 <= m <= 23 → -31 <= d <= 62 →
  - JSDate.msPerDay <= tza <= JSDate.msPerDay →
  ∃ t, JSDate.ofFields tza (Num.of_Z y) (Num.of_Z m) (Num.of_Z d) = ValidDate t
    ∧ JSDate.LocalTime tza t = JSDate.MakeDay y m d * JSDate.msPerDay.
Proof.
  intros Hy Hm Hd Htza.
  exists (JSDate.MakeDay y m d * JSDate.msPerDay - tza). split.
  - unfold JSDate.ofFields, Num.of_Z. rewrite !Num_trunc_of_Z.
    replace ((0 <=? y) && (y <=? 99)) with false
      by (symmetry; apply andb_false_iff; right; apply Z.leb_gt; lia).
    unfold JSDate.MakeDate, JSDate.UTC. rewrite Z.add_0_r.
    unfold JSDate.TimeClip.
    pose proof (MakeDay_bound y m d ltac:(lia) Hm Hd) as Hb.
    unfold JSDate.msPerDay in *.
    destruct (Z.ltb_spec 8640000000000000
                (Z.abs (JSDate.MakeDay y m d * 86400000 - tza))); [lia|done].
  - unfold JSDate.LocalTime. lia.
Qed.

Lemma Day_of_midnight d : JSDate.Day (d * JSDate.msPerDay) = d.
Proof. unfold JSDate.Day. apply Z.div_mul. unfold JSDate.msPerDay. lia. Qed.

Lemma TimeWithinDay_of_midnight d : JSDate.TimeWithinDay (d * JSDate.msPerDay) = 0.
Proof. unfold JSDate.TimeWithinDay. apply Z.mod_mul. unfold JSDate.msPerDay. lia. Qed.

(** The range the page starts with: from the first local midnight of the
    current month to the local midnight that starts its last day. *)
Lemma initialRange_spec tza now :
  let y := JSDate.YearFromTime (JSDate.LocalTime tza now) in
  let m := JSDate.MonthFromTime (JSDate.LocalTime tza now) in
  100 <= y <= 200000 →
  - JSDate.msPerDay <= tza <= JSDate.msPerDay →
  ∃ f l,
    initialRange tza (ValidDate now)
    = {| from := Some (ValidDate f); to := Some (ValidDate l) |}
    ∧ JSDate.LocalTime tza f = JSDate.MakeDay y m 1 * JSDate.msPerDay
    ∧ JSDate.LocalTime tza l
      = JSDate.MakeDay y m (JSDate.DaysInMonth y (m + 1)) * JSDate.msPerDay.
Proof.
  intros y m Hy Htza.
  pose proof (MonthFromTime_range (JSDate.LocalTime tza now)) as Hm. fold m in Hm.
  unfold initialRange. cbn [JSDate.getFullYear JSDate.getMonth].
  fold y m. rewrite Num_add_of_Z.
  destruct (ofFields_valid tza y m 1) as (f & -> & Hf); [lia..|].
  destruct (ofFields_valid tza y (m + 1) 0) as (l & -> & Hl); [lia..|].
  exists f, l. split; [done|]. split; [done|].
  rewrite Hl. f_equal.
  pose proof (days_from_civil_next_month y (m + 1) ltac:(lia)) as Hn.
  unfold JSDate.MakeDay.
  replace (m / 12) with 0 by (Z.div_mod_to_equations; lia).
  replace (m mod 12) with m by (Z.div_mod_to_equations; lia).
  replace (y + 0) with y by lia. rewrite <- Hn.
  rewrite (days_from_civil_day y (m + 1) (JSDate.DaysInMonth y (m + 1))). lia.
Qed.

End StatisticsWindow.

Section StatisticsRequest.

Import StatisticsPage.

(** a time of the years 0 to 9999 is within the range of a date *)
Lemma year_bound_TimeClip t :
  0 <= JSDate.YearFromTime t <= 9999 → JSDate.TimeClip t = ValidDate t.
Proof.
  intros Hy. unfold JSDate.YearFromTime, JSDate.civil_from_days in Hy.
  cbv zeta in Hy. cbn [JSDate.c_year] in Hy.
  assert (0 <= (JSDate.Day t + 719468) mod 146097 < 146097) as Hm
    by (apply Z.mod_pos_bound; lia).
  pose proof (yoe_of_doe_range _ Hm) as Hyoe.
  set (yoe := JSDate.yoe_of_doe _) in *.
  assert (-1 <= (JSDate.Day t + 719468) / 146097 <= 24) as He.
  { destruct (_ <=? 2); lia. }
  assert (-900000 <= JSDate.Day t <= 3000000) as Hd.
  { clear Hy. Z.div_mod_to_equations. lia. }
  unfold JSDate.TimeClip, JSDate.Day, JSDate.msPerDay in *.
  destruct (Z.ltb_spec 8640000000000000 (Z.abs t)); [|done].
  Z.div_mod_to_equations. lia.
Qed.

(** X6.  The bounds of the window reach the endpoint as they were picked.
    The text the statistics page puts in the request for a bound is read
    by the endpoint as the same bound: a date of the years 0 to 9999 comes
    back as the same point in time, and a bound that is not set (sent as
    the text [undefined]) as no bound.  The text of such a date holds
    digits and the marks [-], [:], [.], [T] and [Z] only, which a query
    string carries unchanged. *)
Theorem boundText_received tza d text :
  (∀ t, d = Some (ValidDate t) → 0 <= JSDate.YearFromTime t <= 9999) →
  boundText d = Some text →
  SummaryRoute.parseDateParam tza (Some text) = d.
Proof.
  intros Hy Ht. destruct d as [[t|]|]; cbn [boundText] in Ht.
  - specialize (Hy t eq_refl).
    pose proof (iso_string_roundtrip tza t text Hy Ht) as Hr.
    rewrite year_bound_TimeClip in Hr by done.
    assert (Str.truthy text = true) as Htr.
    { injection Ht as <-. destruct (_ && _); apply Str_truthy_app. }
    unfold SummaryRoute.parseDateParam. by rewrite Htr, Hr.
  - done.
  - by injection Ht as <-.
Qed.

Lemma boundText_received_witness :
  SummaryRoute.parseDateParam 0 (Some "2024-01-15T10:30:00.000Z"%string)
  = Some (ValidDate Examples.jan15).
Proof.
  apply (boundText_received 0 (Some (ValidDate Examples.jan15))).
  - intros t Ht. injection Ht as <-.
    change (JSDate.YearFromTime Examples.jan15) with 2024. lia.
  - reflexivity.
Defined.

End StatisticsRequest.

Section InitialWindow.

Import StatisticsPage.

Lemma Num_ge_of_Z a b : Num.ge (Num.of_Z a) (Num.of_Z b) = (b <=? a).
Proof. unfold Num.ge. apply Num_le_of_Z. Qed.

Lemma MakeDay_in_month y m d :
  0 <= m <= 11 → JSDate.MakeDay y m d = JSDate.days_from_civil y (m + 1) d.
Proof.
  intros Hm. unfold JSDate.MakeDay.
  replace (m / 12) with 0 by (Z.div_mod_to_equations; lia).
  replace (m mod 12) with m by (Z.div_mod_to_equations; lia).
  replace (y + 0) with y by lia.
  rewrite (days_from_civil_day y (m + 1) d). lia.
Qed.

(** X7.  The window the statistics page starts with leaves out the last
    day of the month.  Its upper bound is the midnight that starts the last
    day, so a record dated in the current month is inside the window
    exactly when it lies before the last day of the month, or on the
    midnight that starts it; a record dated outside the current month is
    never inside. *)
Theorem initial_window tza now raw t :
  let y := JSDate.YearFromTime (JSDate.LocalTime tza now) in
  let m := JSDate.MonthFromTime (JSDate.LocalTime tza now) in
  let range := initialRange tza (ValidDate now) in
  let lt := JSDate.LocalTime tza t in
  100 <= y <= 200000 →
  - JSDate.msPerDay <= tza <= JSDate.msPerDay →
  SummaryRoute.parseFirestoreDate tza raw = Some (ValidDate t) →
  SummaryRoute.isWithinRange tza (from range) (to range) raw = true
  ↔ JSDate.YearFromTime lt = y ∧ JSDate.MonthFromTime lt = m
    ∧ (JSDate.DateFromTime lt < JSDate.DaysInMonth y (m + 1)
       ∨ JSDate.TimeWithinDay lt = 0).
Proof.
  intros y m range lt Hy Htza Hraw.
  pose proof (MonthFromTime_range (JSDate.LocalTime tza now)) as Hm. fold m in Hm.
  destruct (initialRange_spec tza now Hy Htza) as (f & l & Hr & Hf & Hl).
  fold y m in Hf, Hl. unfold range. rewrite Hr. cbn [from to].
  unfold SummaryRoute.isWithinRange. rewrite Hraw. cbn [JSDate.getTime].
  rewrite Num_ge_of_Z, Num_le_of_Z, andb_true_iff, Z.leb_le, Z.leb_le.
  rewrite !MakeDay_in_month in Hf, Hl by done.
  set (dim := JSDate.DaysInMonth y (m + 1)) in *.
  pose proof (DaysInMonth_pos y (m + 1)) as Hdim. fold dim in Hdim.
  rewrite (days_from_civil_day y (m + 1) dim) in Hl.
  set (first := JSDate.days_from_civil y (m + 1) 1) in *.
  unfold JSDate.YearFromTime, JSDate.MonthFromTime, JSDate.DateFromTime.
  set (z := JSDate.Day lt).
  assert (lt = z * JSDate.msPerDay + JSDate.TimeWithinDay lt
          ∧ 0 <= JSDate.TimeWithinDay lt < JSDate.msPerDay) as [Hlt Htwd].
  { unfold z, JSDate.Day, JSDate.TimeWithinDay, JSDate.msPerDay.
    Z.div_mod_to_equations. lia. }
  assert (JSDate.LocalTime tza f - f = lt - t) as Hoff
    by (unfold lt, JSDate.LocalTime; lia).
  assert (JSDate.LocalTime tza l - l = lt - t) as Hoff'
    by (unfold lt, JSDate.LocalTime; lia).
  unfold JSDate.msPerDay in *.
  split.
  - intros [H1 H2].
    assert (first <= z <= first + dim - 1) as Hz by lia.
    assert (z = first + dim - 1 → JSDate.TimeWithinDay lt = 0) as Hlast by lia.
    assert (z = JSDate.days_from_civil y (m + 1) (z - first + 1)) as Hzc.
    { rewrite (days_from_civil_day y (m + 1) (z - first + 1)). fold first. lia. }
    rewrite Hzc, civil_of_days_from_civil by lia.
    cbn [JSDate.c_year JSDate.c_month JSDate.c_day].
    repeat split; [lia|].
    destruct (decide (z = first + dim - 1)); [right; auto | left; lia].
  - intros (HY & HM & HD).
    pose proof (civil_roundtrip z) as Hrt. cbv zeta in Hrt.
    pose proof (civil_day_range z) as Hdr. cbv zeta in Hdr.
    rewrite HY in Hrt, Hdr.
    replace (JSDate.c_month (JSDate.civil_from_days z)) with (m + 1) in Hrt, Hdr by lia.
    fold dim in Hdr.
    rewrite (days_from_civil_day y (m + 1)) in Hrt. fold first in Hrt.
    lia.
Qed.

Lemma initial_window_witness :
  let range := initialRange 0 (ValidDate Examples.jan15) in
  SummaryRoute.isWithinRange 0 (from range) (to range) (VTimestamp 1705314600 0) = true
  ↔ JSDate.YearFromTime Examples.jan15 = 2024
    ∧ JSDate.MonthFromTime Examples.jan15 = 0
    ∧ (JSDate.DateFromTime Examples.jan15 < JSDate.DaysInMonth 2024 1
       ∨ JSDate.TimeWithinDay Examples.jan15 = 0).
Proof.
  apply (initial_window 0 Examples.jan15 (VTimestamp 1705314600 0) Examples.jan15).
  - change (JSDate.YearFromTime (JSDate.LocalTime 0 Examples.jan15)) with 2024. lia.
  - unfold JSDate.msPerDay. lia.
  - reflexivity.
Defined.

End InitialWindow.

(** ** The dashboard page: the years offered *)

Section Years.

Import DashboardPage.

(** the list built for integer bounds *)
Lemma generateYears_integers a b :
  b - a + 1 <= 2 ^ 32 - 1 →
  generateYears (Num.of_Z a) (Num.of_Z b) = Some (map Num.of_Z (seqZ a (b - a + 1))).
Proof.
  intros Hlen. unfold generateYears.
  rewrite Num_sub_of_Z, Num_add_of_Z.
  change (JS.toLength (Num.of_Z (b - a + 1)))
    with (Z.min (Z.max 0 (Num.trunc (Q2Qc (inject_Z (b - a + 1))))) (2 ^ 53 - 1)).
  rewrite Num_trunc_of_Z.
  assert (Z.min (Z.max 0 (b - a + 1)) (2 ^ 53 - 1) = Z.max 0 (b - a + 1)) as ->.
  { apply Z.min_l. change (2 ^ 53 - 1) with 9007199254740991.
    change (2 ^ 32 - 1) with 4294967295 in Hlen. lia. }
  destruct (Z.ltb_spec (2 ^ 32 - 1) (Z.max 0 (b - a + 1))) as [H|_].
  { change (2 ^ 32 - 1) with 4294967295 in *. lia. }
  f_equal. unfold seqZ. rewrite <- list_fmap_compose.
  replace (Z.to_nat (Z.max 0 (b - a + 1))) with (Z.to_nat (b - a + 1)) by lia.
  apply map_ext. intros i. rewrite Num_add_of_Z. unfold compose. f_equal. lia.
Qed.

(** X8.  The years offered by the dashboard.  For integer bounds that
    span at most 2^32 - 1 years, [generateYears] returns the integers from
    the first bound to the second in ascending order, the empty list when
    the second bound is below the first: a year is offered exactly when it
    lies between the bounds. *)
Theorem generateYears_range a b :
  b - a + 1 <= 2 ^ 32 - 1 →
  ∃ years,
    generateYears (Num.of_Z a) (Num.of_Z b) = Some years
    ∧ years = map Num.of_Z (seqZ a (b - a + 1))
    ∧ ∀ y, Num.of_Z y ∈ years ↔ a <= y <= b.
Proof.
  intros Hlen. eexists. split; [by apply generateYears_integers|].
  split; [done|]. intros y.
  rewrite list_elem_of_fmap. split.
  - intros (x & Hx & Hin). apply elem_of_seqZ in Hin.
    assert (x = y); [|lia].
    apply (f_equal (λ n, match n with Fin q => Num.trunc q | NaN => 0 end)) in Hx.
    unfold Num.of_Z in Hx. by rewrite !Num_trunc_of_Z in Hx.
  - intros Hy. exists y. split; [done|]. apply elem_of_seqZ. lia.
Qed.

Lemma generateYears_range_witness :
  ∃ years,
    generateYears (Num.of_Z 2020) (Num.of_Z 2029) = Some years
    ∧ years = map Num.of_Z (seqZ 2020 (2029 - 2020 + 1))
    ∧ ∀ y, Num.of_Z y ∈ years ↔ 2020 <= y <= 2029.
Proof. apply (generateYears_range 2020 2029). simpl. lia. Defined.

End Years.

(** ** The entry forms: detection and validation *)

Section Detection.

(** X9.  The source detected in an uploaded document is always one of the
    options of the source selector. *)
Theorem detectIncomeSource_option text :
  AddIncomeForm.detectIncomeSource text ∈ AddIncomeForm.SOURCE_OPTIONS.
Proof.
  unfold AddIncomeForm.detectIncomeSource, AddIncomeForm.SOURCE_OPTIONS.
  repeat (destruct (testAny _ _); [set_solver|]). set_solver.
Qed.

(** X10.  The category detected in an uploaded document is always one of
    the options of the category selector, and never [Other]. *)
Theorem detectExpenseCategory_option text :
  AddExpenseForm.detectExpenseCategory text ∈ AddExpenseForm.CATEGORY_OPTIONS
  ∧ AddExpenseForm.detectExpenseCategory text ≠ "Other"%string.
Proof.
  unfold AddExpenseForm.detectExpenseCategory, AddExpenseForm.CATEGORY_OPTIONS.
  repeat (destruct (testAny _ _); [split; [set_solver | done]|]).
  split; [set_solver | done].
Qed.

(** X11.  The notices of the expense form.  A submission ends in one of
    five notices: a missing field, an amount that is not valid, a missing
    login, a failed save, or success.  The notice that asks for the custom
    category is never shown: when a custom category is called for and is
    blank, the first check has already reported a missing field. *)
Theorem expense_form_notices form user db :
  (AddExpenseForm.handleSubmit form user db).1
  ∈ [ToastError "All fields are required."; ToastError "Enter a valid amount > 0";
     ToastError "Login required"; ToastError "Failed to save expense";
     ToastSuccess "Expense saved"]
  ∧ (AddExpenseForm.handleSubmit form user db).1
    ≠ ToastError "Please enter custom category".
Proof.
  assert (∀ n : Toast,
            n ∈ [ToastError "All fields are required.";
                 ToastError "Enter a valid amount > 0";
                 ToastError "Login required"; ToastError "Failed to save expense";
                 ToastSuccess "Expense saved"] →
            n ≠ ToastError "Please enter custom category") as Hother.
  { intros n Hn ->.
    repeat (apply elem_of_cons in Hn as [Hn|Hn]; [discriminate Hn|]).
    by apply elem_of_nil in Hn. }
  cut ((AddExpenseForm.handleSubmit form user db).1
       ∈ [ToastError "All fields are required."; ToastError "Enter a valid amount > 0";
          ToastError "Login required"; ToastError "Failed to save expense";
          ToastSuccess "Expense saved"]).
  { intros H. split; [exact H | by apply Hother]. }
  unfold AddExpenseForm.handleSubmit.
  destruct (AddExpenseForm.date form) as [d|]; [|cbn [fst]; set_solver].
  destruct (String.eqb (AddExpenseForm.category form) "Other"
            || String.eqb (AddExpenseForm.category form) "Misc").
  - destruct (Str.truthy (Str.trim (AddExpenseForm.customCategory form)));
      cbn [negb orb andb].
    + rewrite orb_false_r.
      destruct (negb _); [cbn [fst]; set_solver|].
      destruct (Num.isNaN _ || _); [cbn [fst]; set_solver|].
      destruct user; [|cbn [fst]; set_solver].
      destruct (JSDate.toISOString d); cbn [fst]; set_solver.
    + rewrite orb_true_r. cbn [fst]. set_solver.
  - cbn [andb].
    destruct (negb _ || _); [cbn [fst]; set_solver|].
    destruct (Num.isNaN _ || _); [cbn [fst]; set_solver|].
    destruct user; [|cbn [fst]; set_solver].
    destruct (JSDate.toISOString d); cbn [fst]; set_solver.
Qed.

End Detection.

(** ** The statement upload: the lines that are saved *)

Section Upload.

Import UploadTransactions.

(** a valid date holds a time within the range of a date *)
Lemma TimeClip_valid t t' :
  JSDate.TimeClip t = ValidDate t' → t' = t ∧ JSDate.TimeClip t' = ValidDate t'.
Proof.
  unfold JSDate.TimeClip. destruct (_ <? _) eqn:E; [done|].
  intros [= <-]. by rewrite E.
Qed.

Lemma ofString_valid tza s t :
  JSDate.ofString tza s = ValidDate t → JSDate.TimeClip t = ValidDate t.
Proof.
  unfold JSDate.ofString. destruct (JSDate.parse_format true tza s) as [t0|]; [|done].
  intros H. by apply TimeClip_valid in H as [-> H].
Qed.

(** the record written for one line, and the records written by the loop *)
Lemma newDoc_savedAs tza now uid tx st coll :
  Spec.savedAs tza uid tx (newDoc st coll (toDoc tza now uid tx)).
Proof.
  unfold Spec.savedAs, newDoc, toDoc.
  cbn [data userId Firestore.amount Firestore.date].
  split; [done|]. split; [done|]. intros t Ht.
  unfold isValidDate. rewrite Ht.
  cbn [JSDate.getTime Num.isNaN Num.of_Z negb toStored].
  rewrite parseDate_timestamp. by rewrite (ofString_valid _ _ _ Ht).
Qed.

Lemma save_loop tza now uid txs : ∀ db,
  let db' := foldl (λ db tx, addDoc (collectionOf tx) (toDoc tza now uid tx) db) db txs in
  ∃ newIncomes newExpenses,
    incomes db' = incomes db ++ newIncomes
    ∧ expenses db' = expenses db ++ newExpenses
    ∧ Forall2 (Spec.savedAs tza uid) (Spec.incomeLines txs) newIncomes
    ∧ Forall2 (Spec.savedAs tza uid) (Spec.expenseLines txs) newExpenses.
Proof.
  induction txs as [|tx txs IH]; intros db; cbv zeta.
  - exists [], []. rewrite !app_nil_r. repeat split; constructor.
  - cbn [foldl].
    destruct (IH (addDoc (collectionOf tx) (toDoc tza now uid tx) db))
      as (ni & ne & Hi & He & Fi & Fe).
    unfold collectionOf, Spec.incomeLines, Spec.expenseLines in *. cbn [List.filter].
    destruct (toIncomes tx) eqn:Ec; cbn [negb addDoc incomes expenses] in *.
    + exists (newDoc db (incomes db) (toDoc tza now uid tx) :: ni), ne.
      rewrite Hi, He, <- app_assoc. repeat split; [|done].
      constructor; [|done]. apply newDoc_savedAs.
    + exists ni, (newDoc db (expenses db) (toDoc tza now uid tx) :: ne).
      rewrite Hi, He, <- app_assoc. repeat split; [done|].
      constructor; [|done]. apply newDoc_savedAs.
Qed.

Lemma savedAs_amounts tza uid txs docs :
  Forall2 (Spec.savedAs tza uid) txs docs →
  omap Spec.numberAmount docs = map (λ tx, Num.abs (amount tx)) txs.
Proof.
  induction 1 as [|tx doc txs docs (_ & Ha & _) _ IH]; [done|].
  change (omap ?f (doc :: docs))
    with (match f doc with Some y => y :: omap f docs | None => omap f docs end).
  unfold Spec.numberAmount at 1. rewrite Ha. cbn [map]. by rewrite IH.
Qed.

(** the total shown above the table adds the amounts as the loop does *)
Lemma totalAmount_runningSum type txs :
  totalAmount type txs
  = NumStr.toFixed 2
      (Spec.runningSum
         (map (λ tx, Num.abs (amount tx))
              (List.filter (λ tx, String.eqb (classifiedAs tx) type) txs))).
Proof.
  unfold totalAmount, Spec.runningSum. f_equal. generalize Num.zero.
  induction (List.filter _ txs) as [|tx l IH]; intros acc; [done|].
  cbn [foldl map]. apply IH.
Qed.

(** on lines classified as declared, the lines counted in a total are the
    lines written to the collection *)
Lemma declared_income_lines txs :
  Forall Spec.declaredClass txs →
  List.filter (λ tx, String.eqb (classifiedAs tx) "Income") txs = Spec.incomeLines txs
  ∧ List.filter (λ tx, String.eqb (classifiedAs tx) "Expense") txs = Spec.expenseLines txs.
Proof.
  unfold Spec.incomeLines, Spec.expenseLines, toIncomes.
  induction 1 as [|tx txs [Hc|Hc] _ [IH1 IH2]]; [done| |];
    cbn [List.filter]; rewrite Hc, IH1, IH2; done.
Qed.

(** X12.  The upload saves the lines the store accepts, and on a complete
    save the totals shown are the totals saved.  For a signed-in user and
    at least one line, the handler writes the lines in order until the
    store rejects a write: it reports success when every line was written
    and the failure otherwise.  A written line goes to the incomes when its
    class reads [income] in lower case and to the expenses otherwise; its
    record belongs to the user, holds the amount without its sign and,
    when the date of the line is in the date-time format, a date the
    widgets read as that date.  When every line was written and every line
    is classified [Income] or [Expense], the two totals shown above the
    table are the amounts of the new income and expense records, added in
    order and written with two decimals. *)
Theorem upload_saves_accepted_lines accepted tza now uid txs db :
  txs ≠ [] →
  let k := Spec.written accepted txs in
  let result := handleSave accepted tza now (Some uid) txs db in
  result.1 = Some (if (k <? length txs)%nat then "Failed to save transactions."%string
                   else "Transactions saved successfully."%string)
  ∧ ∃ newIncomes newExpenses,
      incomes result.2 = incomes db ++ newIncomes
      ∧ expenses result.2 = expenses db ++ newExpenses
      ∧ Forall2 (Spec.savedAs tza uid) (Spec.incomeLines (take k txs)) newIncomes
      ∧ Forall2 (Spec.savedAs tza uid) (Spec.expenseLines (take k txs)) newExpenses
      ∧ (k = length txs → Forall Spec.declaredClass txs →
         totalAmount "Income" txs
         = NumStr.toFixed 2 (Spec.runningSum (omap Spec.numberAmount newIncomes))
         ∧ totalAmount "Expense" txs
           = NumStr.toFixed 2 (Spec.runningSum (omap Spec.numberAmount newExpenses))).
Proof.
  intros Hne. cbv zeta.
  set (write := λ db tx, addDoc (collectionOf tx) (toDoc tza now uid tx) db).
  assert (handleSave accepted tza now (Some uid) txs db
          = (Some (if (Spec.written accepted txs <? length txs)%nat
                   then "Failed to save transactions."%string
                   else "Transactions saved successfully."%string),
             foldl write db (take (Spec.written accepted txs) txs))) as ->.
  { unfold handleSave, Spec.written. destruct txs as [|tx txs]; [done|].
    fold write. destruct accepted as [k|].
    - destruct (Nat.ltb_spec k (length (tx :: txs))) as [Hk|Hk].
      + rewrite Nat.min_l by lia.
        by destruct (Nat.ltb_spec k (length (tx :: txs))); [|lia].
      + rewrite Nat.min_r by lia. rewrite Nat.ltb_irrefl, firstn_all. done.
    - by rewrite Nat.ltb_irrefl, firstn_all. }
  cbn [fst snd]. split; [done|].
  destruct (save_loop tza now uid (take (Spec.written accepted txs) txs) db)
    as (ni & ne & Hi & He & Fi & Fe).
  exists ni, ne. split; [exact Hi|]. split; [exact He|].
  split; [exact Fi|]. split; [exact Fe|].
  intros Hk Hc. rewrite Hk, firstn_all in Fi, Fe.
  destruct (declared_income_lines txs Hc) as [E1 E2].
  rewrite !totalAmount_runningSum, E1, E2.
  by rewrite (savedAs_amounts _ _ _ _ Fi), (savedAs_amounts _ _ _ _ Fe).
Qed.

(** Three lines on a store that rejects the third write: the salary and
    the meal are saved and the failure is reported. *)
Lemma upload_saves_accepted_lines_witness :
  let txs := Examples.statementLines in
  let k := Spec.written (Some 2%nat) txs in
  let result := handleSave (Some 2%nat) 0 Examples.jan15 (Some "u1"%string) txs
                  Examples.emptyStore in
  result.1 = Some (if (k <? length txs)%nat then "Failed to save transactions."%string
                   else "Transactions saved successfully."%string)
  ∧ ∃ newIncomes newExpenses,
      incomes result.2 = incomes Examples.emptyStore ++ newIncomes
      ∧ expenses result.2 = expenses Examples.emptyStore ++ newExpenses
      ∧ Forall2 (Spec.savedAs 0 "u1") (Spec.incomeLines (take k txs)) newIncomes
      ∧ Forall2 (Spec.savedAs 0 "u1") (Spec.expenseLines (take k txs)) newExpenses
      ∧ (k = length txs → Forall Spec.declaredClass txs →
         totalAmount "Income" txs
         = NumStr.toFixed 2 (Spec.runningSum (omap Spec.numberAmount newIncomes))
         ∧ totalAmount "Expense" txs
           = NumStr.toFixed 2 (Spec.runningSum (omap Spec.numberAmount newExpenses))).
Proof.
  apply (upload_saves_accepted_lines (Some 2%nat) 0 Examples.jan15 "u1"
           Examples.statementLines Examples.emptyStore).
  discriminate.
Defined.

(** The three lines on a store that accepts every write: one income
    record, two expense records, and the totals 100.00 and 540.00. *)
Lemma upload_of_three_lines :
  let result := handleSaveToFirebase 0 Examples.jan15 (Some "u1"%string)
                  Examples.statementLines Examples.emptyStore in
  result.1 = Some "Transactions saved successfully."%string
  ∧ length (incomes result.2) = 1%nat
  ∧ length (expenses result.2) = 2%nat
  ∧ totalAmount "Income" Examples.statementLines = "100.00"%string
  ∧ totalAmount "Expense" Examples.statementLines = "540.00"%string.
Proof. cbv zeta. repeat split; reflexivity. Qed.

(** A line classified [income], in lower case, is saved as an income and
    counted in neither total. *)
Lemma upload_of_lower_case_class :
  let tx := {| date := "2024-01-15"; description := "Salary credit";
               amount := Num.of_Z 100; type := "CR"; classifiedAs := "income" |} in
  let result := handleSaveToFirebase 0 Examples.jan15 (Some "u1"%string) [tx]
                  Examples.emptyStore in
  length (incomes result.2) = 1%nat
  ∧ totalAmount "Income" [tx] = "0.00"%string
  ∧ totalAmount "Expense" [tx] = "0.00"%string.
Proof. cbv zeta. repeat split; reflexivity. Qed.

End Upload.

(** ** Widgets that read the date through its seconds

    The insight card, the expense tile of the dashboard page and the income
    and expense chart read a stored timestamp through its [seconds] field,
    where the balance card calls [toDate].  On the dates the application
    writes the two readings fall in the same month. *)

Section TimestampSeconds.

Lemma Num_mul_of_Z a b : Num.mul (Num.of_Z a) (Num.of_Z b) = Num.of_Z (a * b).
Proof.
  unfold Num.mul, Num.of_Z. f_equal. apply Qc_is_canon.
  unfold Qcmult, Q2Qc, this. rewrite !Qred_correct.
  by rewrite inject_Z_mult.
Qed.

Lemma ofNumber_of_Z z : JSDate.ofNumber (Num.of_Z z) = JSDate.TimeClip z.
Proof. unfold JSDate.ofNumber, Num.of_Z. by rewrite Num_trunc_of_Z. Qed.

(** [toDate] of a timestamp after the epoch: the whole milliseconds *)
Lemma Timestamp_toDate_floor s n :
  0 <= s → 0 <= n →
  JS.Timestamp_toDate s n = JSDate.TimeClip (s * 1000 + n / 1000000).
Proof.
  intros Hs Hn.
  unfold JS.Timestamp_toDate, JSDate.ofNumber, Num.add, Num.mul, Num.of_Z, Num.ratio.
  f_equal.
  set (q := (Q2Qc (inject_Z s) * Q2Qc (inject_Z 1000) + Q2Qc (n # 1000000))%Qc).
  assert (this q == (s * 1000000000 + n) # 1000000)%Q as Hq.
  { unfold q, Qcplus, Qcmult, Q2Qc, this. rewrite !Qred_correct.
    unfold Qeq, Qplus, Qmult, inject_Z; simpl. lia. }
  unfold Num.trunc.
  assert (Qle_bool 0 q = true) as ->.
  { apply Qle_bool_iff. rewrite Hq. unfold Qle; simpl. lia. }
  rewrite (Qfloor_comp _ _ Hq). unfold Qfloor.
  change (Z.pos 1000000) with 1000000.
  Z.div_mod_to_equations. lia.
Qed.

Lemma usual_timestamp tza s n :
  0 < s < 253402300800 → 0 <= n < 1000000000 → tza mod 1000 = 0 →
  - JSDate.msPerDay <= tza <= JSDate.msPerDay →
  ∃ t, JS.Timestamp_toDate s n = ValidDate t
    ∧ JSDate.ofNumber (Num.mul (Num.of_Z s) (Num.of_Z 1000)) = ValidDate (s * 1000)
    ∧ JSDate.Day (JSDate.LocalTime tza t) = JSDate.Day (JSDate.LocalTime tza (s * 1000)).
Proof.
  intros Hs Hn Htz Htza.
  exists (s * 1000 + n / 1000000).
  rewrite Timestamp_toDate_floor by lia.
  rewrite Num_mul_of_Z, ofNumber_of_Z.
  assert (0 <= n / 1000000 <= 999) as Hms by (Z.div_mod_to_equations; lia).
  unfold JSDate.TimeClip, JSDate.msPerDay in *.
  repeat split.
  - destruct (Z.ltb_spec 8640000000000000 (Z.abs (s * 1000 + n / 1000000))); [lia|done].
  - destruct (Z.ltb_spec 8640000000000000 (Z.abs (s * 1000))); [lia|done].
  - unfold JSDate.Day, JSDate.LocalTime, JSDate.msPerDay.
    revert Hms. generalize (n / 1000000). intros ms Hms.
    Z.div_mod_to_equations. lia.
Qed.

End TimestampSeconds.

Section UsualDates.

Lemma Num_truthy_of_Z z : Num.truthy (Num.of_Z z) = negb (z =? 0).
Proof.
  change (Num.truthy (Num.of_Z z)) with (negb (Num.strict_eq (Num.of_Z z) (Num.of_Z 0))).
  by rewrite Num_strict_eq_of_Z.
Qed.

Lemma same_day_fields a b :
  JSDate.Day a = JSDate.Day b →
  JSDate.YearFromTime a = JSDate.YearFromTime b
  ∧ JSDate.MonthFromTime a = JSDate.MonthFromTime b.
Proof. unfold JSDate.YearFromTime, JSDate.MonthFromTime. by intros ->. Qed.

Lemma ofString_empty tza : JSDate.ofString tza EmptyString = InvalidDate.
Proof. reflexivity. Qed.

Variables (tza : Z).
Hypothesis tza_seconds : tza mod 1000 = 0.
Hypothesis tza_range : - JSDate.msPerDay <= tza <= JSDate.msPerDay.

(** the date read through [seconds] and the one read by [toDate] fall in
    the same month *)
Lemma seconds_date_fields raw :
  Spec.usualDate raw →
  let dt :=
    if JS.truthy (JS.seconds raw)
    then JSDate.ofNumber (Num.mul (JS.toNumber (JS.seconds raw)) (Num.of_Z 1000))
    else match raw with VString s => JSDate.ofString tza s | _ => InvalidDate end in
  match TotalBalanceCard.parseDate tza raw with
  | Some (ValidDate t) =>
      ∃ t', dt = ValidDate t'
        ∧ JSDate.YearFromTime (JSDate.LocalTime tza t')
          = JSDate.YearFromTime (JSDate.LocalTime tza t)
        ∧ JSDate.MonthFromTime (JSDate.LocalTime tza t')
          = JSDate.MonthFromTime (JSDate.LocalTime tza t)
  | _ => dt = InvalidDate
  end.
Proof.
  intros Hu. destruct raw as [| | | |s|s n| |]; try done.
  - (* a text *)
    cbn [JS.seconds JS.truthy]. cbv zeta.
    unfold TotalBalanceCard.parseDate. cbn [JS.truthy].
    destruct s as [|c s]; [done|]. cbn [Str.truthy negb].
    destruct (JSDate.ofString tza (String c s)) as [t|]; [|done]. by exists t.
  - (* a timestamp *)
    destruct Hu as [Hs Hn].
    destruct (usual_timestamp tza s n Hs Hn tza_seconds tza_range) as (t & Ht & Hsec & Hday).
    cbn [JS.seconds JS.truthy JS.toNumber]. cbv zeta.
    rewrite Num_truthy_of_Z.
    destruct (Z.eqb_spec s 0); [lia|]. cbn [negb].
    unfold TotalBalanceCard.parseDate. cbn [JS.truthy negb]. rewrite Ht, Hsec.
    exists (s * 1000). split; [done|].
    symmetry in Hday. by apply same_day_fields.
Qed.

End UsualDates.

Section WidgetsAgree.

Variables (tza : Z).
Hypothesis tza_seconds : tza mod 1000 = 0.
Hypothesis tza_range : - JSDate.msPerDay <= tza <= JSDate.msPerDay.

Lemma bool_decide_is_Some_if {A} (b : bool) (x : A) :
  bool_decide (is_Some (if b then Some x else None)) = b.
Proof.
  destruct b; [by apply bool_decide_eq_true_2|].
  apply bool_decide_eq_false_2. by intros [? ?].
Qed.

Lemma bool_decide_is_Some_None {A} : bool_decide (is_Some (@None A)) = false.
Proof. apply bool_decide_eq_false_2. by intros [? ?]. Qed.

(** the month test of a widget that reads the date through [seconds] *)
Lemma seconds_month_test month year raw dt :
  Spec.usualDate raw →
  dt = (if JS.truthy (JS.seconds raw)
        then JSDate.ofNumber (Num.mul (JS.toNumber (JS.seconds raw)) (Num.of_Z 1000))
        else match raw with VString s => JSDate.ofString tza s | _ => InvalidDate end) →
  Num.strict_eq (JSDate.getFullYear tza dt) (Num.of_Z year)
  && Num.strict_eq (JSDate.getMonth tza dt) (Num.of_Z month)
  = Spec.inMonthDate tza month year raw
  ∧ Num.strict_eq (JSDate.getFullYear tza dt) (Num.of_Z year)
    = bool_decide (is_Some (Spec.inYearDate tza year raw))
  ∧ (∀ m, Spec.inYearDate tza year raw = Some m → JSDate.getMonth tza dt = Num.of_Z m).
Proof.
  intros Hu ->.
  pose proof (seconds_date_fields tza tza_seconds tza_range raw Hu) as H. cbv zeta in H.
  unfold Spec.inMonthDate, Spec.inYearDate.
  destruct (TotalBalanceCard.parseDate tza raw) as [[t|]|].
  - destruct H as (t' & -> & HY & HM).
    rewrite getFullYear_valid, getMonth_valid, HY, HM.
    repeat split.
    + by rewrite bool_decide_is_Some_if.
    + intros m. destruct (_ =? year); [|done]. intros [= <-].
      cbn [JSDate.getMonth]. by rewrite HM.
  - rewrite H. cbn [JSDate.getFullYear]. rewrite Num_strict_eq_NaN_l.
    split; [done|]. split; [|done]. symmetry. apply bool_decide_is_Some_None.
  - rewrite H. cbn [JSDate.getFullYear]. rewrite Num_strict_eq_NaN_l.
    split; [done|]. split; [|done]. symmetry. apply bool_decide_is_Some_None.
Qed.

Lemma insight_readDate raw :
  Spec.usualDate raw →
  InsightSummaryCard.readDate tza raw
  = Some (if JS.truthy (JS.seconds raw)
          then JSDate.ofNumber (Num.mul (JS.toNumber (JS.seconds raw)) (Num.of_Z 1000))
          else match raw with VString s => JSDate.ofString tza s | _ => InvalidDate end).
Proof.
  intros Hu. unfold InsightSummaryCard.readDate.
  destruct raw as [| | | |s|s n| |]; try done.
  cbn [JS.seconds JS.truthy]. rewrite Num_truthy_of_Z.
  destruct Hu as [Hs _]. destruct (Z.eqb_spec s 0); [lia|done].
Qed.

Lemma dashboard_readDate raw :
  Spec.usualDate raw →
  DashboardPage.readDate tza raw
  = (if JS.truthy (JS.seconds raw)
     then JSDate.ofNumber (Num.mul (JS.toNumber (JS.seconds raw)) (Num.of_Z 1000))
     else match raw with VString s => JSDate.ofString tza s | _ => InvalidDate end).
Proof.
  intros Hu. unfold DashboardPage.readDate.
  destruct raw as [| | | |s|s n| |]; try done.
  cbn [JS.seconds JS.truthy]. rewrite Num_truthy_of_Z.
  destruct Hu as [Hs _]. destruct (Z.eqb_spec s 0); [lia|done].
Qed.

Lemma monthAmount_inMonthDate month year doc :
  Spec.monthAmount tza month year doc
  = match Firestore.amount (data doc) with
    | VNumber a => if Spec.inMonthDate tza month year (Firestore.date (data doc))
                   then Some a else None
    | _ => None
    end.
Proof.
  unfold Spec.monthAmount, Spec.inMonth, Spec.inMonthDate.
  change (LatestTransactionsTable.parseDate tza) with (TotalBalanceCard.parseDate tza).
  destruct (TotalBalanceCard.parseDate tza _) as [[t|]|];
    destruct (Firestore.amount (data doc)); done.
Qed.

(** the totals of the insight card and of the expense tile *)
Lemma insight_monthTotal month year snap :
  Forall (λ doc, Spec.usualDate (Firestore.date (data doc))) snap →
  InsightSummaryCard.monthTotal tza month year snap
  = Num.sum (omap (Spec.monthAmount tza month year) snap).
Proof.
  intros Hs. unfold InsightSummaryCard.monthTotal.
  rewrite <- (Num_add_zero_l (Num.sum _)). generalize Num.zero.
  induction Hs as [|doc snap Hd Hs IH]; intros acc.
  - symmetry. apply Num_add_zero_r.
  - cbn [foldl]. rewrite IH, Num_sum_omap_cons, Num_add_assoc. f_equal.
    rewrite monthAmount_inMonthDate, (insight_readDate _ Hd).
    destruct (Firestore.amount (data doc)); try (symmetry; apply Num_add_zero_r).
    destruct (seconds_month_test month year _ _ Hd eq_refl) as [-> _].
    destruct (Spec.inMonthDate _ _ _ _); [|symmetry; apply Num_add_zero_r].
    change (option_list (Some ?x)) with [x]. by rewrite Num_sum_singleton.
Qed.

Lemma Num_truthy_or a : JS.toNumber (JS.or (VNumber (Fin a)) (VNumber Num.zero)) = Fin a.
Proof.
  unfold JS.or. cbn [JS.truthy].
  destruct (Num.truthy (Fin a)) eqn:E; [done|]. cbn [JS.toNumber].
  pose proof (Num_or_zero_Fin a) as H. unfold Num.or in H. by rewrite E in H.
Qed.

Lemma dashboard_fetchExpenses month year snap :
  Forall Spec.usualRecord snap →
  DashboardPage.fetchExpenses tza month year snap
  = Num.sum (omap (Spec.monthAmount tza month year) snap).
Proof.
  intros Hs. unfold DashboardPage.fetchExpenses.
  match goal with |- foldl ?f _ _ = _ => set (step := f) end.
  rewrite <- (Num_add_zero_l (Num.sum _)). generalize Num.zero.
  induction Hs as [|doc snap [Hd [q Hq]] Hs IH]; intros acc.
  - symmetry. apply Num_add_zero_r.
  - cbn [foldl]. rewrite IH, Num_sum_omap_cons, Num_add_assoc. f_equal.
    unfold step.
    rewrite monthAmount_inMonthDate, (dashboard_readDate _ Hd), Hq.
    destruct (seconds_month_test month year _ _ Hd eq_refl) as [-> _].
    destruct (Spec.inMonthDate _ _ _ _); [|symmetry; apply Num_add_zero_r].
    change (option_list (Some ?x)) with [x]. by rewrite Num_sum_singleton, Num_truthy_or.
Qed.

(** X13.  The figures of the insight card are those of the balance card.
    When every stored date is a text or a timestamp after the epoch, and
    the zone offset is a whole number of seconds, the income, the expense
    and the savings written into the prompt are the income, the expense and
    the balance the balance card shows for the same month. *)
Theorem insight_figures_agree month year incomeSnap expenseSnap :
  0 <= month <= 11 → 100 <= year <= 200000 →
  Forall (λ doc, Spec.usualDate (Firestore.date (data doc))) incomeSnap →
  Forall (λ doc, Spec.usualDate (Firestore.date (data doc))) expenseSnap →
  let card := TotalBalanceCard.fetchData tza month year incomeSnap expenseSnap in
  let shown := InsightSummaryCard.figures tza month year incomeSnap expenseSnap in
  InsightSummaryCard.totalIncome shown = TotalBalanceCard.currentIncome card
  ∧ InsightSummaryCard.totalExpense shown = TotalBalanceCard.currentExpense card
  ∧ InsightSummaryCard.savings shown = TotalBalanceCard.currentBalance card.
Proof.
  intros Hm Hy Hi He.
  destruct (fetchData_spec tza month year incomeSnap expenseSnap Hm Hy tza_range)
    as (_ & Hci & Hce & Hcb).
  cbv zeta. rewrite Hcb, Hci, Hce.
  unfold InsightSummaryCard.figures.
  cbn [InsightSummaryCard.totalIncome InsightSummaryCard.totalExpense
       InsightSummaryCard.savings].
  rewrite (insight_monthTotal month year incomeSnap Hi).
  rewrite (insight_monthTotal month year expenseSnap He).
  done.
Qed.

(** X14.  The expense tile of the dashboard page shows the expense of the
    balance card.  When every expense record holds a text or a timestamp
    after the epoch as its date and a number other than NaN as its amount,
    and the zone offset is a whole number of seconds, the total computed
    by [fetchExpenses] is the expense the balance card shows for the same
    month. *)
Theorem dashboard_expenses_agree month year incomeSnap expenseSnap :
  0 <= month <= 11 → 100 <= year <= 200000 →
  Forall Spec.usualRecord expenseSnap →
  DashboardPage.fetchExpenses tza month year expenseSnap
  = TotalBalanceCard.currentExpense
      (TotalBalanceCard.fetchData tza month year incomeSnap expenseSnap).
Proof.
  intros Hm Hy He.
  destruct (fetchData_spec tza month year incomeSnap expenseSnap Hm Hy tza_range)
    as (_ & _ & Hce & _).
  rewrite Hce. by apply dashboard_fetchExpenses.
Qed.

End WidgetsAgree.

Lemma insight_figures_agree_witness :
  let card := TotalBalanceCard.fetchData 19800000 0 2024
                [Examples.scenarioIncome] [Examples.scenarioExpense] in
  let shown := InsightSummaryCard.figures 19800000 0 2024
                 [Examples.scenarioIncome] [Examples.scenarioExpense] in
  InsightSummaryCard.totalIncome shown = TotalBalanceCard.currentIncome card
  ∧ InsightSummaryCard.totalExpense shown = TotalBalanceCard.currentExpense card
  ∧ InsightSummaryCard.savings shown = TotalBalanceCard.currentBalance card.
Proof.
  apply (insight_figures_agree 19800000);
    [reflexivity | unfold JSDate.msPerDay; lia | lia | lia
     | repeat constructor | repeat constructor].
Defined.

Lemma dashboard_expenses_agree_witness :
  DashboardPage.fetchExpenses 19800000 0 2024 [Examples.scenarioExpense]
  = TotalBalanceCard.currentExpense
      (TotalBalanceCard.fetchData 19800000 0 2024
         [Examples.scenarioIncome] [Examples.scenarioExpense]).
Proof.
  apply (dashboard_expenses_agree 19800000);
    [reflexivity | unfold JSDate.msPerDay; lia | lia | lia |].
  constructor; [|constructor].
  split; [exact I | eexists; reflexivity].
Defined.

(** ** The income and expense chart against the savings chart *)

Section YearCharts.

Variables (tza : Z).
Hypothesis tza_seconds : tza mod 1000 = 0.
Hypothesis tza_range : - JSDate.msPerDay <= tza <= JSDate.msPerDay.

Lemma chart_readDate raw :
  Spec.usualDate raw →
  IncomeExpenseChart.readDate tza raw
  = (if JS.truthy (JS.seconds raw)
     then JSDate.ofNumber (Num.mul (JS.toNumber (JS.seconds raw)) (Num.of_Z 1000))
     else match raw with VString s => JSDate.ofString tza s | _ => InvalidDate end).
Proof. apply (dashboard_readDate tza). Qed.

Lemma visit_sim year (addS : number → _) (addB : number → _) ms mb doc :
  (∀ a e b, Spec.sameTotals e b → Spec.sameTotals (addS a e) (addB a b)) →
  Spec.usualRecord doc → Forall2 Spec.sameTotals ms mb →
  option_Forall2 (Forall2 Spec.sameTotals)
    (SavingsTrendChart.visit tza year addS ms doc)
    (IncomeExpenseChart.visit tza year addB mb doc).
Proof.
  intros Hadd [Hd [q Hq]] Hsim.
  unfold SavingsTrendChart.visit, IncomeExpenseChart.visit.
  rewrite Hq, (chart_readDate _ Hd), Num_truthy_or.
  destruct (seconds_month_test tza tza_seconds tza_range 0 year _ _ Hd eq_refl)
    as (_ & -> & Hmonth).
  unfold Spec.inYearDate in *.
  change (SavingsTrendChart.parseDate tza) with (TotalBalanceCard.parseDate tza).
  destruct (TotalBalanceCard.parseDate tza (Firestore.date (data doc))) as [[t|]|].
  - rewrite getFullYear_valid, bool_decide_is_Some_if.
    destruct (_ =? year); [|by constructor].
    rewrite (Hmonth _ eq_refl). cbn [JSDate.getMonth].
    unfold Array.update.
    destruct (Num.toIndex _) as [n|]; cbn [mbind option_bind]; [|constructor].
    rewrite <- (Forall2_length _ _ _ Hsim).
    destruct (decide _); constructor.
    apply Forall2_alter; [done|]. intros e b _ _. apply Hadd.
  - rewrite (@bool_decide_is_Some_None Z). by constructor.
  - rewrite (@bool_decide_is_Some_None Z). by constructor.
Qed.

Lemma foldM_visit_sim year (addS : number → _) (addB : number → _) docs :
  (∀ a e b, Spec.sameTotals e b → Spec.sameTotals (addS a e) (addB a b)) →
  Forall Spec.usualRecord docs → ∀ ms mb,
  Forall2 Spec.sameTotals ms mb →
  option_Forall2 (Forall2 Spec.sameTotals)
    (Array.foldM (SavingsTrendChart.visit tza year addS) ms docs)
    (Array.foldM (IncomeExpenseChart.visit tza year addB) mb docs).
Proof.
  intros Hadd Hdocs. induction Hdocs as [|doc docs Hd Hdocs IH]; intros ms mb Hsim.
  - by constructor.
  - cbn [Array.foldM].
    destruct (visit_sim year addS addB ms mb doc Hadd Hd Hsim) as [ms' mb' Hsim'|];
      cbn [mbind option_bind]; [by apply IH | constructor].
Qed.

Lemma addIncome_sim a e b :
  Spec.sameTotals e b →
  Spec.sameTotals (SavingsTrendChart.addIncome a e) (IncomeExpenseChart.addIncome a b).
Proof. intros [H1 H2]. split; simpl; congruence. Qed.

Lemma addExpense_sim a e b :
  Spec.sameTotals e b →
  Spec.sameTotals (SavingsTrendChart.addExpense a e) (IncomeExpenseChart.addExpenses a b).
Proof. intros [H1 H2]. split; simpl; congruence. Qed.

(** the two loops, side by side *)
Lemma year_charts_sim year incomeSnap expenseSnap :
  Forall Spec.usualRecord incomeSnap → Forall Spec.usualRecord expenseSnap →
  IncomeExpenseChart.fetchIncomeExpenseData tza year incomeSnap expenseSnap
  = map Spec.asDataPoint
      <$> SavingsTrendChart.fetchSavingsData tza year incomeSnap expenseSnap.
Proof.
  intros Hi He.
  unfold IncomeExpenseChart.fetchIncomeExpenseData, SavingsTrendChart.fetchSavingsData.
  set (ms0 := map _ SavingsTrendChart.monthNames).
  set (mb0 := replicate 12 _).
  assert (Forall2 Spec.sameTotals ms0 mb0) as H0 by (repeat constructor).
  assert (map SavingsTrendChart.month ms0 = SavingsTrendChart.monthNames) as Hn0
    by reflexivity.
  destruct (foldM_visit_spec SavingsTrendChart.income SavingsTrendChart.expense
              SavingsTrendChart.addIncome ltac:(done) ltac:(done) ltac:(done)
              tza year incomeSnap ms0 eq_refl)
    as (ms1 & Hs1 & Hlen1 & _ & Hm1 & _).
  pose proof (foldM_visit_sim year SavingsTrendChart.addIncome
                IncomeExpenseChart.addIncome incomeSnap) as Hsim1.
  specialize (Hsim1 addIncome_sim Hi ms0 mb0 H0).
  rewrite Hs1 in Hsim1 |- *. inversion Hsim1 as [? mb1 Hsim1' E1 E2|]; subst.
  cbn [mbind option_bind].
  destruct (foldM_visit_spec SavingsTrendChart.expense SavingsTrendChart.income
              SavingsTrendChart.addExpense ltac:(done) ltac:(done) ltac:(done)
              tza year expenseSnap ms1 Hlen1)
    as (ms2 & Hs2 & Hlen2 & _ & Hm2 & _).
  pose proof (foldM_visit_sim year SavingsTrendChart.addExpense
                IncomeExpenseChart.addExpenses expenseSnap) as Hsim2.
  specialize (Hsim2 addExpense_sim He ms1 mb1 Hsim1').
  rewrite Hs2 in Hsim2 |- *. inversion Hsim2 as [? mb2 Hsim2' E3 E4|]; subst.
  cbn [mbind option_bind fmap option_fmap option_map]. f_equal.
  assert (map SavingsTrendChart.month ms2 = SavingsTrendChart.monthNames) as Hn2
    by congruence.
  clear - Hsim2' Hn2.
  rewrite map_map.
  change SavingsTrendChart.monthNames with IncomeExpenseChart.MONTH_NAMES in Hn2.
  revert Hn2. generalize IncomeExpenseChart.MONTH_NAMES. intros names Hn.
  apply list_eq. intros i. rewrite list_lookup_imap, list_lookup_fmap.
  destruct (mb2 !! i) as [b|] eqn:Eb.
  - destruct (Forall2_lookup_r _ _ _ _ _ Hsim2' Eb) as (e & Ee & [H1 H2]).
    rewrite Ee. cbn [fmap option_fmap option_map].
    unfold Spec.asDataPoint. cbn [SavingsTrendChart.month SavingsTrendChart.income
      SavingsTrendChart.expense SavingsTrendChart.setSavings].
    rewrite H1, H2. do 2 f_equal.
    rewrite <- Hn, list_lookup_fmap, Ee. done.
  - destruct (ms2 !! i) as [e|] eqn:Ee; [|done].
    destruct (Forall2_lookup_l _ _ _ _ _ Hsim2' Ee) as (b & Eb' & _). congruence.
Qed.

(** X15.  The income and expense chart draws the data of the savings
    chart.  When every record holds a text or a timestamp after the epoch
    as its date and a number other than NaN as its amount, and the zone
    offset is a whole number of seconds, both charts produce their data,
    and the twelve points of the income and expense chart carry the month,
    the income and the expense of the twelve entries of the savings chart
    for the same year. *)
Theorem year_charts_agree year incomeSnap expenseSnap :
  Forall Spec.usualRecord incomeSnap → Forall Spec.usualRecord expenseSnap →
  ∃ monthly,
    SavingsTrendChart.fetchSavingsData tza year incomeSnap expenseSnap = Some monthly
    ∧ IncomeExpenseChart.fetchIncomeExpenseData tza year incomeSnap expenseSnap
      = Some (map Spec.asDataPoint monthly).
Proof.
  intros Hi He.
  destruct (fetchSavingsData_sums tza year incomeSnap expenseSnap)
    as (monthly & Hf & _).
  exists monthly. split; [exact Hf|].
  rewrite (year_charts_sim year incomeSnap expenseSnap Hi He), Hf.
  reflexivity.
Qed.

End YearCharts.

Lemma year_charts_agree_witness :
  ∃ monthly,
    SavingsTrendChart.fetchSavingsData 19800000 2024
      [Examples.scenarioIncome] [Examples.scenarioExpense] = Some monthly
    ∧ IncomeExpenseChart.fetchIncomeExpenseData 19800000 2024
        [Examples.scenarioIncome] [Examples.scenarioExpense]
      = Some (map Spec.asDataPoint monthly).
Proof.
  apply (year_charts_agree 19800000);
    [reflexivity | unfold JSDate.msPerDay; lia | |];
    (constructor; [|constructor]); (split; [exact I | eexists; reflexivity]).
Defined.

(** ** The change shown by the balance card *)

Section BalanceChange.

Import TotalBalanceCard.

(** X16.  The change shown when the previous month is level.  When the
    amounts are whole numbers that add up without rounding and the balance
    of the month before the selected one is 0, the balance card does not
    divide: it shows a change of 100 if the selected month has a balance
    other than 0, and of 0 if not. *)
Theorem fetchData_change tza month year incomeSnap expenseSnap :
  0 <= month <= 11 → 100 <= year <= 200000 →
  - JSDate.msPerDay <= tza <= JSDate.msPerDay →
  Spec.exactSums (incomeSnap ++ expenseSnap) →
  balance (Spec.historyPoint tza month year incomeSnap expenseSnap 1) = Num.zero →
  change (fetchData tza month year incomeSnap expenseSnap)
  = if Num.strict_eq (balance (Spec.historyPoint tza month year incomeSnap expenseSnap 0))
                     Num.zero
    then Num.zero else Num.of_Z 100.
Proof.
  intros Hm Hy Htza _ Hprev.
  assert (balance (Spec.historyPoint tza month year incomeSnap expenseSnap 0)
          = Num.sub (Num.sum (omap (Spec.monthAmount tza month year) incomeSnap))
                    (Num.sum (omap (Spec.monthAmount tza month year) expenseSnap)))
    as ->.
  { unfold Spec.historyPoint. cbn [balance].
    by rewrite Z.sub_0_r, Z.mod_small, Z.div_small, Z.add_0_r by lia. }
  unfold fetchData. cbn [foldl].
  do 6 (rewrite step_spec by lia). cbn [Z.eqb app].
  cbn [change currentBalance length Nat.sub lookup list_lookup].
  rewrite Hprev.
  replace (Num.strict_eq (Num.or Num.zero Num.zero) Num.zero) with true by reflexivity.
  cbn [negb].
  by destruct (Num.strict_eq _ Num.zero).
Qed.

Lemma fetchData_change_witness :
  let incomeSnap := [Examples.scenarioIncome] in
  let expenseSnap := [Examples.scenarioExpense] in
  change (fetchData 19800000 0 2024 incomeSnap expenseSnap)
  = if Num.strict_eq
         (balance (Spec.historyPoint 19800000 0 2024 incomeSnap expenseSnap 0)) Num.zero
    then Num.zero else Num.of_Z 100.
Proof.
  apply fetchData_change; [lia | lia | unfold JSDate.msPerDay; lia | |].
  - split.
    + repeat constructor; intros _; eexists; reflexivity.
    + vm_compute. discriminate.
  - by_evaluation.
Defined.

End BalanceChange.

(** ** The bars of the expense chart *)

Section ExpenseChartPerMonth.

Import ExpenseChart.

(** one record adds its amount to the bar of its month and to no other *)
Lemma expense_accumulate_bucket tza (mp : gmap string number) r m :
  m ≠ "Invalid Date"%string →
  getOr0 (accumulate tza mp r) m
  = Num.add (getOr0 mp m) (Num.sum (option_list (Spec.expenseAmountIn tza m r))).
Proof.
  intros Hm. unfold accumulate, Spec.expenseAmountIn.
  change getOr0 with IncomeChart.getOr0.
  destruct (parseDate tza (date r)) as [[t|]|];
    try (symmetry; apply Num_add_zero_r).
  - cbn [dayjs_format_MMM].
    destruct (String.eqb_spec (JSDate.monthShort (JSDate.LocalTime tza t)) m) as [->|Hne].
    + rewrite getOr0_insert_eq
        by (apply Num_add_not_NaN; [apply getOr0_not_NaN | apply Num_or_zero_not_NaN]).
      f_equal. change (option_list (Some ?x)) with [x].
      by rewrite Num_sum_cons, (Num_add_zero_r (Num.or _ _)).
    + rewrite getOr0_insert_ne by done. symmetry. apply Num_add_zero_r.
  - cbn [dayjs_format_MMM]. rewrite getOr0_insert_ne by done.
    symmetry. apply Num_add_zero_r.
Qed.

Lemma expense_foldl_accumulate_bucket tza rs m : ∀ mp : gmap string number,
  m ≠ "Invalid Date"%string →
  getOr0 (foldl (accumulate tza) mp rs) m
  = Num.add (getOr0 mp m) (Num.sum (omap (Spec.expenseAmountIn tza m) rs)).
Proof.
  induction rs as [|r rs IH]; intros mp Hm.
  - symmetry. apply Num_add_zero_r.
  - cbn [foldl].
    by rewrite IH, expense_accumulate_bucket, <- Num_add_assoc, Num_sum_omap_cons.
Qed.

(** X17.  The bars of the expense chart.  The chart always has twelve
    bars, January to December.  Each bar is the sum of the amounts of the
    records dated in that month, of whatever year, an amount that is not
    usable counting as 0; a record whose date does not parse adds to no
    bar, and no bar is NaN. *)
Theorem expense_chart_bars tza rs :
  buildMonthlyExpenseData tza rs
  = map (λ m, {| name := m;
                 expense := Num.sum (omap (Spec.expenseAmountIn tza m) rs) |})
        MONTHS
  ∧ Forall (λ e, expense e ≠ NaN) (buildMonthlyExpenseData tza rs).
Proof.
  split.
  - unfold buildMonthlyExpenseData. apply map_ext_in. intros m Hm. f_equal.
    rewrite expense_foldl_accumulate_bucket.
    + apply Num_add_zero_l.
    + intros ->. revert Hm. unfold MONTHS. cbn. intuition discriminate.
  - unfold buildMonthlyExpenseData. apply Forall_map, Forall_forall. intros m _.
    cbn [expense]. apply (getOr0_not_NaN _ m).
Qed.

End ExpenseChartPerMonth.

(** ** What one user writes, another user does not read *)

Section Isolation.

Lemma sameView_refl u db : Spec.sameView u db db.
Proof. by split. Qed.

Lemma sameView_addDoc u name d db :
  userId d ≠ u → Spec.sameView u db (addDoc name d db).
Proof.
  intros Hne. unfold Spec.sameView, whereUserId.
  destruct name; cbn [addDoc incomes expenses]; (split; [|try done]); try done.
  - rewrite filter_app, filter_cons_False, filter_nil, app_nil_r; done.
  - rewrite filter_app, filter_cons_False, filter_nil, app_nil_r; done.
Qed.

Lemma sameView_trans u db1 db2 db3 :
  Spec.sameView u db1 db2 → Spec.sameView u db2 db3 → Spec.sameView u db1 db3.
Proof. intros [H1 H2] [H3 H4]. split; congruence. Qed.

Lemma sameView_GET tza u from to db db' :
  Spec.sameView u db db' →
  SummaryRoute.GET tza (Some u) from to db' = SummaryRoute.GET tza (Some u) from to db.
Proof.
  intros [Hi He]. unfold SummaryRoute.GET. by rewrite Hi, He.
Qed.

Lemma income_form_sameView u v form db :
  u ≠ v → Spec.sameView u db (AddIncomeForm.handleSubmit form (Some v) db).2.
Proof.
  intros Hne. unfold AddIncomeForm.handleSubmit.
  destruct (AddIncomeForm.date form) as [d|]; [|apply sameView_refl].
  destruct (negb _ || negb _); [apply sameView_refl|].
  destruct (Num.isNaN _ || Num.le _ _); [apply sameView_refl|].
  destruct (JSDate.toISOString d); [|apply sameView_refl].
  apply sameView_addDoc. cbn [userId]. congruence.
Qed.

Lemma expense_form_sameView u v form db :
  u ≠ v → Spec.sameView u db (AddExpenseForm.handleSubmit form (Some v) db).2.
Proof.
  intros Hne. unfold AddExpenseForm.handleSubmit.
  destruct (AddExpenseForm.date form) as [d|]; [|apply sameView_refl].
  destruct (negb _ || negb _); [apply sameView_refl|].
  destruct (Num.isNaN _ || Num.le _ _); [apply sameView_refl|].
  destruct (_ && negb _); [apply sameView_refl|].
  destruct (JSDate.toISOString d); [|apply sameView_refl].
  apply sameView_addDoc. cbn [userId]. congruence.
Qed.

Lemma upload_sameView u v tza now txs db :
  u ≠ v →
  Spec.sameView u db (UploadTransactions.handleSaveToFirebase tza now (Some v) txs db).2.
Proof.
  intros Hne.
  unfold UploadTransactions.handleSaveToFirebase, UploadTransactions.handleSave.
  destruct txs as [|tx txs]; [apply sameView_refl|].
  cbn [snd]. generalize (tx :: txs). clear tx txs. intros txs. revert db.
  induction txs as [|tx txs IH]; intros db; [apply sameView_refl|].
  cbn [foldl]. eapply sameView_trans; [|apply IH].
  apply sameView_addDoc. cbn [UploadTransactions.toDoc userId]. congruence.
Qed.

(** X18.  What one user saves, another user does not see.  After the
    income form, the expense form or the statement upload has run for the
    user [v], any other user [u] finds the same income and expense records
    as before, and the summary endpoint answers [u] as before. *)
Theorem writes_stay_with_their_user tza u v from to db db' :
  u ≠ v →
  (∃ form, db' = (AddIncomeForm.handleSubmit form (Some v) db).2)
  ∨ (∃ form, db' = (AddExpenseForm.handleSubmit form (Some v) db).2)
  ∨ (∃ now txs, db' = (UploadTransactions.handleSaveToFirebase tza now (Some v) txs db).2) →
  whereUserId u (incomes db') = whereUserId u (incomes db)
  ∧ whereUserId u (expenses db') = whereUserId u (expenses db)
  ∧ SummaryRoute.GET tza (Some u) from to db' = SummaryRoute.GET tza (Some u) from to db.
Proof.
  intros Hne Hw.
  assert (Spec.sameView u db db') as Hv.
  { destruct Hw as [[form ->] | [[form ->] | (now & txs & ->)]].
    - by apply income_form_sameView.
    - by apply expense_form_sameView.
    - by apply upload_sameView. }
  destruct Hv as [Hi He]. split; [exact Hi|]. split; [exact He|].
  by apply sameView_GET.
Qed.

Lemma writes_stay_with_their_user_witness :
  let db' := (AddIncomeForm.handleSubmit (Examples.incomeForm "12.50") (Some "u2"%string)
                Examples.emptyStore).2 in
  whereUserId "u1" (incomes db') = whereUserId "u1" (incomes Examples.emptyStore)
  ∧ whereUserId "u1" (expenses db') = whereUserId "u1" (expenses Examples.emptyStore)
  ∧ SummaryRoute.GET 0 (Some "u1"%string) None None db'
    = SummaryRoute.GET 0 (Some "u1"%string) None None Examples.emptyStore.
Proof.
  apply (writes_stay_with_their_user 0 "u1" "u2" None None Examples.emptyStore).
  - discriminate.
  - left. eexists. reflexivity.
Defined.

End Isolation.

(** ** A saved income reaches the balance card *)

Section FormToCard.



End FormToCard.

(** ** A saved income reaches the income chart *)

Section FormToChart.

Import IncomeChart.

(** date-fns' [parseISO] reads the text written by [toISOString] as
    [new Date] does: the text carries its own offset *)
Lemma iso_string_parseISO tza t iso :
  0 <= JSDate.YearFromTime t <= 9999 →
  JSDate.toISOString (ValidDate t) = Some iso →
  JSDate.parseISO tza iso = JSDate.TimeClip t.
Proof.
  intros Hy [= <-]. unfold JSDate.parseISO.
  cbn [JSDate.toISOString].
  replace ((0 <=? JSDate.YearFromTime t) && (JSDate.YearFromTime t <=? 9999)) with true.
  2:{ symmetry. rewrite andb_true_iff, !Z.leb_le. lia. }
  destruct (time_of_day_fields t) as (Hh & Hmi & Hs & Hms & Htime).
  pose proof (civil_month_range (JSDate.Day t)) as Hm.
  pose proof (civil_day_range (JSDate.Day t)) as Hd. cbv zeta in Hd.
  pose proof (MakeDay_civil (JSDate.Day t)) as Hday. cbv zeta in Hday.
  unfold JSDate.MonthFromTime, JSDate.DateFromTime, JSDate.YearFromTime in *.
  set (c := JSDate.civil_from_days (JSDate.Day t)) in *.
  assert (JSDate.c_day c <= 31) as Hd31.
  { destruct Hd as [_ Hd]. unfold JSDate.DaysInMonth in Hd.
    destruct (JSDate.c_month c =? 2);
      [destruct (JSDate.isLeapYear _) | destruct (_ || _)]. all: lia. }
  unfold JSDate.parse_format.
  erewrite parse_year_digits; cycle 1.
  { apply (take_digits_padStart0 4); [lia|].
    change (10 ^ Z.of_nat 4) with 10000. lia. }
  cbn [mbind option_bind].
  rewrite Str_append_cons, Str_append_nil_l.
  rewrite parse_opt2_present by lia. cbn [mbind option_bind].
  rewrite Str_append_cons, Str_append_nil_l.
  rewrite parse_opt2_present by lia. cbn [mbind option_bind default from_option Datatypes.id].
  replace (JSDate.c_month c - 1 + 1) with (JSDate.c_month c) by lia.
  replace (negb _) with false.
  2:{ symmetry. apply negb_false_iff. rewrite !andb_true_iff, !Z.leb_le. lia. }
  rewrite Str_append_cons, Str_append_nil_l.
  rewrite parse_time_iso by lia. cbn [mbind option_bind].
  f_equal. rewrite Hday, Htime.
  unfold JSDate.MakeDate, JSDate.Day, JSDate.TimeWithinDay, JSDate.msPerDay.
  Z.div_mod_to_equations. lia.
Qed.



End FormToChart.
